(** * threat-intel-backend: authentication, roles and order workflow

    A shallow embedding of the Go packages [domain], [infrastructure/jwt]
    and [application], followed by the properties proved about them.

    Go strings are byte strings ([string]); Go [int] and the nanosecond
    readings of [time.Now()] are [Z]; a Go [(value, error)] pair is a
    [result]; a pointer that is only read is the value it points to.
    The sources of non-determinism ([time.Now], [uuid.New]) and the
    database behind the repositories are threaded through a state monad. *)

From Stdlib Require Import ZArith NArith Ascii String List Lia.
From stdpp Require Import base gmap strings.
Import ListNotations.

Open Scope string_scope.
Open Scope Z_scope.

(* ================================================================== *)
(** * Go runtime: errors, results, the world *)

(** [errors.New(msg)]: the tests compare errors by their message. *)
Inductive error : Type :=
  | errors_New (msg : string).

Definition Error_ (e : error) : string :=
  match e with errors_New msg => msg end.

(** A Go return pair [(v, err)] with [err == nil] iff [v] is meaningful. *)
Inductive result (A : Type) : Type :=
  | Ok (a : A)
  | Err (e : error).
Arguments Ok {A} a.
Arguments Err {A} e.

Definition is_Ok {A} (r : result A) : bool :=
  match r with Ok _ => true | Err _ => false end.

(** Wall-clock instants and durations, in nanoseconds. *)
Definition Time := Z.
Definition Duration := Z.
Definition Second : Duration := 1000000000.
Definition Minute : Duration := 60 * Second.
Definition Hour : Duration := 60 * Minute.

(** [t.Truncate(time.Second)] *)
Definition Truncate (t : Time) (d : Duration) : Time := t - t mod d.

(** [uuid.UUID] is [[16]byte]. *)
Record UUID : Type := mkUUID {
  u0 : ascii; u1 : ascii; u2 : ascii; u3 : ascii;
  u4 : ascii; u5 : ascii; u6 : ascii; u7 : ascii;
  u8 : ascii; u9 : ascii; u10 : ascii; u11 : ascii;
  u12 : ascii; u13 : ascii; u14 : ascii; u15 : ascii
}.

Definition UUID_eqb (a b : UUID) : bool :=
  Ascii.eqb (u0 a) (u0 b) && Ascii.eqb (u1 a) (u1 b) &&
  Ascii.eqb (u2 a) (u2 b) && Ascii.eqb (u3 a) (u3 b) &&
  Ascii.eqb (u4 a) (u4 b) && Ascii.eqb (u5 a) (u5 b) &&
  Ascii.eqb (u6 a) (u6 b) && Ascii.eqb (u7 a) (u7 b) &&
  Ascii.eqb (u8 a) (u8 b) && Ascii.eqb (u9 a) (u9 b) &&
  Ascii.eqb (u10 a) (u10 b) && Ascii.eqb (u11 a) (u11 b) &&
  Ascii.eqb (u12 a) (u12 b) && Ascii.eqb (u13 a) (u13 b) &&
  Ascii.eqb (u14 a) (u14 b) && Ascii.eqb (u15 a) (u15 b).

(** The world a request runs in: the successive readings of the wall
    clock, the successive draws of [uuid.New()], and the database. *)
Record World (DB : Type) : Type := mkWorld {
  clock : nat -> Time;
  ticks : nat;
  rand : nat -> UUID;
  draws : nat;
  db : DB
}.
Arguments mkWorld {DB}.
Arguments clock {DB}.
Arguments ticks {DB}.
Arguments rand {DB}.
Arguments draws {DB}.
Arguments db {DB}.

Definition M (DB A : Type) : Type := World DB -> A * World DB.

Definition ret {DB A} (a : A) : M DB A := fun w => (a, w).

Definition bind {DB A B} (m : M DB A) (k : A -> M DB B) : M DB B :=
  fun w => let (a, w') := m w in k a w'.

Notation "'do' x <- m ; k" := (bind m (fun x => k))
  (at level 10, x name, m at level 100, k at level 200,
   format "'[v' 'do'  x  <-  m ; '/' k ']'").

(** [time.Now()] *)
Definition time_Now {DB} : M DB Time :=
  fun w => (clock w (ticks w),
            mkWorld (clock w) (S (ticks w)) (rand w) (draws w) (db w)).

(** The instant the next [time.Now()] returns. *)
Definition now {DB} (w : World DB) : Time := clock w (ticks w).

(** [uuid.New()] *)
Definition uuid_New {DB} : M DB UUID :=
  fun w => (rand w (draws w),
            mkWorld (clock w) (ticks w) (rand w) (S (draws w)) (db w)).

(** A database operation, lifted to the world. *)
Definition onDB {DB A} (f : DB -> A * DB) : M DB A :=
  fun w => let (a, d) := f (db w) in
           (a, mkWorld (clock w) (ticks w) (rand w) (draws w) d).

(* ================================================================== *)
(** * package domain *)

Module domain.

Definition UserRole := string.

Definition RoleAdmin : UserRole := "admin".
Definition RoleAnalyst : UserRole := "analyst".
Definition RoleViewer : UserRole := "viewer".

Record User : Type := mkUser {
  ID : UUID;
  Email : string;
  PasswordHash : string;
  Role : UserRole;
  IsActive : bool;
  CreatedAt : Time;
  UpdatedAt : Time
}.

(** The map literal of [HasPermission]. *)
Definition roleHierarchy : gmap string Z :=
  <[RoleViewer := 1]> (<[RoleAnalyst := 2]> (<[RoleAdmin := 3]> ∅)).

(** Indexing a Go map yields the zero value for a missing key. *)
Definition index (m : gmap string Z) (k : string) : Z := default 0 (m !! k).

Definition HasPermission (u : User) (requiredRole : UserRole) : bool :=
  index roleHierarchy (Role u) >=? index roleHierarchy requiredRole.

(** [bcrypt.CompareHashAndPassword(hash, password) == nil] *)
Class Bcrypt : Type := {
  bcrypt_matches : string -> string -> bool
}.

Definition ValidatePassword `{Bcrypt} (u : User) (password : string) : bool :=
  bcrypt_matches (PasswordHash u) password.

End domain.

Module order.
Import domain.

Inductive OrderStatus : Type :=
  | OrderStatusPending
  | OrderStatusConfirmed
  | OrderStatusCompleted
  | OrderStatusCancelled.

Definition OrderStatus_string (s : OrderStatus) : string :=
  match s with
  | OrderStatusPending => "pending"
  | OrderStatusConfirmed => "confirmed"
  | OrderStatusCompleted => "completed"
  | OrderStatusCancelled => "cancelled"
  end.

(** The denormalised [User] field is filled by the storage layer on
    reads; [NewOrder] leaves it at its zero value, here [None]. *)
Record Order : Type := mkOrder {
  ID : UUID;
  UserID : UUID;
  ItemID : string;
  Quantity : Z;
  Status : OrderStatus;
  CreatedAt : Time;
  UpdatedAt : Time;
  Owner : option User
}.

Record OrderAggregate : Type := mkOrderAggregate {
  Order_ : Order
}.

Definition NewOrder {DB} (userID : UUID) (itemID : string) (quantity : Z)
  : M DB OrderAggregate :=
  do id <- uuid_New;
  do created <- time_Now;
  do updated <- time_Now;
  ret (mkOrderAggregate
         (mkOrder id userID itemID quantity OrderStatusPending
                  created updated None)).

Definition setStatus (o : Order) (s : OrderStatus) (t : Time) : Order :=
  mkOrder (ID o) (UserID o) (ItemID o) (Quantity o) s (CreatedAt o) t (Owner o).

Definition Confirm {DB} (oa : OrderAggregate) : M DB OrderAggregate :=
  do t <- time_Now;
  ret (mkOrderAggregate (setStatus (Order_ oa) OrderStatusConfirmed t)).

Definition Complete {DB} (oa : OrderAggregate) : M DB OrderAggregate :=
  do t <- time_Now;
  ret (mkOrderAggregate (setStatus (Order_ oa) OrderStatusCompleted t)).

Definition Cancel {DB} (oa : OrderAggregate) : M DB OrderAggregate :=
  do t <- time_Now;
  ret (mkOrderAggregate (setStatus (Order_ oa) OrderStatusCancelled t)).

End order.

(* ================================================================== *)
(** * crypto/sha256, crypto/sha512 and crypto/hmac *)

(** The SHA-2 compression function, for 32-bit words (SHA-256) and
    64-bit words (SHA-384, SHA-512). *)
Module sha2.

Definition bytes := list Z.

Definition bytes_of_string (s : string) : bytes :=
  map (fun c => Z.of_N (N_of_ascii c)) (list_ascii_of_string s).

Definition string_of_bytes (l : bytes) : string :=
  string_of_list_ascii (map (fun b => ascii_of_N (Z.to_N b)) l).

Record variant : Type := mkVariant {
  wbits : Z;              (* word size in bits *)
  wbytes : nat;           (* word size in bytes *)
  rounds : nat;           (* rounds after the first sixteen *)
  bigS0 : Z * Z * Z;      (* rotations of Sigma0 *)
  bigS1 : Z * Z * Z;      (* rotations of Sigma1 *)
  smallS0 : Z * Z * Z;    (* rotations and shift of sigma0 *)
  smallS1 : Z * Z * Z;    (* rotations and shift of sigma1 *)
  K : list Z
}.

Section Compression.
Variable v : variant.

Definition wrap (x : Z) : Z := x mod 2 ^ wbits v.

Definition rotr (n x : Z) : Z :=
  Z.lor (Z.shiftr x n) (wrap (Z.shiftl x (wbits v - n))).

Definition Ch (x y z : Z) : Z :=
  Z.lxor (Z.land x y) (Z.land (Z.lxor x (2 ^ wbits v - 1)) z).

Definition Maj (x y z : Z) : Z :=
  Z.lxor (Z.lxor (Z.land x y) (Z.land x z)) (Z.land y z).

Definition rot3 (r : Z * Z * Z) (x : Z) : Z :=
  let '(a, b, c) := r in Z.lxor (Z.lxor (rotr a x) (rotr b x)) (rotr c x).

Definition rot2shift (r : Z * Z * Z) (x : Z) : Z :=
  let '(a, b, c) := r in Z.lxor (Z.lxor (rotr a x) (rotr b x)) (Z.shiftr x c).

(** Big-endian words of a block. *)
Fixpoint be (l : bytes) : Z :=
  match l with
  | [] => 0
  | b :: r => b * 256 ^ Z.of_nat (length r) + be r
  end.

Fixpoint words (fuel : nat) (l : bytes) : list Z :=
  match fuel, l with
  | S fuel', _ :: _ =>
      be (firstn (wbytes v) l) :: words fuel' (skipn (wbytes v) l)
  | _, _ => []
  end.

Fixpoint be_bytes (n : nat) (x : Z) : bytes :=
  match n with
  | O => []
  | S n' => (x / 256 ^ Z.of_nat n' mod 256) :: be_bytes n' x
  end.

(** The message schedule: [w] holds W(t-16) .. W(t-1). *)
Fixpoint schedule (n : nat) (w : list Z) : list Z :=
  match n, w with
  | S n', w16 :: rest =>
      let w15 := nth 0 rest 0 in
      let w7 := nth 8 rest 0 in
      let w2 := nth 13 rest 0 in
      w16 :: schedule n'
        (rest ++ [wrap (rot2shift (smallS1 v) w2 + w7
                        + rot2shift (smallS0 v) w15 + w16)])%list
  | _, _ => w
  end.

Definition round (st : list Z) (kw : Z * Z) : list Z :=
  match st with
  | [a; b; c; d; e; f; g; h] =>
      let t1 := h + rot3 (bigS1 v) e + Ch e f g + fst kw + snd kw in
      let t2 := rot3 (bigS0 v) a + Maj a b c in
      [ wrap (t1 + t2); a; b; c; wrap (d + t1); e; f; g ]
  | _ => st
  end.

Definition compress (st : list Z) (block : bytes) : list Z :=
  let w := schedule (rounds v) (words 16 block) in
  let st' := fold_left round (combine (K v) w) st in
  map (fun p => wrap (fst p + snd p)) (combine st st').

Definition blockSize : nat := (16 * wbytes v)%nat.

(** A one bit, zeros, and the bit length in two words. *)
Definition pad (msg : bytes) : bytes :=
  let len := Z.of_nat (length msg) in
  let bs := Z.of_nat blockSize in
  let lenBytes := (2 * wbytes v)%nat in
  let zeros := Z.to_nat ((bs - 1 - Z.of_nat lenBytes - len) mod bs) in
  (msg ++ [128] ++ repeat 0 zeros ++ be_bytes lenBytes (len * 8))%list.

Fixpoint blocks (fuel : nat) (l : bytes) : list bytes :=
  match fuel, l with
  | S fuel', _ :: _ => firstn blockSize l :: blocks fuel' (skipn blockSize l)
  | _, _ => []
  end.

Definition digest (init : list Z) (outBytes : nat) (s : string) : string :=
  let p := pad (bytes_of_string s) in
  let st := fold_left compress (blocks (length p) p) init in
  string_of_bytes (firstn outBytes (flat_map (be_bytes (wbytes v)) st)).

End Compression.
End sha2.

(** The constants of FIPS 180-4 are fractional parts of roots of the
    first primes, which is how they are obtained here. *)
Module fips.

Definition primes : list Z :=
  [ 2; 3; 5; 7; 11; 13; 17; 19; 23; 29; 31; 37; 41; 43; 47; 53; 59; 61; 67;
    71; 73; 79; 83; 89; 97; 101; 103; 107; 109; 113; 127; 131; 137; 139; 149;
    151; 157; 163; 167; 173; 179; 181; 191; 193; 197; 199; 211; 223; 227;
    229; 233; 239; 241; 251; 257; 263; 269; 271; 277; 281; 283; 293; 307;
    311; 313; 317; 331; 337; 347; 349; 353; 359; 367; 373; 379; 383; 389;
    397; 401; 409 ].

(** The largest [r] in [lo, hi) with [r ^ k <= n], by bisection. *)
Fixpoint root (k : Z) (fuel : nat) (lo hi n : Z) : Z :=
  match fuel with
  | O => lo
  | S fuel' =>
      if hi - lo <=? 1 then lo
      else
        let mid := (lo + hi) / 2 in
        if mid ^ k <=? n then root k fuel' mid hi n
        else root k fuel' lo mid n
  end.

(** The first [bits] bits of the fractional part of the [k]-th root. *)
Definition fraction (k bits : Z) (p : Z) : Z :=
  root k (Z.to_nat (bits + 8)) 0 (2 ^ (bits + 6)) (p * 2 ^ (k * bits))
  mod 2 ^ bits.

End fips.

Module sha256.

Definition variant : sha2.variant :=
  sha2.mkVariant 32 4 48 (2, 13, 22) (6, 11, 25) (7, 18, 3) (17, 19, 10)
    (map (fips.fraction 3 32) (firstn 64 fips.primes)).

Definition init : list Z := map (fips.fraction 2 32) (firstn 8 fips.primes).

Definition Sum256 (s : string) : string := sha2.digest variant init 32 s.

Definition BlockSize : nat := 64.

End sha256.

Module sha512.

Definition variant : sha2.variant :=
  sha2.mkVariant 64 8 64 (28, 34, 39) (14, 18, 41) (1, 8, 7) (19, 61, 6)
    (map (fips.fraction 3 64) fips.primes).

Definition init : list Z := map (fips.fraction 2 64) (firstn 8 fips.primes).

Definition init384 : list Z :=
  map (fips.fraction 2 64) (firstn 8 (skipn 8 fips.primes)).

Definition Sum512 (s : string) : string := sha2.digest variant init 64 s.

Definition Sum384 (s : string) : string := sha2.digest variant init384 48 s.

Definition BlockSize : nat := 128.

End sha512.

Module hmac.

Definition xor_byte (x : Z) (c : ascii) : ascii :=
  ascii_of_N (Z.to_N (Z.lxor (Z.of_N (N_of_ascii c)) x)).

Fixpoint xor_pad (x : Z) (s : string) : string :=
  match s with
  | EmptyString => EmptyString
  | String c r => String (xor_byte x c) (xor_pad x r)
  end.

Fixpoint zeros (n : nat) : string :=
  match n with
  | O => EmptyString
  | S n' => String zero (zeros n')
  end.

(** [hmac.New]: a key longer than the block is hashed first, then the
    key is copied into a zeroed block. *)
Definition key_block (hash : string -> string) (blocksize : nat)
    (key : string) : string :=
  let key' := if (blocksize <? String.length key)%nat then hash key else key in
  key' +:+ zeros (blocksize - String.length key').

(** [h := hmac.New(hash, key); h.Write(msg); h.Sum(nil)] *)
Definition Sum (hash : string -> string) (blocksize : nat)
    (key msg : string) : string :=
  let kb := key_block hash blocksize key in
  hash (xor_pad 0x5c kb +:+ hash (xor_pad 0x36 kb +:+ msg)).

End hmac.

(* ================================================================== *)
(** * encoding/base64: [RawURLEncoding] *)

Module base64.

(** Six bits, most significant first. *)
Definition sextet : Type := (bool * bool * bool * bool * bool * bool)%type.

Definition encodeURL : string :=
  "ABCDEFGHIJKLMNOPQRSTUVWXYZabcdefghijklmnopqrstuvwxyz0123456789-_".

Definition bit (b : bool) (w : nat) : nat := if b then w else O.

Definition sextet_index (s : sextet) : nat :=
  let '(b5, b4, b3, b2, b1, b0) := s in
  (bit b5 32 + bit b4 16 + bit b3 8 + bit b2 4 + bit b1 2 + bit b0 1)%nat.

Definition sextet_of_index (n : nat) : sextet :=
  (Nat.testbit n 5, Nat.testbit n 4, Nat.testbit n 3,
   Nat.testbit n 2, Nat.testbit n 1, Nat.testbit n 0).

Definition encodeChar (s : sextet) : ascii :=
  match String.get (sextet_index s) encodeURL with
  | Some c => c
  | None => zero
  end.

Fixpoint indexByte (c : ascii) (s : string) (i : nat) : option nat :=
  match s with
  | EmptyString => None
  | String d r => if Ascii.eqb c d then Some i else indexByte c r (S i)
  end.

Definition decodeChar (c : ascii) : option sextet :=
  match indexByte c encodeURL O with
  | Some i => Some (sextet_of_index i)
  | None => None
  end.

Fixpoint EncodeToString (src : string) : string :=
  match src with
  | EmptyString => EmptyString
  | String (Ascii a0 a1 a2 a3 a4 a5 a6 a7) EmptyString =>
      String (encodeChar (a7, a6, a5, a4, a3, a2))
        (String (encodeChar (a1, a0, false, false, false, false)) EmptyString)
  | String (Ascii a0 a1 a2 a3 a4 a5 a6 a7)
      (String (Ascii b0 b1 b2 b3 b4 b5 b6 b7) EmptyString) =>
      String (encodeChar (a7, a6, a5, a4, a3, a2))
        (String (encodeChar (a1, a0, b7, b6, b5, b4))
          (String (encodeChar (b3, b2, b1, b0, false, false)) EmptyString))
  | String (Ascii a0 a1 a2 a3 a4 a5 a6 a7)
      (String (Ascii b0 b1 b2 b3 b4 b5 b6 b7)
        (String (Ascii c0 c1 c2 c3 c4 c5 c6 c7) rest)) =>
      String (encodeChar (a7, a6, a5, a4, a3, a2))
        (String (encodeChar (a1, a0, b7, b6, b5, b4))
          (String (encodeChar (b3, b2, b1, b0, c7, c6))
            (String (encodeChar (c5, c4, c3, c2, c1, c0))
              (EncodeToString rest))))
  end.

(** The decoder skips carriage returns and line feeds. *)
Definition newline (c : ascii) : bool :=
  Ascii.eqb c "010"%char || Ascii.eqb c "013"%char.

Fixpoint stripNewlines (s : string) : string :=
  match s with
  | EmptyString => EmptyString
  | String c r =>
      if newline c then stripNewlines r else String c (stripNewlines r)
  end.

Definition byte1 (s1 s2 : sextet) : ascii :=
  let '(a7, a6, a5, a4, a3, a2) := s1 in
  let '(a1, a0, _, _, _, _) := s2 in
  Ascii a0 a1 a2 a3 a4 a5 a6 a7.

Definition byte2 (s2 s3 : sextet) : ascii :=
  let '(_, _, b7, b6, b5, b4) := s2 in
  let '(b3, b2, b1, b0, _, _) := s3 in
  Ascii b0 b1 b2 b3 b4 b5 b6 b7.

Definition byte3 (s3 s4 : sextet) : ascii :=
  let '(_, _, _, _, c7, c6) := s3 in
  let '(c5, c4, c3, c2, c1, c0) := s4 in
  Ascii c0 c1 c2 c3 c4 c5 c6 c7.

(** Quanta of four characters; a final quantum of two or three
    characters is accepted (no padding), of one character is corrupt.
    Left-over bits of a final quantum are not checked (not [Strict]). *)
Fixpoint decodeQuanta (s : string) : option string :=
  match s with
  | EmptyString => Some EmptyString
  | String _ EmptyString => None
  | String c1 (String c2 EmptyString) =>
      match decodeChar c1, decodeChar c2 with
      | Some s1, Some s2 => Some (String (byte1 s1 s2) EmptyString)
      | _, _ => None
      end
  | String c1 (String c2 (String c3 EmptyString)) =>
      match decodeChar c1, decodeChar c2, decodeChar c3 with
      | Some s1, Some s2, Some s3 =>
          Some (String (byte1 s1 s2) (String (byte2 s2 s3) EmptyString))
      | _, _, _ => None
      end
  | String c1 (String c2 (String c3 (String c4 rest))) =>
      match decodeChar c1, decodeChar c2, decodeChar c3, decodeChar c4 with
      | Some s1, Some s2, Some s3, Some s4 =>
          match decodeQuanta rest with
          | Some r =>
              Some (String (byte1 s1 s2)
                     (String (byte2 s2 s3) (String (byte3 s3 s4) r)))
          | None => None
          end
      | _, _, _, _ => None
      end
  end.

Definition DecodeString (s : string) : option string :=
  decodeQuanta (stripNewlines s).

End base64.

(* ================================================================== *)
(** * github.com/google/uuid: text form *)

Module uuid.

Definition nibble : Type := (bool * bool * bool * bool)%type.

Definition nibble_index (n : nibble) : nat :=
  let '(b3, b2, b1, b0) := n in
  (base64.bit b3 8 + base64.bit b2 4 + base64.bit b1 2 + base64.bit b0 1)%nat.

Definition hexChar (n : nibble) : ascii :=
  match String.get (nibble_index n) "0123456789abcdef" with
  | Some c => c
  | None => zero
  end.

(** The table [xvalues]: both cases of the hexadecimal digits. *)
Definition xvalue (c : ascii) : option nibble :=
  let of_index (i : nat) : nibble :=
    (Nat.testbit i 3, Nat.testbit i 2, Nat.testbit i 1, Nat.testbit i 0) in
  match base64.indexByte c "0123456789abcdef" O with
  | Some i => Some (of_index i)
  | None =>
      match base64.indexByte c "ABCDEF" 10 with
      | Some i => Some (of_index i)
      | None => None
      end
  end.

Definition hi (c : ascii) : nibble :=
  let '(Ascii _ _ _ _ a4 a5 a6 a7) := c in (a7, a6, a5, a4).

Definition lo (c : ascii) : nibble :=
  let '(Ascii a0 a1 a2 a3 _ _ _ _) := c in (a3, a2, a1, a0).

Definition xtob (x1 x2 : ascii) : option ascii :=
  match xvalue x1, xvalue x2 with
  | Some (a7, a6, a5, a4), Some (a3, a2, a1, a0) =>
      Some (Ascii a0 a1 a2 a3 a4 a5 a6 a7)
  | _, _ => None
  end.

Definition hex2 (c : ascii) (k : string) : string :=
  String (hexChar (hi c)) (String (hexChar (lo c)) k).

Definition dash (k : string) : string := String "-"%char k.

(** [UUID.String]: xxxxxxxx-xxxx-xxxx-xxxx-xxxxxxxxxxxx *)
Definition String_ (u : UUID) : string :=
  hex2 (u0 u) (hex2 (u1 u) (hex2 (u2 u) (hex2 (u3 u) (dash
  (hex2 (u4 u) (hex2 (u5 u) (dash
  (hex2 (u6 u) (hex2 (u7 u) (dash
  (hex2 (u8 u) (hex2 (u9 u) (dash
  (hex2 (u10 u) (hex2 (u11 u) (hex2 (u12 u) (hex2 (u13 u)
  (hex2 (u14 u) (hex2 (u15 u) EmptyString))))))))))))))))))).

Definition ErrInvalidFormat : error := errors_New "invalid UUID format".
Definition ErrInvalidLength : error := errors_New "invalid UUID length".

Definition isDash (c : ascii) : bool := Ascii.eqb c "-"%char.

(** [uuid.Parse] on the 36-character form.  The other spellings it
    accepts (urn:uuid: prefix, braces, 32 bare digits) are never
    produced by [String_] and are reported as a length error here. *)
Definition Parse (s : string) : result UUID :=
  match list_ascii_of_string s with
  | [ c0; c1; c2; c3; c4; c5; c6; c7; d8;
      c9; c10; c11; c12; d13;
      c14; c15; c16; c17; d18;
      c19; c20; c21; c22; d23;
      c24; c25; c26; c27; c28; c29; c30; c31; c32; c33; c34; c35 ] =>
      if isDash d8 && isDash d13 && isDash d18 && isDash d23 then
        match xtob c0 c1, xtob c2 c3, xtob c4 c5, xtob c6 c7,
              xtob c9 c10, xtob c11 c12, xtob c14 c15, xtob c16 c17,
              xtob c19 c20, xtob c21 c22, xtob c24 c25, xtob c26 c27,
              xtob c28 c29, xtob c30 c31, xtob c32 c33, xtob c34 c35 with
        | Some b0, Some b1, Some b2, Some b3, Some b4, Some b5, Some b6,
          Some b7, Some b8, Some b9, Some b10, Some b11, Some b12,
          Some b13, Some b14, Some b15 =>
            Ok (mkUUID b0 b1 b2 b3 b4 b5 b6 b7 b8 b9 b10 b11 b12 b13 b14 b15)
        | _, _, _, _, _, _, _, _, _, _, _, _, _, _, _, _ =>
            Err ErrInvalidFormat
        end
      else Err ErrInvalidFormat
  | _ => Err ErrInvalidLength
  end.

End uuid.

(* ================================================================== *)
(** * encoding/json *)

Module json.

(** A JSON text, parsed.  Numbers are the whole numbers the claims of
    this service use. *)
#[local] Unset Elimination Schemes.
Inductive value : Type :=
  | JNull
  | JBool (b : bool)
  | JNumber (n : Z)
  | JString (s : string)
  | JArray (l : list value)
  | JObject (members : list (string * value)).
#[local] Set Elimination Schemes.

(** [json.Marshal] and [json.Unmarshal], between a JSON text and the
    value it denotes. *)
Class Codec : Type := {
  Marshal : value -> string;
  Unmarshal : string -> option value
}.

(** The codec is lossless on [v]. *)
Definition faithful `{Codec} (v : value) : Prop :=
  Unmarshal (Marshal v) = Some v.

(** Decoding an object into a struct: the members are visited in
    order, each setting the field its name selects, so that the last
    duplicate wins; [null] leaves the struct as it is.  [None] is a
    decoding error.  Member names are compared exactly (encoding/json
    falls back to a comparison that ignores letter case). *)
Definition decodeObject {A} (set : A -> string * value -> option A)
    (zero : A) (v : value) : option A :=
  match v with
  | JNull => Some zero
  | JObject members =>
      fold_left (fun acc kv =>
                   match acc with Some a => set a kv | None => None end)
                members (Some zero)
  | _ => None
  end.

(** Indexing a decoded [map[string]interface{}]. *)
Fixpoint lookup (k : string) (members : list (string * value))
  : option value :=
  match members with
  | [] => None
  | (k', v) :: rest =>
      match lookup k rest with
      | Some v' => Some v'
      | None => if String.eqb k k' then Some v else None
      end
  end.

End json.

(* ================================================================== *)
(** * github.com/golang-jwt/jwt/v5 *)

Module jwtlib.
Import json.

Definition ErrTokenMalformed : error := errors_New "token is malformed".
Definition ErrTokenUnverifiable : error := errors_New "token is unverifiable".
Definition ErrTokenSignatureInvalid : error :=
  errors_New "token signature is invalid".
Definition ErrTokenExpired : error :=
  errors_New "token has invalid claims: token is expired".
Definition ErrTokenNotValidYet : error :=
  errors_New "token has invalid claims: token is not valid yet".
Definition ErrInvalidKeyType : error := errors_New "key is of invalid type".

(** The registered claims this service sets or the validator reads;
    [iss], [aud] and [jti] are neither set nor checked here. *)
Record RegisteredClaims : Type := mkRegisteredClaims {
  Subject : string;
  ExpiresAt : option Time;
  NotBefore : option Time;
  IssuedAt : option Time
}.

Definition zeroRegisteredClaims : RegisteredClaims :=
  mkRegisteredClaims EmptyString None None None.

(** [jwt.NewNumericDate(t)]: [TimePrecision] is one second. *)
Definition NewNumericDate (t : Time) : Time := Truncate t Second.

Definition numericDateMember (name : string) (d : option Time)
  : list (string * value) :=
  match d with
  | Some t => [(name, JNumber (t / Second))]
  | None => []
  end.

(** The members are tagged [omitempty]. *)
Definition registeredMembers (rc : RegisteredClaims)
  : list (string * value) :=
  ((if String.eqb (Subject rc) EmptyString then []
    else [("sub", JString (Subject rc))])
   ++ numericDateMember "exp" (ExpiresAt rc)
   ++ numericDateMember "nbf" (NotBefore rc)
   ++ numericDateMember "iat" (IssuedAt rc))%list.

Definition decodeNumericDate (v : value) : option (option Time) :=
  match v with
  | JNumber n => Some (Some (NewNumericDate (n * Second)))
  | JNull => Some None
  | _ => None
  end.

Definition setRegistered (rc : RegisteredClaims) (kv : string * value)
  : option RegisteredClaims :=
  let (k, v) := kv in
  if String.eqb k "sub" then
    match v with
    | JString s =>
        Some (mkRegisteredClaims s (ExpiresAt rc) (NotBefore rc) (IssuedAt rc))
    | JNull => Some rc
    | _ => None
    end
  else if String.eqb k "exp" then
    match decodeNumericDate v with
    | Some d =>
        Some (mkRegisteredClaims (Subject rc) d (NotBefore rc) (IssuedAt rc))
    | None => None
    end
  else if String.eqb k "nbf" then
    match decodeNumericDate v with
    | Some d =>
        Some (mkRegisteredClaims (Subject rc) (ExpiresAt rc) d (IssuedAt rc))
    | None => None
    end
  else if String.eqb k "iat" then
    match decodeNumericDate v with
    | Some d =>
        Some (mkRegisteredClaims (Subject rc) (ExpiresAt rc) (NotBefore rc) d)
    | None => None
    end
  else Some rc.

(** The interface [jwt.Claims], with the JSON form of the claims type. *)
Class Claims (C : Type) : Type := {
  toJSON : C -> value;
  fromJSON : value -> option C;
  GetExpirationTime : C -> option Time;
  GetNotBefore : C -> option Time
}.

#[export] Instance RegisteredClaims_Claims : Claims RegisteredClaims := {
  toJSON rc := JObject (registeredMembers rc);
  fromJSON := decodeObject setRegistered zeroRegisteredClaims;
  GetExpirationTime := ExpiresAt;
  GetNotBefore := NotBefore
}.

Inductive SigningMethod : Type :=
  | SigningMethodHS256
  | SigningMethodHS384
  | SigningMethodHS512
  | SigningMethodOther (alg : string).

Definition Alg (m : SigningMethod) : string :=
  match m with
  | SigningMethodHS256 => "HS256"
  | SigningMethodHS384 => "HS384"
  | SigningMethodHS512 => "HS512"
  | SigningMethodOther alg => alg
  end.

(** The asymmetric methods and [none] are registered too; none of them
    accepts a byte-string key. *)
Definition otherMethods : list string :=
  [ "RS256"; "RS384"; "RS512"; "PS256"; "PS384"; "PS512";
    "ES256"; "ES384"; "ES512"; "EdDSA"; "none" ].

Definition GetSigningMethod (alg : string) : option SigningMethod :=
  if String.eqb alg "HS256" then Some SigningMethodHS256
  else if String.eqb alg "HS384" then Some SigningMethodHS384
  else if String.eqb alg "HS512" then Some SigningMethodHS512
  else if existsb (String.eqb alg) otherMethods
       then Some (SigningMethodOther alg)
  else None.

Definition Sign (m : SigningMethod) (signingString key : string)
  : result string :=
  match m with
  | SigningMethodHS256 =>
      Ok (hmac.Sum sha256.Sum256 sha256.BlockSize key signingString)
  | SigningMethodHS384 =>
      Ok (hmac.Sum sha512.Sum384 sha512.BlockSize key signingString)
  | SigningMethodHS512 =>
      Ok (hmac.Sum sha512.Sum512 sha512.BlockSize key signingString)
  | SigningMethodOther _ => Err ErrInvalidKeyType
  end.

(** [Verify] returns [nil] ([None]) when the signature is the one
    [Sign] computes. *)
Definition Verify (m : SigningMethod)
    (signingString sig key : string) : option error :=
  match Sign m signingString key with
  | Ok expected =>
      if String.eqb sig expected then None else Some ErrTokenSignatureInvalid
  | Err e => Some e
  end.

Record Token (C : Type) : Type := mkToken {
  Raw : string;
  Method : SigningMethod;
  Header : list (string * value);
  Claims_ : C;
  Signature : string;
  Valid : bool
}.
Arguments mkToken {C}.
Arguments Raw {C}.
Arguments Method {C}.
Arguments Header {C}.
Arguments Claims_ {C}.
Arguments Signature {C}.
Arguments Valid {C}.

Definition EncodeSegment (seg : string) : string := base64.EncodeToString seg.

Definition DecodeSegment (seg : string) : option string :=
  base64.DecodeString seg.

(** [jwt.NewWithClaims(method, claims)] *)
Definition NewWithClaims {C} (m : SigningMethod) (claims : C) : Token C :=
  mkToken EmptyString m
          [("alg", JString (Alg m)); ("typ", JString "JWT")]
          claims EmptyString false.

Definition dot : string := ".".

Definition SigningString `{Codec} `{Claims C} (t : Token C) : string :=
  EncodeSegment (Marshal (JObject (Header t))) +:+ dot +:+
  EncodeSegment (Marshal (toJSON (Claims_ t))).

Definition SignedString `{Codec} `{Claims C}
    (t : Token C) (key : string) : result string :=
  let sstr := SigningString t in
  match Sign (Method t) sstr key with
  | Ok sig => Ok (sstr +:+ dot +:+ EncodeSegment sig)
  | Err e => Err e
  end.

(** [strings.Split(s, ".")] *)
Fixpoint splitDots (s : string) : list string :=
  match s with
  | EmptyString => [EmptyString]
  | String c r =>
      if Ascii.eqb c "."%char then EmptyString :: splitDots r
      else match splitDots r with
           | seg :: segs => String c seg :: segs
           | [] => [String c EmptyString]
           end
  end.

(** No byte of [s] is a dot. *)
Fixpoint dotFree (s : string) : bool :=
  match s with
  | EmptyString => true
  | String c r => negb (Ascii.eqb c "."%char) && dotFree r
  end.

(** A header is decoded into a [map[string]interface{}]. *)
Definition decodeHeader (v : value) : option (list (string * value)) :=
  match v with
  | JObject members => Some members
  | JNull => Some []
  | _ => None
  end.

(** [Parser.ParseUnverified]: three segments, a JSON header, JSON
    claims, and a registered signing method. *)
Definition ParseUnverified `{Codec} `{Claims C} (tokenString : string)
  : result (Token C * list string) :=
  match splitDots tokenString with
  | [p0; p1; p2] =>
      match DecodeSegment p0 with
      | None => Err ErrTokenMalformed
      | Some headerBytes =>
      match Unmarshal headerBytes with
      | None => Err ErrTokenMalformed
      | Some hv =>
      match decodeHeader hv with
      | None => Err ErrTokenMalformed
      | Some header =>
      match DecodeSegment p1 with
      | None => Err ErrTokenMalformed
      | Some claimBytes =>
      match Unmarshal claimBytes with
      | None => Err ErrTokenMalformed
      | Some cv =>
      match fromJSON cv with
      | None => Err ErrTokenMalformed
      | Some claims =>
      match lookup "alg" header with
      | Some (JString alg) =>
          match GetSigningMethod alg with
          | Some m =>
              Ok (mkToken tokenString m header claims EmptyString false,
                  [p0; p1; p2])
          | None => Err ErrTokenUnverifiable
          end
      | _ => Err ErrTokenUnverifiable
      end end end end end end end
  | _ => Err ErrTokenMalformed
  end.

(** [Validator.verifyExpiresAt] and [Validator.verifyNotBefore]: an
    absent claim passes. *)
Definition verifyExpiresAt `{Claims C} (claims : C) (cmp : Time) : bool :=
  match GetExpirationTime claims with
  | Some exp => cmp <? exp
  | None => true
  end.

Definition verifyNotBefore `{Claims C} (claims : C) (cmp : Time) : bool :=
  match GetNotBefore claims with
  | Some nbf => negb (cmp <? nbf)
  | None => true
  end.

(** [Validator.Validate], at the instant [t] it reads from the clock.
    Of several failures the first is reported. *)
Definition Validate `{Claims C} (claims : C) (t : Time) : option error :=
  if negb (verifyExpiresAt claims t) then Some ErrTokenExpired
  else if negb (verifyNotBefore claims t) then Some ErrTokenNotValidYet
  else None.

(** [jwt.ParseWithClaims(tokenString, claims, keyFunc)] *)
Definition ParseWithClaims {DB} `{Codec} `{Claims C}
    (tokenString : string) (keyFunc : Token C -> result string)
  : M DB (result (Token C)) :=
  match ParseUnverified tokenString with
  | Err e => ret (Err e)
  | Ok (token, parts) =>
      match DecodeSegment (nth 2 parts EmptyString) with
      | None => ret (Err ErrTokenMalformed)
      | Some sig =>
          let text := nth 0 parts EmptyString +:+ dot
                      +:+ nth 1 parts EmptyString in
          match keyFunc token with
          | Err e => ret (Err ErrTokenUnverifiable)
          | Ok key =>
              match Verify (Method token) text sig key with
              | Some e => ret (Err e)
              | None =>
                  do t <- time_Now;
                  match Validate (Claims_ token) t with
                  | Some e => ret (Err e)
                  | None =>
                      ret (Ok (mkToken (Raw token) (Method token)
                                 (Header token) (Claims_ token) sig true))
                  end
              end
          end
      end
  end.

End jwtlib.

(* ================================================================== *)
(** * package jwt (infrastructure/jwt) *)

Module jwt.
Import json jwtlib.

Record Service : Type := mkService {
  secretKey : string;
  accessTokenTTL : Duration;
  refreshTokenTTL : Duration
}.

Record Claims : Type := mkClaims {
  UserID : UUID;
  Role : domain.UserRole;
  Registered : RegisteredClaims
}.

Definition zeroUUID : UUID :=
  mkUUID zero zero zero zero zero zero zero zero
         zero zero zero zero zero zero zero zero.

Definition zeroClaims : Claims :=
  mkClaims zeroUUID EmptyString zeroRegisteredClaims.

(** The struct tags [user_id] and [role]; the embedded registered
    claims follow with their own names. *)
Definition claimsMembers (c : Claims) : list (string * value) :=
  ([("user_id", JString (uuid.String_ (UserID c)));
    ("role", JString (Role c))]
   ++ registeredMembers (Registered c))%list.

Definition setClaims (c : Claims) (kv : string * value) : option Claims :=
  let (k, v) := kv in
  if String.eqb k "user_id" then
    match v with
    | JString s =>
        match uuid.Parse s with
        | Ok id => Some (mkClaims id (Role c) (Registered c))
        | Err _ => None
        end
    | JNull => Some c
    | _ => None
    end
  else if String.eqb k "role" then
    match v with
    | JString s => Some (mkClaims (UserID c) s (Registered c))
    | JNull => Some c
    | _ => None
    end
  else
    match setRegistered (Registered c) kv with
    | Some rc => Some (mkClaims (UserID c) (Role c) rc)
    | None => None
    end.

#[export] Instance Claims_Claims : jwtlib.Claims Claims := {
  toJSON c := JObject (claimsMembers c);
  fromJSON := decodeObject setClaims zeroClaims;
  GetExpirationTime c := ExpiresAt (Registered c);
  GetNotBefore c := NotBefore (Registered c)
}.

Definition NewService (secretKey : string) : Service :=
  mkService secretKey (15 * Minute) (7 * 24 * Hour).

Section Service.
Context {DB : Type} `{Codec}.

Definition GenerateAccessToken (s : Service) (userID : UUID)
    (role : domain.UserRole) : M DB (result string) :=
  do t1 <- time_Now;
  do t2 <- time_Now;
  let claims :=
    mkClaims userID role
      (mkRegisteredClaims (uuid.String_ userID)
         (Some (NewNumericDate (t1 + accessTokenTTL s)))
         None
         (Some (NewNumericDate t2))) in
  let token := NewWithClaims SigningMethodHS256 claims in
  ret (SignedString token (secretKey s)).

Definition GenerateRefreshToken (s : Service) (userID : UUID)
  : M DB (result string) :=
  do t1 <- time_Now;
  do t2 <- time_Now;
  let claims :=
    mkRegisteredClaims (uuid.String_ userID)
      (Some (NewNumericDate (t1 + refreshTokenTTL s)))
      None
      (Some (NewNumericDate t2)) in
  let token := NewWithClaims SigningMethodHS256 claims in
  ret (SignedString token (secretKey s)).

Definition ValidateAccessToken (s : Service) (tokenString : string)
  : M DB (result Claims) :=
  do r <- ParseWithClaims tokenString (fun _ => Ok (secretKey s));
  match r with
  | Err err => ret (Err err)
  | Ok token =>
      if Valid token then ret (Ok (Claims_ token))
      else ret (Err (errors_New "invalid token"))
  end.

Definition ValidateRefreshToken (s : Service) (tokenString : string)
  : M DB (result UUID) :=
  do r <- ParseWithClaims (C:=RegisteredClaims) tokenString
                          (fun _ => Ok (secretKey s));
  match r with
  | Err err => ret (Err err)
  | Ok token =>
      if Valid token then
        match uuid.Parse (Subject (Claims_ token)) with
        | Err err => ret (Err err)
        | Ok userID => ret (Ok userID)
        end
      else ret (Err (errors_New "invalid refresh token"))
  end.

End Service.
End jwt.

(* ================================================================== *)
(** * package application *)

Module UserRepository.
Record t (DB : Type) : Type := mk {
  Save : domain.User -> DB -> option error * DB;
  FindByID : UUID -> DB -> result domain.User * DB;
  FindByEmail : string -> DB -> result domain.User * DB
}.
Arguments Save {DB}.
Arguments FindByID {DB}.
Arguments FindByEmail {DB}.
End UserRepository.

Module OrderRepository.
Record t (DB : Type) : Type := mk {
  Save : order.Order -> DB -> option error * DB;
  FindByID : UUID -> DB -> result order.Order * DB;
  FindByUserID : UUID -> DB -> result (list order.Order) * DB
}.
Arguments Save {DB}.
Arguments FindByID {DB}.
Arguments FindByUserID {DB}.
End OrderRepository.

Module application.
Import domain.

Record OrderService (DB : Type) : Type := mkOrderService {
  orderRepo : OrderRepository.t DB;
  userRepo : UserRepository.t DB
}.
Arguments orderRepo {DB}.
Arguments userRepo {DB}.

Record CreateOrderRequest : Type := mkCreateOrderRequest {
  ItemID : string;
  Quantity : Z
}.

Record OrderResponse : Type := mkOrderResponse {
  OrderID : string;
  Status : order.OrderStatus
}.

Definition validItems : gmap string bool :=
  <["intel-basic" := true]>
    (<["intel-premium" := true]>
      (<["intel-enterprise" := true]> ∅)).

(** Indexing [validItems]: a missing key reads as [false]. *)
Definition validItem (itemID : string) : bool :=
  default false (validItems !! itemID).

Section OrderService.
Context {DB : Type}.

Definition CreateOrder (s : OrderService DB) (userID : UUID)
    (req : CreateOrderRequest) : M DB (result OrderResponse) :=
  if negb (validItem (ItemID req)) then
    ret (Err (errors_New "invalid item_id"))
  else
    do found <- onDB (UserRepository.FindByID (userRepo s) userID);
    match found with
    | Err _ => ret (Err (errors_New "user not found"))
    | Ok user =>
        if negb (HasPermission user RoleViewer) then
          ret (Err (errors_New "insufficient permissions"))
        else
          do oa <- order.NewOrder userID (ItemID req) (Quantity req);
          do orderAggregate <- order.Confirm oa;
          do saved <- onDB (OrderRepository.Save (orderRepo s)
                              (order.Order_ orderAggregate));
          match saved with
          | Some err => ret (Err err)
          | None =>
              ret (Ok (mkOrderResponse
                         (uuid.String_ (order.ID (order.Order_ orderAggregate)))
                         (order.Status (order.Order_ orderAggregate))))
          end
    end.

Definition GetOrder (s : OrderService DB) (orderID userID : UUID)
  : M DB (result order.Order) :=
  do foundOrder <- onDB (OrderRepository.FindByID (orderRepo s) orderID);
  match foundOrder with
  | Err err => ret (Err err)
  | Ok o =>
      do foundUser <- onDB (UserRepository.FindByID (userRepo s) userID);
      match foundUser with
      | Err err => ret (Err err)
      | Ok user =>
          if negb (UUID_eqb (order.UserID o) userID)
             && negb (HasPermission user RoleAnalyst) then
            ret (Err (errors_New "access denied"))
          else ret (Ok o)
      end
  end.

Definition GetUserOrders (s : OrderService DB) (userID : UUID)
  : M DB (result (list order.Order)) :=
  onDB (OrderRepository.FindByUserID (orderRepo s) userID).

End OrderService.

Record AuthService (DB : Type) : Type := mkAuthService {
  auth_userRepo : UserRepository.t DB;
  jwtService : jwt.Service
}.
Arguments auth_userRepo {DB}.
Arguments jwtService {DB}.

Record LoginRequest : Type := mkLoginRequest {
  Email : string;
  Password : string
}.

Record AuthResponse : Type := mkAuthResponse {
  AccessToken : string;
  RefreshToken_ : string;
  User_ : User
}.

Section AuthService.
Context {DB : Type} `{json.Codec} `{Bcrypt}.

Definition Login (s : AuthService DB) (req : LoginRequest)
  : M DB (result AuthResponse) :=
  do found <- onDB (UserRepository.FindByEmail (auth_userRepo s) (Email req));
  match found with
  | Err _ => ret (Err (errors_New "invalid credentials"))
  | Ok user =>
      if negb (domain.IsActive user) then
        ret (Err (errors_New "account is inactive"))
      else if negb (ValidatePassword user (Password req)) then
        ret (Err (errors_New "invalid credentials"))
      else
        do access <- jwt.GenerateAccessToken (jwtService s)
                       (domain.ID user) (domain.Role user);
        match access with
        | Err err => ret (Err err)
        | Ok accessToken =>
            do refresh <- jwt.GenerateRefreshToken (jwtService s)
                            (domain.ID user);
            match refresh with
            | Err err => ret (Err err)
            | Ok refreshToken =>
                ret (Ok (mkAuthResponse accessToken refreshToken user))
            end
        end
  end.

Definition RefreshToken (s : AuthService DB) (refreshToken : string)
  : M DB (result AuthResponse) :=
  do validated <- jwt.ValidateRefreshToken (jwtService s) refreshToken;
  match validated with
  | Err _ => ret (Err (errors_New "invalid refresh token"))
  | Ok userID =>
      do found <- onDB (UserRepository.FindByID (auth_userRepo s) userID);
      match found with
      | Err _ => ret (Err (errors_New "user not found"))
      | Ok user =>
          do access <- jwt.GenerateAccessToken (jwtService s)
                         (domain.ID user) (domain.Role user);
          match access with
          | Err err => ret (Err err)
          | Ok accessToken =>
              do refresh <- jwt.GenerateRefreshToken (jwtService s)
                              (domain.ID user);
              match refresh with
              | Err err => ret (Err err)
              | Ok refreshToken =>
                  ret (Ok (mkAuthResponse accessToken refreshToken user))
              end
          end
      end
  end.

End AuthService.
End application.

(* ================================================================== *)
(** * A reference JSON codec

    Compact JSON texts as [json.Marshal] prints them, and a reader for
    them.  Bytes above 127 are copied unchanged in both directions
    (encoding/json does so for valid UTF-8 and replaces other bytes by
    U+FFFD).  The codec instantiates [json.Codec] wherever a statement
    is evaluated on concrete tokens. *)

Module jsontext.
Import json.

Definition dquote : ascii := "034"%char.
Definition backslash : ascii := "092"%char.

Definition digitChar (d : Z) : ascii := ascii_of_N (Z.to_N (48 + d)).

Fixpoint digits (fuel : nat) (n : Z) (acc : string) : string :=
  match fuel with
  | O => acc
  | S fuel' =>
      let acc' := String (digitChar (n mod 10)) acc in
      if n <? 10 then acc' else digits fuel' (n / 10) acc'
  end.

Definition decimal (n : Z) : string :=
  if n <? 0
  then String "-"%char (digits (S (Z.to_nat (Z.log2 (- n)))) (- n) EmptyString)
  else digits (S (Z.to_nat (Z.log2 n))) n EmptyString.

Definition hexDigit (d : Z) : ascii :=
  ascii_of_N (Z.to_N (if d <? 10 then 48 + d else 87 + d)).

Definition code (c : ascii) : Z := Z.of_N (N_of_ascii c).

(** Quotes, backslashes, control characters and the characters
    [<], [>], [&] are escaped. *)
Definition escapeChar (c : ascii) (k : string) : string :=
  if Ascii.eqb c dquote then String backslash (String dquote k)
  else if Ascii.eqb c backslash then String backslash (String backslash k)
  else if Ascii.eqb c "010"%char then String backslash (String "n"%char k)
  else if Ascii.eqb c "013"%char then String backslash (String "r"%char k)
  else if Ascii.eqb c "009"%char then String backslash (String "t"%char k)
  else if (code c <? 32) || Ascii.eqb c "<"%char || Ascii.eqb c ">"%char
          || Ascii.eqb c "&"%char then
    String backslash (String "u"%char (String "0"%char (String "0"%char
      (String (hexDigit (code c / 16)) (String (hexDigit (code c mod 16)) k)))))
  else String c k.

Fixpoint escape (s : string) : string :=
  match s with
  | EmptyString => EmptyString
  | String c r => escapeChar c (escape r)
  end.

Definition quote (s : string) : string :=
  String dquote (escape s +:+ String dquote EmptyString).

Fixpoint print (v : value) : string :=
  match v with
  | JNull => "null"
  | JBool true => "true"
  | JBool false => "false"
  | JNumber n => decimal n
  | JString s => quote s
  | JArray l =>
      "[" +:+
      (fix elements (l : list value) : string :=
         match l with
         | [] => EmptyString
         | [x] => print x
         | x :: r => print x +:+ "," +:+ elements r
         end) l +:+ "]"
  | JObject ms =>
      "{" +:+
      (fix members (ms : list (string * value)) : string :=
         match ms with
         | [] => EmptyString
         | [(k, x)] => quote k +:+ ":" +:+ print x
         | (k, x) :: r => quote k +:+ ":" +:+ print x +:+ "," +:+ members r
         end) ms +:+ "}"
  end.

Definition space (c : ascii) : bool :=
  Ascii.eqb c " "%char || Ascii.eqb c "009"%char
  || Ascii.eqb c "010"%char || Ascii.eqb c "013"%char.

Fixpoint skipSpace (s : string) : string :=
  match s with
  | String c r => if space c then skipSpace r else s
  | EmptyString => s
  end.

Definition hexValue (c : ascii) : option Z :=
  match uuid.xvalue c with
  | Some n => Some (Z.of_nat (uuid.nibble_index n))
  | None => None
  end.

(** The text after an opening quote, up to the closing one. *)
Fixpoint readString (s : string) : option (string * string) :=
  match s with
  | EmptyString => None
  | String c r =>
      if Ascii.eqb c dquote then Some (EmptyString, r)
      else if Ascii.eqb c backslash then
        match r with
        | String e r1 =>
            let plain (b : ascii) :=
              match readString r1 with
              | Some (t, r') => Some (String b t, r')
              | None => None
              end in
            if Ascii.eqb e dquote then plain dquote
            else if Ascii.eqb e backslash then plain backslash
            else if Ascii.eqb e "/"%char then plain "/"%char
            else if Ascii.eqb e "b"%char then plain "008"%char
            else if Ascii.eqb e "f"%char then plain "012"%char
            else if Ascii.eqb e "n"%char then plain "010"%char
            else if Ascii.eqb e "r"%char then plain "013"%char
            else if Ascii.eqb e "t"%char then plain "009"%char
            else if Ascii.eqb e "u"%char then
              match r1 with
              | String h1 (String h2 (String h3 (String h4 r2))) =>
                  match hexValue h1, hexValue h2, hexValue h3, hexValue h4 with
                  | Some 0, Some 0, Some x, Some y =>
                      if x <? 8 then
                        match readString r2 with
                        | Some (t, r') =>
                            Some (String (ascii_of_N (Z.to_N (x * 16 + y))) t, r')
                        | None => None
                        end
                      else None
                  | _, _, _, _ => None
                  end
              | _ => None
              end
            else None
        | EmptyString => None
        end
      else if code c <? 32 then None
      else
        match readString r with
        | Some (t, r') => Some (String c t, r')
        | None => None
        end
  end.

Definition isDigit (c : ascii) : bool := (48 <=? code c) && (code c <=? 57).

Fixpoint readDigits (s : string) (acc : Z) : Z * string :=
  match s with
  | String c r =>
      if isDigit c then readDigits r (acc * 10 + (code c - 48)) else (acc, s)
  | EmptyString => (acc, s)
  end.

(** A whole number: digits, with an optional sign, not followed by a
    fraction or an exponent. *)
Definition readNumber (s : string) : option (Z * string) :=
  let unsigned (s : string) : option (Z * string) :=
    match s with
    | String c _ =>
        if isDigit c then
          let (n, r) := readDigits s 0 in
          match r with
          | String d _ =>
              if Ascii.eqb d "."%char || Ascii.eqb d "e"%char
                 || Ascii.eqb d "E"%char then None
              else Some (n, r)
          | EmptyString => Some (n, r)
          end
        else None
    | EmptyString => None
    end in
  match s with
  | String "-"%char r =>
      match unsigned r with
      | Some (n, r') => Some (- n, r')
      | None => None
      end
  | _ => unsigned s
  end.

Fixpoint readValue (fuel : nat) (s : string) : option (value * string) :=
  match fuel with
  | O => None
  | S fuel' =>
      match skipSpace s with
      | String "n"%char (String "u"%char (String "l"%char (String "l"%char r))) =>
          Some (JNull, r)
      | String "t"%char (String "r"%char (String "u"%char (String "e"%char r))) =>
          Some (JBool true, r)
      | String "f"%char (String "a"%char (String "l"%char
          (String "s"%char (String "e"%char r)))) =>
          Some (JBool false, r)
      | String "["%char r =>
          match skipSpace r with
          | String "]"%char r' => Some (JArray [], r')
          | _ =>
              match readElements fuel' r with
              | Some (l, r') => Some (JArray l, r')
              | None => None
              end
          end
      | String "{"%char r =>
          match skipSpace r with
          | String "}"%char r' => Some (JObject [], r')
          | _ =>
              match readMembers fuel' r with
              | Some (ms, r') => Some (JObject ms, r')
              | None => None
              end
          end
      | String c r =>
          if Ascii.eqb c dquote then
            match readString r with
            | Some (t, r') => Some (JString t, r')
            | None => None
            end
          else
            match readNumber (String c r) with
            | Some (n, r') => Some (JNumber n, r')
            | None => None
            end
      | EmptyString => None
      end
  end

with readElements (fuel : nat) (s : string) : option (list value * string) :=
  match fuel with
  | O => None
  | S fuel' =>
      match readValue fuel' s with
      | Some (x, r) =>
          match skipSpace r with
          | String ","%char r' =>
              match readElements fuel' r' with
              | Some (l, r'') => Some (x :: l, r'')
              | None => None
              end
          | String "]"%char r' => Some ([x], r')
          | _ => None
          end
      | None => None
      end
  end

with readMembers (fuel : nat) (s : string)
  : option (list (string * value) * string) :=
  match fuel with
  | O => None
  | S fuel' =>
      match skipSpace s with
      | String q r =>
          if Ascii.eqb q dquote then
            match readString r with
            | Some (k, r1) =>
                match skipSpace r1 with
                | String ":"%char r2 =>
                    match readValue fuel' r2 with
                    | Some (x, r3) =>
                        match skipSpace r3 with
                        | String ","%char r4 =>
                            match readMembers fuel' r4 with
                            | Some (ms, r5) => Some ((k, x) :: ms, r5)
                            | None => None
                            end
                        | String "}"%char r4 => Some ([(k, x)], r4)
                        | _ => None
                        end
                    | None => None
                    end
                | _ => None
                end
            | None => None
            end
          else None
      | EmptyString => None
      end
  end.

Definition read (s : string) : option value :=
  match readValue (2 * String.length s + 2) s with
  | Some (v, r) =>
      match skipSpace r with
      | EmptyString => Some v
      | _ => None
      end
  | None => None
  end.

Definition codec : Codec := {| Marshal := print; Unmarshal := read |}.

End jsontext.

(* ================================================================== *)
(** * Reference repositories: an in-memory store *)

Module memory.

Record DB : Type := mkDB {
  users : list domain.User;
  orders : list order.Order
}.

Definition ErrRecordNotFound : error := errors_New "record not found".

Definition found {A} (o : option A) : result A :=
  match o with
  | Some a => Ok a
  | None => Err ErrRecordNotFound
  end.

Definition userRepo : UserRepository.t DB :=
  UserRepository.mk DB
    (fun u d =>
       (None,
        mkDB (u :: filter (fun x => negb (UUID_eqb (domain.ID x) (domain.ID u)))
                     (users d))
             (orders d)))
    (fun id d =>
       (found (find (fun x => UUID_eqb (domain.ID x) id) (users d)), d))
    (fun email d =>
       (found (find (fun x => String.eqb (domain.Email x) email) (users d)), d)).

Definition orderRepo : OrderRepository.t DB :=
  OrderRepository.mk DB
    (fun o d =>
       (None,
        mkDB (users d)
             (filter (fun x => negb (UUID_eqb (order.ID x) (order.ID o)))
                     (orders d) ++ [o])%list))
    (fun id d =>
       (found (find (fun x => UUID_eqb (order.ID x) id) (orders d)), d))
    (fun uid d =>
       (Ok (filter (fun x => UUID_eqb (order.UserID x) uid) (orders d)), d)).

(** A stand-in for bcrypt: the stored hash is the SHA-256 digest. *)
Definition digestBcrypt : domain.Bcrypt :=
  {| domain.bcrypt_matches h p := String.eqb h (sha256.Sum256 p) |}.

End memory.

(* ================================================================== *)
(** * Vocabulary of the specification *)

Module spec.
Import domain order.

(** The role hierarchy Admin = 3, Analyst = 2, Viewer = 1; any other
    role name has rank 0. *)
Definition rank (r : UserRole) : Z :=
  if String.eqb r RoleAdmin then 3
  else if String.eqb r RoleAnalyst then 2
  else if String.eqb r RoleViewer then 1
  else 0.

Definition knownRole (r : UserRole) : bool :=
  String.eqb r RoleAdmin || String.eqb r RoleAnalyst || String.eqb r RoleViewer.

(** The transition graph: Pending -> Confirmed -> Completed, and
    Cancelled from Pending or Confirmed. *)
Definition edge (from to : OrderStatus) : bool :=
  match from, to with
  | OrderStatusPending, OrderStatusConfirmed => true
  | OrderStatusConfirmed, OrderStatusCompleted => true
  | OrderStatusPending, OrderStatusCancelled => true
  | OrderStatusConfirmed, OrderStatusCancelled => true
  | _, _ => false
  end.

Fixpoint withinGraph (history : list OrderStatus) : bool :=
  match history with
  | a :: ((b :: _) as rest) => edge a b && withinGraph rest
  | _ => true
  end.

Inductive call : Type :=
  | CallConfirm
  | CallComplete
  | CallCancel.

Definition target (c : call) : OrderStatus :=
  match c with
  | CallConfirm => OrderStatusConfirmed
  | CallComplete => OrderStatusCompleted
  | CallCancel => OrderStatusCancelled
  end.

Definition invoke {DB} (c : call) (oa : OrderAggregate)
  : M DB OrderAggregate :=
  match c with
  | CallConfirm => Confirm oa
  | CallComplete => Complete oa
  | CallCancel => Cancel oa
  end.

(** The orders observed after each call of a sequence. *)
Fixpoint observe {DB} (cs : list call) (oa : OrderAggregate)
  : M DB (list Order) :=
  match cs with
  | [] => ret []
  | c :: rest =>
      do oa' <- invoke c oa;
      do later <- observe rest oa';
      ret (Order_ oa' :: later)
  end.

(** A fresh order and everything observed of it under the calls. *)
Definition lifecycle {DB} (userID : UUID) (itemID : string) (quantity : Z)
    (cs : list call) : M DB (list Order) :=
  do oa <- NewOrder userID itemID quantity;
  do later <- observe cs oa;
  ret (Order_ oa :: later).

(** The clock readings [n], [n+1], ..., one per call. *)
Fixpoint readings (clock : nat -> Time) (n : nat) (cs : list call)
  : list Time :=
  match cs with
  | [] => []
  | _ :: rest => clock n :: readings clock (S n) rest
  end.

(** The order [CreateOrder] hands to the repository when it builds it
    in [w]: the next draw of [uuid.New], the next two clock readings as
    creation and (overwritten) update time, the third as update time. *)
Definition confirmedOrder {DB} (userID : UUID) (itemID : string)
    (quantity : Z) (w : World DB) : Order :=
  mkOrder (rand w (draws w)) userID itemID quantity OrderStatusConfirmed
          (clock w (ticks w)) (clock w (S (S (ticks w)))) None.

(** A world whose clock stands still. *)
Definition world0 : World unit :=
  mkWorld (fun _ => 1700000000000000000) O (fun _ => jwt.zeroUUID) O tt.

End spec.

(* ================================================================== *)
(** * Vocabulary for tokens *)

Module tokens.
Import json jwtlib jwt.

(** The header [NewWithClaims] gives an HS256 token. *)
Definition headerHS256 : value :=
  JObject [("alg", JString "HS256"); ("typ", JString "JWT")].

(** The claims [GenerateAccessToken] embeds when it runs in [w]. *)
Definition accessClaims {DB} (s : Service) (userID : UUID)
    (role : domain.UserRole) (w : World DB) : Claims :=
  mkClaims userID role
    (mkRegisteredClaims (uuid.String_ userID)
       (Some (NewNumericDate (clock w (ticks w) + accessTokenTTL s)))
       None
       (Some (NewNumericDate (clock w (S (ticks w)))))).

(** The claims [GenerateRefreshToken] embeds when it runs in [w]. *)
Definition refreshClaims {DB} (s : Service) (userID : UUID) (w : World DB)
  : RegisteredClaims :=
  mkRegisteredClaims (uuid.String_ userID)
    (Some (NewNumericDate (clock w (ticks w) + refreshTokenTTL s)))
    None
    (Some (NewNumericDate (clock w (S (ticks w))))).

(** The text an HS256 token with claims [c] is signed over. *)
Definition signingInput `{Codec} `{jwtlib.Claims C} (c : C) : string :=
  SigningString (NewWithClaims SigningMethodHS256 c).

(** The HS256 token with claims [c] under [key]. *)
Definition issue `{Codec} `{jwtlib.Claims C} (c : C) (key : string) : string :=
  signingInput c +:+ dot +:+
  EncodeSegment (hmac.Sum sha256.Sum256 sha256.BlockSize key (signingInput c)).

(** Its signature. *)
Definition mac `{Codec} `{jwtlib.Claims C} (c : C) (key : string) : string :=
  hmac.Sum sha256.Sum256 sha256.BlockSize key (signingInput c).

(** The token record [ParseUnverified] builds from such a token when
    its claims decode to [c']. *)
Definition parsed `{Codec} `{jwtlib.Claims C} {C' : Type} (c : C) (c' : C')
    (key : string) : Token C' :=
  mkToken (issue c key) SigningMethodHS256
          [("alg", JString "HS256"); ("typ", JString "JWT")]
          c' EmptyString false.

(** Registered claims of the shape both generators produce. *)
Definition issuedRegistered (sub : string) (e i : Time) : RegisteredClaims :=
  mkRegisteredClaims sub (Some (NewNumericDate e)) None
                     (Some (NewNumericDate i)).

(** A world after [n] more readings of the clock. *)
Definition tick {DB} (n : nat) (w : World DB) : World DB :=
  mkWorld (clock w) (n + ticks w) (rand w) (draws w) (db w).

(** A world whose database has become [d]. *)
Definition withDB {DB} (w : World DB) (d : DB) : World DB :=
  mkWorld (clock w) (ticks w) (rand w) (draws w) d.

(** What makes a verifier with secret [key] accept [tokenString] at the
    instant [t] with claims [claims]: the token is well formed, its
    signature is the one its method computes over its first two
    segments under [key], and its time claims admit [t]. *)
Definition accepted `{Codec} `{jwtlib.Claims C} (key : string)
    (tokenString : string) (t : Time) (claims : C) : Prop :=
  exists (token : Token C) (p0 p1 p2 sig : string),
    ParseUnverified tokenString = Ok (token, [p0; p1; p2])
    /\ DecodeSegment p2 = Some sig
    /\ Sign (Method token) (p0 +:+ dot +:+ p1) key = Ok sig
    /\ verifyExpiresAt (Claims_ token) t = true
    /\ verifyNotBefore (Claims_ token) t = true
    /\ claims = Claims_ token.

End tokens.

(* ================================================================== *)
(** * Concrete data for evaluation *)

Module examples.
Import domain.
Import (hints) jwtlib jwt.

Definition id (last : ascii) : UUID :=
  mkUUID "a" "b" "c" "d" "e" "f" "g" "h" zero "255" "k" "l" "m" "n" "o" last.

Definition aliceID : UUID := id "1".
Definition bobID : UUID := id "2".
Definition carolID : UUID := id "3".
Definition daveID : UUID := id "4".
Definition orderID : UUID := id "9".

Definition hashed (password : string) : string := sha256.Sum256 password.

Definition T0 : Time := 1700000000123456789.

Definition alice : User :=
  mkUser aliceID "alice@example.com" (hashed "password123") RoleViewer
         true T0 T0.

Definition bob : User :=
  mkUser bobID "bob@example.com" (hashed "password123") RoleAnalyst
         true T0 T0.

(** An inactive account. *)
Definition carol : User :=
  mkUser carolID "carol@example.com" (hashed "password123") RoleAdmin
         false T0 T0.

(** A role outside the hierarchy. *)
Definition dave : User :=
  mkUser daveID "dave@example.com" (hashed "password123") "superuser"
         true T0 T0.

(** Alice after a promotion. *)
Definition alicePromoted : User :=
  mkUser aliceID "alice@example.com" (hashed "password123") RoleAdmin
         true T0 T0.

Definition aliceOrder : order.Order :=
  order.mkOrder orderID aliceID "intel-basic" 1 order.OrderStatusConfirmed
                T0 T0 None.

Definition store : memory.DB :=
  memory.mkDB [alice; bob; carol; dave] [aliceOrder].

Definition storePromoted : memory.DB :=
  memory.mkDB [alicePromoted; bob; carol; dave] [aliceOrder].

(** A clock that advances a millisecond per reading from [t]. *)
Definition worldAt (t : Time) (d : memory.DB) : World memory.DB :=
  mkWorld (fun n => Z.of_nat n * 1000000 + t) O (fun _ => orderID) O d.

Definition world : World memory.DB := worldAt T0 store.

(** A minute, an hour and a quarter of an hour later. *)
Definition worldLater : World memory.DB := worldAt (T0 + Minute) store.
Definition worldPromoted : World memory.DB :=
  worldAt (T0 + Hour) storePromoted.
Definition worldExpired : World memory.DB :=
  worldAt (T0 + 15 * Minute) store.

Definition service : jwt.Service := jwt.NewService "test-secret".

(** The same secret followed by one zero byte. *)
Definition servicePadded : jwt.Service :=
  jwt.NewService ("test-secret" +:+ String zero EmptyString).

Definition serviceOther : jwt.Service := jwt.NewService "wrong-secret".

Definition orders : application.OrderService memory.DB :=
  application.mkOrderService memory.DB memory.orderRepo memory.userRepo.

Definition auth : application.AuthService memory.DB :=
  application.mkAuthService memory.DB memory.userRepo service.

(** Alice's tokens, issued in [world]. *)
Definition aliceAccessToken : string :=
  tokens.issue (H:=jsontext.codec)
    (tokens.accessClaims service aliceID RoleViewer world)
    (jwt.secretKey service).

Definition aliceRefreshToken : string :=
  tokens.issue (H:=jsontext.codec)
    (tokens.refreshClaims service aliceID world)
    (jwt.secretKey service).

End examples.

(* ================================================================== *)
(** * package domain: creating a user (user.go) *)

Module user.
Import domain.

(** [bcrypt.GenerateFromPassword(password, bcrypt.DefaultCost)]: it is
    handed the stream of random draws and the position reached, and
    returns the hash or an error, and the position it leaves. *)
Class BcryptHash : Type := {
  bcrypt_generate : string -> (nat -> UUID) -> nat -> result string * nat
}.

Definition GenerateFromPassword `{BcryptHash} {DB} (password : string)
  : M DB (result string) :=
  fun w =>
    let (r, n) := bcrypt_generate password (rand w) (draws w) in
    (r, mkWorld (clock w) (ticks w) (rand w) n (db w)).

Definition NewUser `{BcryptHash} {DB} (email password : string)
    (role : UserRole) : M DB (result User) :=
  do hashed <- GenerateFromPassword password;
  match hashed with
  | Err err => ret (Err err)
  | Ok hashedPassword =>
      do id <- uuid_New;
      do created <- time_Now;
      do updated <- time_Now;
      ret (Ok (mkUser id email hashedPassword role true created updated))
  end.

End user.

(* ================================================================== *)
(** * package application: registration *)

Module registration.
Import domain application.

Record RegisterRequest : Type := mkRegisterRequest {
  Email : string;
  Password : string;
  Role : UserRole
}.

Section Register.
Context {DB : Type} `{json.Codec} `{user.BcryptHash}.

Definition Register (s : AuthService DB) (req : RegisterRequest)
  : M DB (result AuthResponse) :=
  do existingUser <- onDB (UserRepository.FindByEmail (auth_userRepo s)
                             (Email req));
  match existingUser with
  | Ok _ => ret (Err (errors_New "email already exists"))
  | Err _ =>
      do created <- user.NewUser (Email req) (Password req) (Role req);
      match created with
      | Err err => ret (Err err)
      | Ok user =>
          do saved <- onDB (UserRepository.Save (auth_userRepo s) user);
          match saved with
          | Some err => ret (Err err)
          | None =>
              do access <- jwt.GenerateAccessToken (jwtService s)
                             (domain.ID user) (domain.Role user);
              match access with
              | Err err => ret (Err err)
              | Ok accessToken =>
                  do refresh <- jwt.GenerateRefreshToken (jwtService s)
                                  (domain.ID user);
                  match refresh with
                  | Err err => ret (Err err)
                  | Ok refreshToken =>
                      ret (Ok (mkAuthResponse accessToken refreshToken user))
                  end
              end
          end
      end
  end.

End Register.
End registration.

(* ================================================================== *)
(** * github.com/gin-gonic/gin: the request context *)

Module gin.

(** A value stored in the context's key map, with its dynamic type. *)
Inductive any : Type :=
  | AnyUUID (id : UUID)
  | AnyUserRole (role : domain.UserRole)
  | AnyOther.

(** A log entry of logrus: level, message, and the fields as the JSON
    formatter renders them. *)
Record LogEntry : Type := mkLogEntry {
  Level : string;
  Message : string;
  Fields : list (string * string)
}.

(** What [c.JSON] is given to serialise. *)
Inductive payload : Type :=
  | H (members : gmap string string)
  | AuthPayload (response : application.AuthResponse)
  | OrderResponsePayload (response : application.OrderResponse)
  | OrderPayload (o : order.Order)
  | OrdersPayload (l : list order.Order).

Record Context : Type := mkContext {
  Method : string;
  RequestHeader : gmap string string;
  RequestBody : string;
  Params : gmap string string;
  Keys : gmap string any;
  ResponseHeader : gmap string string;
  Writes : list (Z * option payload);
  Aborted : bool;
  Logged : list LogEntry
}.

(** A handler either returns or panics. *)
Inductive outcome : Type :=
  | Returned (c : Context)
  | Panicked.

Definition HandlerFunc (DB : Type) : Type := Context -> M DB outcome.

(** [c.GetHeader(key)], for a key in canonical form. *)
Definition GetHeader (c : Context) (key : string) : string :=
  default EmptyString (RequestHeader c !! key).

(** [c.Param(key)] *)
Definition Param (c : Context) (key : string) : string :=
  default EmptyString (Params c !! key).

(** [c.Get(key)] *)
Definition Get (c : Context) (key : string) : option any := Keys c !! key.

(** [c.Set(key, value)] *)
Definition Set_ (c : Context) (key : string) (value : any) : Context :=
  mkContext (Method c) (RequestHeader c) (RequestBody c) (Params c)
            (<[key := value]> (Keys c)) (ResponseHeader c) (Writes c)
            (Aborted c) (Logged c).

(** [c.Header(key, value)] *)
Definition Header (c : Context) (key value : string) : Context :=
  mkContext (Method c) (RequestHeader c) (RequestBody c) (Params c)
            (Keys c) (<[key := value]> (ResponseHeader c)) (Writes c)
            (Aborted c) (Logged c).

Definition write (c : Context) (code : Z) (body : option payload) : Context :=
  mkContext (Method c) (RequestHeader c) (RequestBody c) (Params c)
            (Keys c) (ResponseHeader c) (Writes c ++ [(code, body)])%list
            (Aborted c) (Logged c).

(** [c.JSON(code, obj)] *)
Definition JSON (c : Context) (code : Z) (obj : payload) : Context :=
  write c code (Some obj).

(** [c.Abort()] *)
Definition Abort (c : Context) : Context :=
  mkContext (Method c) (RequestHeader c) (RequestBody c) (Params c)
            (Keys c) (ResponseHeader c) (Writes c) true (Logged c).


(** An entry written through the logger. *)
Definition log (c : Context) (e : LogEntry) : Context :=
  mkContext (Method c) (RequestHeader c) (RequestBody c) (Params c)
            (Keys c) (ResponseHeader c) (Writes c) (Aborted c)
            (Logged c ++ [e])%list.

(** [gin.H{"error": msg}] *)
Definition errorH (msg : string) : payload := H {["error" := msg]}.

(** The status the first write set, if any. *)
Definition status (c : Context) : option Z :=
  match Writes c with
  | (code, _) :: _ => Some code
  | [] => None
  end.

End gin.

(* ================================================================== *)
(** * package http (interfaces/http) *)

Module http.
Import domain gin.

Definition StatusOK : Z := 200.
Definition StatusCreated : Z := 201.
Definition StatusBadRequest : Z := 400.
Definition StatusUnauthorized : Z := 401.
Definition StatusForbidden : Z := 403.
Definition StatusNotFound : Z := 404.
Definition StatusInternalServerError : Z := 500.

(** [strings.TrimPrefix(s, prefix)] *)
Fixpoint cutPrefix (prefix s : string) : option string :=
  match prefix, s with
  | EmptyString, _ => Some s
  | String p prefix', String c s' =>
      if Ascii.eqb p c then cutPrefix prefix' s' else None
  | String _ _, EmptyString => None
  end.

Definition TrimPrefix (s prefix : string) : string :=
  match cutPrefix prefix s with
  | Some rest => rest
  | None => s
  end.

(** The interfaces the middleware and the handlers hold.  A call that
    returns no error returns a result whose pointers are all set. *)
Module JWTServiceInterface.
Record t (DB : Type) : Type := mk {
  ValidateAccessToken : string -> M DB (result jwt.Claims);
  GenerateAccessToken : UUID -> UserRole -> M DB (result string);
  GenerateRefreshToken : UUID -> M DB (result string);
  ValidateRefreshToken : string -> M DB (result UUID)
}.
Arguments ValidateAccessToken {DB}.
Arguments GenerateAccessToken {DB}.
Arguments GenerateRefreshToken {DB}.
Arguments ValidateRefreshToken {DB}.
End JWTServiceInterface.

Module AuthServiceInterface.
Record t (DB : Type) : Type := mk {
  Login : application.LoginRequest -> M DB (result application.AuthResponse);
  Register : registration.RegisterRequest
             -> M DB (result application.AuthResponse);
  RefreshToken : string -> M DB (result application.AuthResponse)
}.
Arguments Login {DB}.
Arguments Register {DB}.
Arguments RefreshToken {DB}.
End AuthServiceInterface.

Module OrderServiceInterface.
Record t (DB : Type) : Type := mk {
  CreateOrder : UUID -> application.CreateOrderRequest
                -> M DB (result application.OrderResponse);
  GetOrder : UUID -> UUID -> M DB (result order.Order);
  GetUserOrders : UUID -> M DB (result (list order.Order))
}.
Arguments CreateOrder {DB}.
Arguments GetOrder {DB}.
Arguments GetUserOrders {DB}.
End OrderServiceInterface.

(** [c.ShouldBindJSON(&req)] for the four request types: the JSON
    body decoded and checked against the [binding] tags. *)
Class Binding : Type := {
  bindLogin : string -> result application.LoginRequest;
  bindRegister : string -> result registration.RegisterRequest;
  bindRefresh : string -> result string;
  bindCreateOrder : string -> result application.CreateOrderRequest
}.

Record Middleware (DB : Type) : Type := mkMiddleware {
  jwtService : JWTServiceInterface.t DB
}.
Arguments jwtService {DB}.

Record Handler (DB : Type) : Type := mkHandler {
  authService : AuthServiceInterface.t DB;
  orderService : OrderServiceInterface.t DB
}.
Arguments authService {DB}.
Arguments orderService {DB}.

Section Middleware.
Context {DB : Type}.


Definition Auth (m : Middleware DB) (next : HandlerFunc DB) : HandlerFunc DB :=
  fun c =>
    let authHeader := GetHeader c "Authorization" in
    if String.eqb authHeader EmptyString then
      ret (Returned (Abort (JSON c StatusUnauthorized
                              (errorH "Authorization header required"))))
    else
      let tokenString := TrimPrefix authHeader "Bearer " in
      if String.eqb tokenString authHeader then
        ret (Returned (Abort (JSON c StatusUnauthorized
                                (errorH "Bearer token required"))))
      else
        do validated <- JWTServiceInterface.ValidateAccessToken (jwtService m)
                          tokenString;
        match validated with
        | Err _ =>
            ret (Returned (Abort (JSON c StatusUnauthorized
                                    (errorH "Invalid token"))))
        | Ok claims =>
            let c := Set_ c "user_id" (AnyUUID (jwt.UserID claims)) in
            let c := Set_ c "user_role" (AnyUserRole (jwt.Role claims)) in
            next c
        end.

Definition RequireRole (m : Middleware DB) (requiredRole : UserRole)
    (next : HandlerFunc DB) : HandlerFunc DB :=
  fun c =>
    match Get c "user_role" with
    | None =>
        ret (Returned (Abort (JSON c StatusUnauthorized
                                (errorH "User role not found"))))
    | Some (AnyUserRole role) =>
        let roleHierarchy : gmap string Z :=
          <[RoleViewer := 1]> (<[RoleAnalyst := 2]> (<[RoleAdmin := 3]> ∅)) in
        if index roleHierarchy role <? index roleHierarchy requiredRole then
          ret (Returned (Abort (JSON c StatusForbidden
                                  (errorH "Insufficient permissions"))))
        else next c
    | Some _ => ret Panicked
    end.

End Middleware.

Section Handlers.
Context {DB : Type} `{Binding}.

Definition Health (h : Handler DB) : HandlerFunc DB :=
  fun c =>
    ret (Returned (JSON c StatusOK
                     (H (<["status" := "healthy"]>
                           {["service" := "threat-intel-backend"]})))).

Definition Login (h : Handler DB) : HandlerFunc DB :=
  fun c =>
    match bindLogin (RequestBody c) with
    | Err err =>
        ret (Returned (JSON c StatusBadRequest (errorH (Error_ err))))
    | Ok req =>
        do r <- AuthServiceInterface.Login (authService h) req;
        match r with
        | Err err =>
            let c := log c (mkLogEntry "error" "Login failed"
                                       [("error", Error_ err)]) in
            ret (Returned (JSON c StatusUnauthorized (errorH (Error_ err))))
        | Ok response =>
            let c := log c (mkLogEntry "info" "User logged in"
                     [("user_id",
                       uuid.String_ (domain.ID (application.User_ response)))]) in
            ret (Returned (JSON c StatusOK (AuthPayload response)))
        end
    end.

Definition Register (h : Handler DB) : HandlerFunc DB :=
  fun c =>
    match bindRegister (RequestBody c) with
    | Err err =>
        ret (Returned (JSON c StatusBadRequest (errorH (Error_ err))))
    | Ok req =>
        do r <- AuthServiceInterface.Register (authService h) req;
        match r with
        | Err err =>
            let c := log c (mkLogEntry "error" "Registration failed"
                                       [("error", Error_ err)]) in
            ret (Returned (JSON c StatusBadRequest (errorH (Error_ err))))
        | Ok response =>
            let c := log c (mkLogEntry "info" "User registered"
                     [("user_id",
                       uuid.String_ (domain.ID (application.User_ response)))]) in
            ret (Returned (JSON c StatusCreated (AuthPayload response)))
        end
    end.

Definition RefreshToken (h : Handler DB) : HandlerFunc DB :=
  fun c =>
    match bindRefresh (RequestBody c) with
    | Err err =>
        ret (Returned (JSON c StatusBadRequest (errorH (Error_ err))))
    | Ok refreshToken =>
        do r <- AuthServiceInterface.RefreshToken (authService h) refreshToken;
        match r with
        | Err err =>
            ret (Returned (JSON c StatusUnauthorized (errorH (Error_ err))))
        | Ok response =>
            ret (Returned (JSON c StatusOK (AuthPayload response)))
        end
    end.

Definition CreateOrder (h : Handler DB) : HandlerFunc DB :=
  fun c =>
    match Get c "user_id" with
    | None =>
        ret (Returned (JSON c StatusUnauthorized (errorH "User ID not found")))
    | Some userID =>
        match bindCreateOrder (RequestBody c) with
        | Err err =>
            ret (Returned (JSON c StatusBadRequest (errorH (Error_ err))))
        | Ok req =>
            match userID with
            | AnyUUID id =>
                do r <- OrderServiceInterface.CreateOrder (orderService h)
                          id req;
                match r with
                | Err err =>
                    let c := log c (mkLogEntry "error" "Order creation failed"
                                               [("error", Error_ err)]) in
                    ret (Returned (JSON c StatusBadRequest
                                     (errorH (Error_ err))))
                | Ok response =>
                    let c := log c (mkLogEntry "info" "Order created"
                             [("user_id", uuid.String_ id);
                              ("order_id", application.OrderID response)]) in
                    ret (Returned (JSON c StatusCreated
                                     (OrderResponsePayload response)))
                end
            | _ => ret Panicked
            end
        end
    end.

Definition GetOrder (h : Handler DB) : HandlerFunc DB :=
  fun c =>
    let orderIDStr := Param c "id" in
    match uuid.Parse orderIDStr with
    | Err _ =>
        ret (Returned (JSON c StatusBadRequest (errorH "Invalid order ID")))
    | Ok orderID =>
        match Get c "user_id" with
        | None =>
            ret (Returned (JSON c StatusUnauthorized
                             (errorH "User ID not found")))
        | Some (AnyUUID id) =>
            do r <- OrderServiceInterface.GetOrder (orderService h) orderID id;
            match r with
            | Err err =>
                ret (Returned (JSON c StatusNotFound (errorH (Error_ err))))
            | Ok o => ret (Returned (JSON c StatusOK (OrderPayload o)))
            end
        | Some _ => ret Panicked
        end
    end.

Definition GetUserOrders (h : Handler DB) : HandlerFunc DB :=
  fun c =>
    match Get c "user_id" with
    | None =>
        ret (Returned (JSON c StatusUnauthorized (errorH "User ID not found")))
    | Some (AnyUUID id) =>
        do r <- OrderServiceInterface.GetUserOrders (orderService h) id;
        match r with
        | Err err =>
            ret (Returned (JSON c StatusInternalServerError
                             (errorH (Error_ err))))
        | Ok orders => ret (Returned (JSON c StatusOK (OrdersPayload orders)))
        end
    | Some _ => ret Panicked
    end.

End Handlers.

(** The services of package application and the token service, seen
    through the interfaces the handlers and the middleware hold. *)
Section Wiring.
Context {DB : Type} `{json.Codec} `{Bcrypt} `{user.BcryptHash}.

Definition jwtInterface (s : jwt.Service) : JWTServiceInterface.t DB :=
  JWTServiceInterface.mk DB
    (jwt.ValidateAccessToken s) (jwt.GenerateAccessToken s)
    (jwt.GenerateRefreshToken s) (jwt.ValidateRefreshToken s).

Definition authInterface (s : application.AuthService DB)
  : AuthServiceInterface.t DB :=
  AuthServiceInterface.mk DB
    (application.Login s) (registration.Register s)
    (application.RefreshToken s).

Definition orderInterface (s : application.OrderService DB)
  : OrderServiceInterface.t DB :=
  OrderServiceInterface.mk DB
    (application.CreateOrder s) (application.GetOrder s)
    (application.GetUserOrders s).

End Wiring.

End http.

(* ================================================================== *)
(** * Vocabulary for token strings *)

Module wire.
Import json jwtlib.

(** [strings.Count(s, ".")] *)
Fixpoint dots (s : string) : nat :=
  match s with
  | EmptyString => O
  | String c r => if Ascii.eqb c "."%char then S (dots r) else dots r
  end.

(** The header [NewWithClaims] gives a token of method [m]. *)
Definition header (m : SigningMethod) : value :=
  JObject [("alg", JString (Alg m)); ("typ", JString "JWT")].

(** The user id and the role as the JSON form of access-token claims
    spells them. *)
Definition identity (v : value) : string * string :=
  match v with
  | JObject ((_, JString id) :: (_, JString role) :: _) => (id, role)
  | _ => (EmptyString, EmptyString)
  end.

(** The HMAC family. *)
Definition isHMAC (m : SigningMethod) : bool :=
  match m with
  | SigningMethodOther _ => false
  | _ => true
  end.

End wire.

(* ================================================================== *)
(** * Vocabulary for the order aggregate *)

Module aggregate.
Import order.

(** [o'] is [o] up to its status and its update time. *)
Definition keeps (o o' : Order) : Prop :=
  ID o' = ID o /\ UserID o' = UserID o /\ ItemID o' = ItemID o
  /\ Quantity o' = Quantity o /\ CreatedAt o' = CreatedAt o
  /\ Owner o' = Owner o.

End aggregate.

(* ================================================================== *)
(** * Vocabulary for sessions *)

Module session.
Import domain.
Import (hints) jwtlib jwt.

(** The user [NewUser] builds in [w] from the hash [h], when the hash
    generator has left the stream of draws at position [n]. *)
Definition newUser {DB} (email h : string) (role : UserRole) (n : nat)
    (w : World DB) : User :=
  mkUser (rand w n) email h role true
         (clock w (ticks w)) (clock w (S (ticks w))).

(** The world [NewUser] leaves then: one more draw, two more readings. *)
Definition afterNewUser {DB} (n : nat) (w : World DB) : World DB :=
  mkWorld (clock w) (S (S (ticks w))) (rand w) (S n) (db w).

(** The world a failed hash leaves. *)
Definition afterHash {DB} (n : nat) (w : World DB) : World DB :=
  mkWorld (clock w) (ticks w) (rand w) n (db w).

(** Both tokens for [user], issued from [w] on. *)
Definition tokensFor `{json.Codec} {DB} (s : jwt.Service) (user : User)
    (w : World DB) : application.AuthResponse :=
  application.mkAuthResponse
    (tokens.issue (tokens.accessClaims s (ID user) (Role user) w)
                  (jwt.secretKey s))
    (tokens.issue (tokens.refreshClaims s (ID user) (tokens.tick 2 w))
                  (jwt.secretKey s))
    user.

End session.

(* ================================================================== *)
(** * Vocabulary for the HTTP layer *)

Module route.
Import gin http.

(** The context [Auth] hands on for [claims]. *)
Definition authenticated (c : Context) (claims : jwt.Claims) : Context :=
  Set_ (Set_ c "user_id" (AnyUUID (jwt.UserID claims)))
       "user_role" (AnyUserRole (jwt.Role claims)).

(** The context a middleware leaves when it refuses the request. *)
Definition refused (c : Context) (code : Z) (msg : string) : Context :=
  Abort (JSON c code (errorH msg)).

(** The context a handler leaves when it answers with an error. *)
Definition failed (c : Context) (code : Z) (msg : string) : Context :=
  JSON c code (errorH msg).


(** The lengths of the spellings [uuid.Parse] accepts: bare digits,
    the dashed form, the same in braces, and with the urn:uuid:
    prefix. *)
Definition uuidLengths : list nat := [32; 36; 38; 45]%nat.

(** The value of the [Authorization] header that carries a token. *)
Definition bearer (tokenString : string) : string :=
  "Bearer " +:+ tokenString.



End route.

(* ================================================================== *)
(** * Concrete data for the HTTP layer and for registration *)

Module fixtures.
Import domain examples gin http.
Import (hints) jwtlib jwt.

(** A stand-in for [bcrypt.GenerateFromPassword] that goes with
    [memory.digestBcrypt]: the SHA-256 digest, for one draw of salt;
    a password of more than 72 bytes is refused. *)
Definition digestHash : user.BcryptHash :=
  {| user.bcrypt_generate password stream n :=
       if (72 <? String.length password)%nat then
         (Err (errors_New "bcrypt: password length exceeds 72 bytes"), n)
       else (Ok (sha256.Sum256 password), S n) |}.

(** Draws that differ from one another and from the stored ids. *)
Definition fresh (n : nat) : UUID := id (ascii_of_nat (65 + n)).

Definition worldFresh (t : Time) (d : memory.DB) : World memory.DB :=
  mkWorld (fun n => Z.of_nat n * 1000000 + t) O fresh O d.

Definition world : World memory.DB := worldFresh T0 store.

(** A week after [T0]. *)
Definition worldWeekLater : World memory.DB :=
  worldAt (T0 + 7 * 24 * Hour) store.

(** Erin registers as an administrator. *)
Definition erin : registration.RegisterRequest :=
  registration.mkRegisterRequest "erin@example.com" "password123" RoleAdmin.

(** The user and the response her registration gives in [world]. *)
Definition erinUser : User :=
  session.newUser "erin@example.com" (hashed "password123") RoleAdmin 1 world.

Definition erinResponse : application.AuthResponse :=
  session.tokensFor (H:=jsontext.codec) service erinUser (tokens.tick 2 world).

(** Alice orders two units of "intel-premium". *)
Definition aliceRequest : application.CreateOrderRequest :=
  application.mkCreateOrderRequest "intel-premium" 2.

(** Carol's refresh token, issued in [examples.world]. *)
Definition carolRefreshToken : string :=
  tokens.issue (H:=jsontext.codec)
    (tokens.refreshClaims service carolID examples.world)
    (jwt.secretKey service).

(** Bob's access token, issued in [examples.world]. *)
Definition bobAccessToken : string :=
  tokens.issue (H:=jsontext.codec)
    (tokens.accessClaims service bobID RoleAnalyst examples.world)
    (jwt.secretKey service).

(** Alice's claims under a header that names the method [none], with
    an empty signature segment. *)
Definition unsignedSegments : list string :=
  [ jwtlib.EncodeSegment
      (jsontext.print (json.JObject [("alg", json.JString "none")]));
    jwtlib.EncodeSegment
      (jsontext.print
         (jwtlib.toJSON
            (tokens.accessClaims service aliceID RoleAdmin examples.world)));
    EmptyString ].

Definition unsignedToken : string :=
  nth 0 unsignedSegments EmptyString +:+ jwtlib.dot
  +:+ nth 1 unsignedSegments EmptyString +:+ jwtlib.dot.

Definition unsigned : jwtlib.Token jwt.Claims :=
  jwtlib.mkToken unsignedToken (jwtlib.SigningMethodOther "none")
    [("alg", json.JString "none")]
    (tokens.accessClaims service aliceID RoleAdmin examples.world)
    EmptyString false.

(** A request as the router hands it to the first middleware. *)
Definition request (method authorization body id : string) : Context :=
  mkContext method {["Authorization" := authorization]} body
            {["id" := id]} ∅ ∅ [] false [].

(** A stand-in for the binding: the body is read as JSON and the
    members are taken by name; of the [binding] tags only [required]
    is checked. *)
Definition member (name : string) (v : json.value) : result json.value :=
  match v with
  | json.JObject members =>
      match json.lookup name members with
      | Some x => Ok x
      | None => Err (errors_New ("missing member " +:+ name))
      end
  | _ => Err (errors_New "not an object")
  end.

Definition text (name : string) (v : json.value) : result string :=
  match member name v with
  | Ok (json.JString s) =>
      if String.eqb s EmptyString
      then Err (errors_New ("empty member " +:+ name))
      else Ok s
  | Ok _ => Err (errors_New ("not a string: " +:+ name))
  | Err e => Err e
  end.

Definition number (name : string) (v : json.value) : result Z :=
  match member name v with
  | Ok (json.JNumber n) =>
      if n =? 0 then Err (errors_New ("zero member " +:+ name)) else Ok n
  | Ok _ => Err (errors_New ("not a number: " +:+ name))
  | Err e => Err e
  end.

Definition binding : Binding :=
  {| bindLogin s :=
       match jsontext.read s with
       | None => Err (errors_New "invalid character")
       | Some v =>
           match text "email" v, text "password" v with
           | Ok email, Ok password =>
               Ok (application.mkLoginRequest email password)
           | Err e, _ => Err e
           | _, Err e => Err e
           end
       end;
     bindRegister s :=
       match jsontext.read s with
       | None => Err (errors_New "invalid character")
       | Some v =>
           match text "email" v, text "password" v, text "role" v with
           | Ok email, Ok password, Ok role =>
               Ok (registration.mkRegisterRequest email password role)
           | Err e, _, _ => Err e
           | _, Err e, _ => Err e
           | _, _, Err e => Err e
           end
       end;
     bindRefresh s :=
       match jsontext.read s with
       | None => Err (errors_New "invalid character")
       | Some v => text "refresh_token" v
       end;
     bindCreateOrder s :=
       match jsontext.read s with
       | None => Err (errors_New "invalid character")
       | Some v =>
           match text "item_id" v, number "quantity" v with
           | Ok itemID, Ok quantity =>
               Ok (application.mkCreateOrderRequest itemID quantity)
           | Err e, _ => Err e
           | _, Err e => Err e
           end
       end |}.

Definition loginBody (email password : string) : string :=
  jsontext.print
    (json.JObject [("email", json.JString email);
                   ("password", json.JString password)]).

(** Requests to a protected route with Alice's and with Bob's access
    token, and a login request. *)
Definition aliceContext : Context :=
  request "GET" (route.bearer aliceAccessToken) EmptyString "not-a-uuid".

Definition bobContext : Context :=
  request "GET" (route.bearer bobAccessToken) EmptyString
          (uuid.String_ orderID).

Definition loginContext (email password : string) : Context :=
  request "POST" EmptyString (loginBody email password) EmptyString.

Definition middleware : Middleware memory.DB :=
  mkMiddleware memory.DB (@jwtInterface memory.DB jsontext.codec service).

Definition handler : Handler memory.DB :=
  mkHandler memory.DB
    (@authInterface memory.DB jsontext.codec memory.digestBcrypt digestHash
                    auth)
    (orderInterface orders).

End fixtures.

(* ================================================================== *)
(** * Properties of package domain *)

Module domain_facts.
Import domain spec.

Lemma index_roleHierarchy (r : UserRole) : index roleHierarchy r = rank r.
Proof.
  unfold rank, index, roleHierarchy.
  destruct (String.eqb_spec r RoleAdmin) as [-> | Hadmin]; [reflexivity |].
  destruct (String.eqb_spec r RoleAnalyst) as [-> | Hanalyst]; [reflexivity |].
  destruct (String.eqb_spec r RoleViewer) as [-> | Hviewer]; [reflexivity |].
  rewrite !lookup_insert_ne by congruence.
  rewrite lookup_empty. reflexivity.
Qed.

Lemma HasPermission_rank (u : User) (requiredRole : UserRole) :
  HasPermission u requiredRole = (rank (Role u) >=? rank requiredRole).
Proof. unfold HasPermission. now rewrite !index_roleHierarchy. Qed.

Lemma rank_unknown (r : UserRole) : knownRole r = false -> rank r = 0.
Proof.
  unfold knownRole, rank. intros H.
  destruct (String.eqb r RoleAdmin); [discriminate |].
  destruct (String.eqb r RoleAnalyst); [discriminate |].
  destruct (String.eqb r RoleViewer); [discriminate | reflexivity].
Qed.

Lemma rank_known (r : UserRole) : knownRole r = true -> 1 <= rank r.
Proof.
  unfold knownRole, rank. intros H.
  destruct (String.eqb r RoleAdmin); [lia |].
  destruct (String.eqb r RoleAnalyst); [lia |].
  destruct (String.eqb r RoleViewer); [lia | discriminate].
Qed.

(** C5. [HasPermission] holds exactly when the rank of the user's role
    is at least the rank of the required role, with Admin = 3,
    Analyst = 2 and Viewer = 1: an Admin satisfies all three required
    roles, an Analyst satisfies Viewer and Analyst but not Admin, and a
    Viewer satisfies only Viewer. *)
Theorem HasPermission_hierarchy :
  forall (u : User) (requiredRole : UserRole),
    (HasPermission u requiredRole = true
     <-> rank (Role u) >= rank requiredRole)
    /\ rank RoleAdmin = 3 /\ rank RoleAnalyst = 2 /\ rank RoleViewer = 1
    /\ (let as_ (r : UserRole) : User :=
          mkUser (ID u) (Email u) (PasswordHash u) r (IsActive u)
                 (CreatedAt u) (UpdatedAt u) in
        HasPermission (as_ RoleAdmin) RoleViewer = true
        /\ HasPermission (as_ RoleAdmin) RoleAnalyst = true
        /\ HasPermission (as_ RoleAdmin) RoleAdmin = true
        /\ HasPermission (as_ RoleAnalyst) RoleViewer = true
        /\ HasPermission (as_ RoleAnalyst) RoleAnalyst = true
        /\ HasPermission (as_ RoleAnalyst) RoleAdmin = false
        /\ HasPermission (as_ RoleViewer) RoleViewer = true
        /\ HasPermission (as_ RoleViewer) RoleAnalyst = false
        /\ HasPermission (as_ RoleViewer) RoleAdmin = false).
Proof.
  intros u requiredRole. split.
  - rewrite HasPermission_rank. rewrite Z.geb_le. lia.
  - repeat split; reflexivity.
Qed.

End domain_facts.

(* ================================================================== *)
(** * Properties of the order workflow *)

Module order_facts.
Import order spec.

Section Workflow.
Context {DB : Type}.

Lemma invoke_status (c : call) (oa : OrderAggregate) (w : World DB) :
  Status (Order_ (fst (invoke c oa w))) = target c.
Proof. destruct c; reflexivity. Qed.

Lemma invoke_UpdatedAt (c : call) (oa : OrderAggregate) (w : World DB) :
  UpdatedAt (Order_ (fst (invoke c oa w))) = now w.
Proof. destruct c; reflexivity. Qed.

Lemma invoke_world (c : call) (oa : OrderAggregate) (w : World DB) :
  snd (invoke c oa w)
  = mkWorld (clock w) (S (ticks w)) (rand w) (draws w) (db w).
Proof. destruct c; reflexivity. Qed.

Lemma invoke_keeps (c : call) (oa : OrderAggregate) (w : World DB) :
  let o := Order_ oa in
  let o' := Order_ (fst (invoke c oa w)) in
  ID o' = ID o /\ UserID o' = UserID o /\ ItemID o' = ItemID o
  /\ Quantity o' = Quantity o /\ CreatedAt o' = CreatedAt o.
Proof. destruct c; repeat split. Qed.

Lemma observe_cons (c : call) (cs : list call) (oa : OrderAggregate)
    (w : World DB) :
  fst (observe (c :: cs) oa w)
  = Order_ (fst (invoke c oa w))
    :: fst (observe cs (fst (invoke c oa w)) (snd (invoke c oa w))).
Proof.
  cbn [observe]. unfold bind, ret.
  destruct (invoke c oa w) as [oa' w']. cbn [fst snd].
  destruct (observe cs oa' w') as [later w'']. reflexivity.
Qed.

Lemma observe_statuses (cs : list call) :
  forall (oa : OrderAggregate) (w : World DB),
    map Status (fst (observe cs oa w)) = map target cs.
Proof.
  induction cs as [| c cs IH]; intros oa w; [reflexivity |].
  rewrite observe_cons. cbn [map]. now rewrite invoke_status, IH.
Qed.

Lemma observe_timestamps (cs : list call) :
  forall (oa : OrderAggregate) (w : World DB),
    map UpdatedAt (fst (observe cs oa w)) = readings (clock w) (ticks w) cs.
Proof.
  induction cs as [| c cs IH]; intros oa w; [reflexivity |].
  rewrite observe_cons. cbn [map readings].
  rewrite invoke_UpdatedAt, IH, invoke_world. reflexivity.
Qed.

Lemma lifecycle_unfold (userID : UUID) (itemID : string) (quantity : Z)
    (cs : list call) (w : World DB) :
  fst (lifecycle userID itemID quantity cs w)
  = Order_ (fst (NewOrder userID itemID quantity w))
    :: fst (observe cs (fst (NewOrder userID itemID quantity w))
                       (snd (NewOrder userID itemID quantity w))).
Proof.
  unfold lifecycle, bind, ret.
  destruct (NewOrder userID itemID quantity w) as [oa w']. cbn [fst snd].
  destruct (observe cs oa w') as [later w'']. reflexivity.
Qed.

(** C1 (as amended). [Confirm], [Complete] and [Cancel] set the status
    to Confirmed, Completed and Cancelled whatever the current status,
    and set the update timestamp to the clock reading of the call: for
    every sequence of calls on a freshly created order the status
    history is Pending followed by the targets of the calls, so it
    stays within the transition graph exactly when the sequence of
    targets does, and the update timestamps are the successive clock
    readings. *)
Theorem transitions_unguarded :
  forall (userID : UUID) (itemID : string) (quantity : Z)
         (cs : list call) (w : World DB),
    let history := fst (lifecycle userID itemID quantity cs w) in
    map Status history = OrderStatusPending :: map target cs
    /\ withinGraph (map Status history)
       = withinGraph (OrderStatusPending :: map target cs)
    /\ map UpdatedAt history
       = clock w (S (ticks w)) :: readings (clock w) (S (S (ticks w))) cs.
Proof.
  intros userID itemID quantity cs w history. subst history.
  rewrite lifecycle_unfold. cbn [map].
  rewrite observe_statuses, observe_timestamps.
  repeat split; reflexivity.
Qed.

End Workflow.

(** C1, refuted as stated: on a fresh order, [Cancel] then [Complete]
    takes the status from Cancelled to Completed, which is no edge of
    the graph, and with a clock that has not advanced the update
    timestamp stays the same. *)
Lemma cancelled_order_completes :
  let history :=
    fst (lifecycle jwt.zeroUUID "intel-basic" 1 [CallCancel; CallComplete]
                   world0) in
  map Status history
  = [OrderStatusPending; OrderStatusCancelled; OrderStatusCompleted]
  /\ edge OrderStatusCancelled OrderStatusCompleted = false
  /\ withinGraph (map Status history) = false
  /\ map UpdatedAt history
     = [1700000000000000000; 1700000000000000000; 1700000000000000000].
Proof. repeat split; reflexivity. Qed.

End order_facts.

(* ================================================================== *)
(** * Properties of the encodings *)

Module base64_facts.
Import base64.

Lemma decodeChar_encodeChar (s : sextet) : decodeChar (encodeChar s) = Some s.
Proof.
  destruct s as [[[[[b5 b4] b3] b2] b1] b0].
  destruct b5, b4, b3, b2, b1, b0; reflexivity.
Qed.

Lemma newline_encodeChar (s : sextet) : newline (encodeChar s) = false.
Proof.
  destruct s as [[[[[b5 b4] b3] b2] b1] b0].
  destruct b5, b4, b3, b2, b1, b0; reflexivity.
Qed.

Lemma encodeChar_not_dot (s : sextet) :
  Ascii.eqb (encodeChar s) "."%char = false.
Proof.
  destruct s as [[[[[b5 b4] b3] b2] b1] b0].
  destruct b5, b4, b3, b2, b1, b0; reflexivity.
Qed.

(** Induction over a string three bytes at a time. *)
Lemma string_ind3 (P : string -> Prop) :
  P EmptyString ->
  (forall a, P (String a EmptyString)) ->
  (forall a b, P (String a (String b EmptyString))) ->
  (forall a b c r, P r -> P (String a (String b (String c r)))) ->
  forall s, P s.
Proof.
  intros H0 H1 H2 H3.
  fix IH 1. intros s.
  destruct s as [| a [| b [| c r]]].
  - exact H0.
  - apply H1.
  - apply H2.
  - apply H3, IH.
Qed.

Lemma stripNewlines_EncodeToString (src : string) :
  stripNewlines (EncodeToString src) = EncodeToString src.
Proof.
  induction src as [| a | a b | a b c r IH] using string_ind3.
  - reflexivity.
  - destruct a. cbn [EncodeToString stripNewlines].
    now rewrite !newline_encodeChar.
  - destruct a, b. cbn [EncodeToString stripNewlines].
    now rewrite !newline_encodeChar.
  - destruct a, b, c. cbn [EncodeToString stripNewlines].
    now rewrite !newline_encodeChar, IH.
Qed.

Lemma decodeQuanta_EncodeToString (src : string) :
  decodeQuanta (EncodeToString src) = Some src.
Proof.
  induction src as [| a | a b | a b c r IH] using string_ind3.
  - reflexivity.
  - destruct a. cbn [EncodeToString decodeQuanta].
    now rewrite !decodeChar_encodeChar.
  - destruct a, b. cbn [EncodeToString decodeQuanta].
    now rewrite !decodeChar_encodeChar.
  - destruct a, b, c. cbn [EncodeToString decodeQuanta].
    now rewrite !decodeChar_encodeChar, IH.
Qed.

(** Decoding undoes encoding. *)
Lemma DecodeString_EncodeToString (src : string) :
  DecodeString (EncodeToString src) = Some src.
Proof.
  unfold DecodeString.
  now rewrite stripNewlines_EncodeToString, decodeQuanta_EncodeToString.
Qed.

Lemma dotFree_EncodeToString (src : string) :
  jwtlib.dotFree (EncodeToString src) = true.
Proof.
  induction src as [| a | a b | a b c r IH] using string_ind3.
  - reflexivity.
  - destruct a. cbn [EncodeToString jwtlib.dotFree].
    now rewrite !encodeChar_not_dot.
  - destruct a, b. cbn [EncodeToString jwtlib.dotFree].
    now rewrite !encodeChar_not_dot.
  - destruct a, b, c. cbn [EncodeToString jwtlib.dotFree].
    now rewrite !encodeChar_not_dot, IH.
Qed.

End base64_facts.

Module uuid_facts.
Import uuid.

Lemma xvalue_hexChar (n : nibble) : xvalue (hexChar n) = Some n.
Proof.
  destruct n as [[[b3 b2] b1] b0].
  destruct b3, b2, b1, b0; reflexivity.
Qed.

Lemma xtob_hex (c : ascii) : xtob (hexChar (hi c)) (hexChar (lo c)) = Some c.
Proof.
  unfold xtob. rewrite !xvalue_hexChar. now destruct c.
Qed.

(** Parsing undoes printing. *)
Lemma Parse_String (u : UUID) : Parse (String_ u) = Ok u.
Proof.
  destruct u as [a0 a1 a2 a3 a4 a5 a6 a7 a8 a9 a10 a11 a12 a13 a14 a15].
  unfold Parse, String_, hex2, dash.
  cbn [list_ascii_of_string u0 u1 u2 u3 u4 u5 u6 u7 u8 u9 u10 u11 u12 u13
       u14 u15].
  replace (isDash "-"%char) with true by reflexivity.
  cbn [andb].
  rewrite !xtob_hex. reflexivity.
Qed.

Lemma String_not_empty (u : UUID) :
  String.eqb (String_ u) EmptyString = false.
Proof. reflexivity. Qed.

Lemma String_length (u : UUID) : String.length (String_ u) = 36%nat.
Proof. reflexivity. Qed.

Lemma UUID_eqb_eq (a b : UUID) : UUID_eqb a b = true <-> a = b.
Proof.
  split.
  - destruct a as [a0 a1 a2 a3 a4 a5 a6 a7 a8 a9 a10 a11 a12 a13 a14 a15].
    destruct b as [b0 b1 b2 b3 b4 b5 b6 b7 b8 b9 b10 b11 b12 b13 b14 b15].
    unfold UUID_eqb.
    cbn [u0 u1 u2 u3 u4 u5 u6 u7 u8 u9 u10 u11 u12 u13 u14 u15].
    intros H.
    repeat (apply andb_prop in H; destruct H as [H ?]).
    f_equal; apply Ascii.eqb_eq; assumption.
  - intros ->. unfold UUID_eqb.
    now rewrite !Ascii.eqb_refl.
Qed.

Lemma UUID_eqb_refl (a : UUID) : UUID_eqb a a = true.
Proof. now apply UUID_eqb_eq. Qed.

End uuid_facts.

(* ================================================================== *)
(** * Properties of the token service *)

Module time_facts.

Lemma Second_pos : 0 < Second.
Proof. reflexivity. Qed.

Lemma Truncate_multiple (n : Z) : Truncate (n * Second) Second = n * Second.
Proof. unfold Truncate. rewrite Z.mod_mul by (unfold Second; lia). lia. Qed.

Lemma Truncate_div (t : Time) :
  Truncate t Second / Second * Second = Truncate t Second.
Proof.
  unfold Truncate.
  pose proof (Z.div_mod t Second ltac:(unfold Second; lia)) as E.
  replace (t - t mod Second) with (t / Second * Second) by lia.
  rewrite Z.div_mul by (unfold Second; lia). reflexivity.
Qed.

Lemma Truncate_add (t : Time) (k : Z) :
  Truncate (t + k * Second) Second = Truncate t Second + k * Second.
Proof. unfold Truncate. rewrite Z.mod_add by (unfold Second; lia). lia. Qed.

Lemma Truncate_le (t : Time) : Truncate t Second <= t.
Proof.
  unfold Truncate.
  pose proof (Z.mod_pos_bound t Second Second_pos). lia.
Qed.

Lemma Truncate_gt (t : Time) : t - Second < Truncate t Second.
Proof.
  unfold Truncate.
  pose proof (Z.mod_pos_bound t Second Second_pos). lia.
Qed.

End time_facts.

Module jwt_facts.
Import json jwtlib jwt tokens.

Lemma append_cons (c : ascii) (a b : string) :
  String c a +:+ b = String c (a +:+ b).
Proof. reflexivity. Qed.

Lemma append_assoc (a b c : string) : (a +:+ b) +:+ c = a +:+ (b +:+ c).
Proof.
  induction a as [| x a IH]; [reflexivity |].
  rewrite !append_cons. now rewrite IH.
Qed.

Lemma splitDots_dotFree (s : string) : dotFree s = true -> splitDots s = [s].
Proof.
  induction s as [| c r IH]; [reflexivity |].
  cbn [dotFree splitDots]. intros H.
  apply andb_prop in H. destruct H as [Hc Hr].
  apply negb_true_iff in Hc. rewrite Hc, (IH Hr). reflexivity.
Qed.

Lemma splitDots_segment (a r : string) :
  dotFree a = true -> splitDots (a +:+ dot +:+ r) = a :: splitDots r.
Proof.
  induction a as [| c a IH]; intros H.
  - reflexivity.
  - cbn [dotFree] in H. apply andb_prop in H. destruct H as [Hc Ha].
    apply negb_true_iff in Hc.
    rewrite append_cons. cbn [splitDots]. rewrite Hc, (IH Ha). reflexivity.
Qed.

(** A token of three encoded segments splits into them. *)
Lemma splitDots_token (h c sig : string) :
  splitDots ((EncodeSegment h +:+ dot +:+ EncodeSegment c)
             +:+ dot +:+ EncodeSegment sig)
  = [EncodeSegment h; EncodeSegment c; EncodeSegment sig].
Proof.
  rewrite !append_assoc.
  rewrite splitDots_segment by apply base64_facts.dotFree_EncodeToString.
  rewrite splitDots_segment by apply base64_facts.dotFree_EncodeToString.
  rewrite splitDots_dotFree by apply base64_facts.dotFree_EncodeToString.
  reflexivity.
Qed.

Lemma NewNumericDate_decode (t : Time) :
  decodeNumericDate (JNumber (NewNumericDate t / Second))
  = Some (Some (NewNumericDate t)).
Proof.
  unfold decodeNumericDate, NewNumericDate.
  rewrite time_facts.Truncate_div.
  unfold Truncate at 1.
  pose proof (Z.div_mod t Second ltac:(unfold Second; lia)) as E.
  replace (Truncate t Second) with (t / Second * Second)
    by (unfold Truncate; lia).
  rewrite Z.mod_mul by (unfold Second; lia).
  do 3 f_equal. lia.
Qed.

Lemma registeredMembers_issued (sub : string) (e i : Time) :
  String.eqb sub EmptyString = false ->
  registeredMembers (issuedRegistered sub e i)
  = [("sub", JString sub); ("exp", JNumber (NewNumericDate e / Second));
     ("iat", JNumber (NewNumericDate i / Second))].
Proof.
  intros Hsub. unfold registeredMembers, issuedRegistered.
  cbn [Subject ExpiresAt NotBefore IssuedAt numericDateMember].
  rewrite Hsub. reflexivity.
Qed.

Lemma setRegistered_sub (rc : RegisteredClaims) (s : string) :
  setRegistered rc ("sub", JString s)
  = Some (mkRegisteredClaims s (ExpiresAt rc) (NotBefore rc) (IssuedAt rc)).
Proof. reflexivity. Qed.

Lemma setRegistered_exp (rc : RegisteredClaims) (t : Time) :
  setRegistered rc ("exp", JNumber (NewNumericDate t / Second))
  = Some (mkRegisteredClaims (Subject rc) (Some (NewNumericDate t))
            (NotBefore rc) (IssuedAt rc)).
Proof.
  change (setRegistered rc ("exp", JNumber (NewNumericDate t / Second)))
    with (match decodeNumericDate (JNumber (NewNumericDate t / Second)) with
          | Some d =>
              Some (mkRegisteredClaims (Subject rc) d (NotBefore rc) (IssuedAt rc))
          | None => None
          end).
  now rewrite NewNumericDate_decode.
Qed.

Lemma setRegistered_iat (rc : RegisteredClaims) (t : Time) :
  setRegistered rc ("iat", JNumber (NewNumericDate t / Second))
  = Some (mkRegisteredClaims (Subject rc) (ExpiresAt rc) (NotBefore rc)
            (Some (NewNumericDate t))).
Proof.
  change (setRegistered rc ("iat", JNumber (NewNumericDate t / Second)))
    with (match decodeNumericDate (JNumber (NewNumericDate t / Second)) with
          | Some d =>
              Some (mkRegisteredClaims (Subject rc) (ExpiresAt rc) (NotBefore rc) d)
          | None => None
          end).
  now rewrite NewNumericDate_decode.
Qed.

(** Decoding the registered claims of an issued token returns them. *)
Lemma fromJSON_registered (sub : string) (e i : Time) :
  String.eqb sub EmptyString = false ->
  fromJSON (toJSON (issuedRegistered sub e i)) = Some (issuedRegistered sub e i).
Proof.
  intros Hsub.
  cbn [fromJSON toJSON RegisteredClaims_Claims decodeObject].
  rewrite (registeredMembers_issued _ _ _ Hsub).
  cbn [fold_left].
  rewrite setRegistered_sub, setRegistered_exp, setRegistered_iat.
  reflexivity.
Qed.

Lemma setClaims_user_id (c : Claims) (id : UUID) :
  setClaims c ("user_id", JString (uuid.String_ id))
  = Some (mkClaims id (Role c) (Registered c)).
Proof.
  change (setClaims c ("user_id", JString (uuid.String_ id)))
    with (match uuid.Parse (uuid.String_ id) with
          | Ok id' => Some (mkClaims id' (Role c) (Registered c))
          | Err _ => None
          end).
  now rewrite uuid_facts.Parse_String.
Qed.

Lemma setClaims_role (c : Claims) (r : string) :
  setClaims c ("role", JString r)
  = Some (mkClaims (UserID c) r (Registered c)).
Proof. reflexivity. Qed.

Lemma setClaims_registered (c : Claims) (k : string) (v : value) :
  String.eqb k "user_id" = false -> String.eqb k "role" = false ->
  setClaims c (k, v)
  = match setRegistered (Registered c) (k, v) with
    | Some rc => Some (mkClaims (UserID c) (Role c) rc)
    | None => None
    end.
Proof. intros H1 H2. unfold setClaims. now rewrite H1, H2. Qed.

(** Decoding the claims of an issued access token returns them. *)
Lemma fromJSON_access (id : UUID) (role sub : string) (e i : Time) :
  String.eqb sub EmptyString = false ->
  fromJSON (toJSON (mkClaims id role (issuedRegistered sub e i)))
  = Some (mkClaims id role (issuedRegistered sub e i)).
Proof.
  intros Hsub.
  cbn [fromJSON toJSON Claims_Claims decodeObject].
  unfold claimsMembers. cbn [UserID Role Registered].
  rewrite (registeredMembers_issued _ _ _ Hsub).
  cbn [app fold_left].
  rewrite setClaims_user_id, setClaims_role.
  rewrite !setClaims_registered by reflexivity.
  cbn [Registered UserID Role].
  rewrite setRegistered_sub.
  rewrite !setClaims_registered by reflexivity.
  cbn [Registered UserID Role].
  rewrite setRegistered_exp.
  rewrite !setClaims_registered by reflexivity.
  cbn [Registered UserID Role].
  rewrite setRegistered_iat.
  reflexivity.
Qed.

Lemma setRegistered_other (rc : RegisteredClaims) (k : string) (v : value) :
  String.eqb k "sub" = false -> String.eqb k "exp" = false ->
  String.eqb k "nbf" = false -> String.eqb k "iat" = false ->
  setRegistered rc (k, v) = Some rc.
Proof. intros H1 H2 H3 H4. unfold setRegistered. now rewrite H1, H2, H3, H4. Qed.

(** Decoded as registered claims, the claims of an issued access token
    lose [user_id] and [role] and keep the rest. *)
Lemma fromJSON_access_as_registered (id : UUID) (role sub : string)
    (e i : Time) :
  String.eqb sub EmptyString = false ->
  fromJSON (C:=RegisteredClaims)
           (toJSON (mkClaims id role (issuedRegistered sub e i)))
  = Some (issuedRegistered sub e i).
Proof.
  intros Hsub.
  cbn [fromJSON toJSON Claims_Claims RegisteredClaims_Claims decodeObject].
  unfold claimsMembers. cbn [UserID Role Registered].
  rewrite (registeredMembers_issued _ _ _ Hsub).
  cbn [app fold_left].
  rewrite !setRegistered_other by reflexivity.
  rewrite setRegistered_sub, setRegistered_exp, setRegistered_iat.
  reflexivity.
Qed.

Section Issued.
Context `{Codec} {DB : Type}.
Context {C C' : Type} `{jwtlib.Claims C} `{jwtlib.Claims C'}.

Lemma SignedString_HS256 (c : C) (key : string) :
  SignedString (NewWithClaims SigningMethodHS256 c) key = Ok (issue c key).
Proof. reflexivity. Qed.

Lemma ParseUnverified_issue (c : C) (c' : C') (key : string) :
  faithful headerHS256 ->
  faithful (toJSON c) ->
  fromJSON (toJSON c) = Some c' ->
  ParseUnverified (issue c key)
  = Ok (parsed c c' key,
        [ EncodeSegment (Marshal headerHS256);
          EncodeSegment (Marshal (toJSON c));
          EncodeSegment (mac c key) ]).
Proof.
  intros Hheader Hclaims Hdecode.
  unfold ParseUnverified, issue, signingInput, SigningString.
  cbn [Header Claims_ NewWithClaims Alg].
  rewrite splitDots_token.
  unfold DecodeSegment, EncodeSegment.
  rewrite !base64_facts.DecodeString_EncodeToString.
  fold headerHS256. rewrite Hheader, Hclaims.
  cbn [decodeHeader headerHS256]. rewrite Hdecode.
  reflexivity.
Qed.

Lemma ParseWithClaims_issue (c : C) (c' : C') (key key' : string)
    (w : World DB) :
  faithful headerHS256 ->
  faithful (toJSON c) ->
  fromJSON (toJSON c) = Some c' ->
  ParseWithClaims (issue c key) (fun _ => Ok key') w
  = if String.eqb (mac c key) (mac c key') then
      match Validate c' (now w) with
      | Some e => (Err e, tick 1 w)
      | None =>
          (Ok (mkToken (issue c key) SigningMethodHS256
                 [("alg", JString "HS256"); ("typ", JString "JWT")]
                 c' (mac c key) true), tick 1 w)
      end
    else (Err ErrTokenSignatureInvalid, w).
Proof.
  intros Hheader Hclaims Hdecode.
  unfold ParseWithClaims.
  rewrite (ParseUnverified_issue c c' key Hheader Hclaims Hdecode).
  cbn [nth]. unfold DecodeSegment, EncodeSegment.
  rewrite base64_facts.DecodeString_EncodeToString.
  unfold parsed. cbn [Method]. unfold Verify. cbn [Sign].
  change (hmac.Sum sha256.Sum256 sha256.BlockSize key'
            (base64.EncodeToString (Marshal headerHS256) +:+ dot +:+
             base64.EncodeToString (Marshal (toJSON c))))
    with (mac c key').
  destruct (String.eqb (mac c key) (mac c key')); [| reflexivity].
  unfold bind, time_Now, ret. cbn [Claims_ Raw Header Method].
  fold (now w).
  destruct (Validate c' (now w)); reflexivity.
Qed.

End Issued.

Section ServiceFacts.
Context `{Codec} {DB : Type}.

Lemma GenerateAccessToken_run (s : Service) (userID : UUID)
    (role : domain.UserRole) (w : World DB) :
  GenerateAccessToken s userID role w
  = (Ok (issue (accessClaims s userID role w) (secretKey s)), tick 2 w).
Proof. reflexivity. Qed.

Lemma GenerateRefreshToken_run (s : Service) (userID : UUID) (w : World DB) :
  GenerateRefreshToken s userID w
  = (Ok (issue (refreshClaims s userID w) (secretKey s)), tick 2 w).
Proof. reflexivity. Qed.

Lemma accessClaims_issued (s : Service) (userID : UUID)
    (role : domain.UserRole) (w : World DB) :
  accessClaims s userID role w
  = mkClaims userID role
      (issuedRegistered (uuid.String_ userID)
         (clock w (ticks w) + accessTokenTTL s) (clock w (S (ticks w)))).
Proof. reflexivity. Qed.

Lemma refreshClaims_issued (s : Service) (userID : UUID) (w : World DB) :
  refreshClaims s userID w
  = issuedRegistered (uuid.String_ userID)
      (clock w (ticks w) + refreshTokenTTL s) (clock w (S (ticks w))).
Proof. reflexivity. Qed.

Lemma Validate_issued {C} `{jwtlib.Claims C} (c : C) (e t : Time) :
  GetExpirationTime c = Some e -> GetNotBefore c = None ->
  t < e -> Validate c t = None.
Proof.
  intros He Hn Hlt. unfold Validate, verifyExpiresAt, verifyNotBefore.
  rewrite He, Hn.
  replace (t <? e) with true by (symmetry; now apply Z.ltb_lt).
  reflexivity.
Qed.

Lemma Validate_expired {C} `{jwtlib.Claims C} (c : C) (e t : Time) :
  GetExpirationTime c = Some e -> e <= t -> Validate c t = Some ErrTokenExpired.
Proof.
  intros He Hle. unfold Validate, verifyExpiresAt. rewrite He.
  replace (t <? e) with false by (symmetry; now apply Z.ltb_ge).
  reflexivity.
Qed.

(** A verifier with secret [key'] on an access token issued under
    [secretKey s]: the two MACs of the signing input decide, then the
    expiry. *)
Lemma ValidateAccessToken_issue (s s' : Service) (userID : UUID)
    (role : domain.UserRole) (w w' : World DB) :
  let c := accessClaims s userID role w in
  faithful headerHS256 ->
  faithful (toJSON c) ->
  ValidateAccessToken s' (issue c (secretKey s)) w'
  = if String.eqb (mac c (secretKey s)) (mac c (secretKey s')) then
      match Validate c (now w') with
      | Some e => (Err e, tick 1 w')
      | None => (Ok c, tick 1 w')
      end
    else (Err ErrTokenSignatureInvalid, w').
Proof.
  intros c Hheader Hclaims.
  unfold ValidateAccessToken, bind.
  rewrite (ParseWithClaims_issue c c (secretKey s) (secretKey s') w'
             Hheader Hclaims).
  2:{ subst c. rewrite accessClaims_issued.
      apply fromJSON_access, uuid_facts.String_not_empty. }
  destruct (String.eqb (mac c (secretKey s)) (mac c (secretKey s')));
    [| reflexivity].
  destruct (Validate c (now w')); reflexivity.
Qed.

Lemma ValidateRefreshToken_access (s s' : Service) (userID : UUID)
    (role : domain.UserRole) (w w' : World DB) :
  let c := accessClaims s userID role w in
  faithful headerHS256 ->
  faithful (toJSON c) ->
  ValidateRefreshToken s' (issue c (secretKey s)) w'
  = if String.eqb (mac c (secretKey s)) (mac c (secretKey s')) then
      match Validate (Registered c) (now w') with
      | Some e => (Err e, tick 1 w')
      | None => (Ok userID, tick 1 w')
      end
    else (Err ErrTokenSignatureInvalid, w').
Proof.
  intros c Hheader Hclaims.
  unfold ValidateRefreshToken, bind.
  rewrite (ParseWithClaims_issue c (Registered c) (secretKey s) (secretKey s')
             w' Hheader Hclaims).
  2:{ subst c. rewrite accessClaims_issued.
      apply fromJSON_access_as_registered, uuid_facts.String_not_empty. }
  destruct (String.eqb (mac c (secretKey s)) (mac c (secretKey s')));
    [| reflexivity].
  destruct (Validate (Registered c) (now w')); [reflexivity |].
  cbn [Valid Claims_]. unfold ret. subst c.
  cbn [accessClaims Registered Subject].
  now rewrite uuid_facts.Parse_String.
Qed.

Lemma ValidateRefreshToken_issue (s s' : Service) (userID : UUID)
    (w w' : World DB) :
  let c := refreshClaims s userID w in
  faithful headerHS256 ->
  faithful (toJSON c) ->
  ValidateRefreshToken s' (issue c (secretKey s)) w'
  = if String.eqb (mac c (secretKey s)) (mac c (secretKey s')) then
      match Validate c (now w') with
      | Some e => (Err e, tick 1 w')
      | None => (Ok userID, tick 1 w')
      end
    else (Err ErrTokenSignatureInvalid, w').
Proof.
  intros c Hheader Hclaims.
  unfold ValidateRefreshToken, bind.
  rewrite (ParseWithClaims_issue c c (secretKey s) (secretKey s')
             w' Hheader Hclaims).
  2:{ subst c. rewrite refreshClaims_issued.
      apply fromJSON_registered, uuid_facts.String_not_empty. }
  destruct (String.eqb (mac c (secretKey s)) (mac c (secretKey s')));
    [| reflexivity].
  destruct (Validate c (now w')); [reflexivity |].
  cbn [Valid Claims_]. unfold ret. subst c.
  cbn [refreshClaims Subject].
  now rewrite uuid_facts.Parse_String.
Qed.

(** C9. Round trip: an access token issued for [userID] and [role]
    and verified with the same secret before its 15-minute expiry is
    accepted, and the claims returned carry exactly that id and that
    role. *)
Theorem access_token_roundtrip :
  forall (secret : string) (userID : UUID) (role : domain.UserRole)
         (w w' : World DB),
    let s := NewService secret in
    faithful headerHS256 ->
    faithful (toJSON (accessClaims s userID role w)) ->
    now w' < NewNumericDate (now w) + 15 * Minute ->
    exists (tokenString : string) (claims : Claims),
      fst (GenerateAccessToken s userID role w) = Ok tokenString
      /\ fst (ValidateAccessToken s tokenString w') = Ok claims
      /\ UserID claims = userID
      /\ Role claims = role
      /\ ExpiresAt (Registered claims)
         = Some (NewNumericDate (now w) + 15 * Minute).
Proof.
  intros secret userID role w w' s Hheader Hclaims Hnow.
  exists (issue (accessClaims s userID role w) (secretKey s)).
  exists (accessClaims s userID role w).
  assert (Hexp : NewNumericDate (now w + accessTokenTTL s)
                 = NewNumericDate (now w) + 15 * Minute).
  { unfold NewNumericDate. subst s. cbn [NewService accessTokenTTL].
    replace (15 * Minute) with (900 * Second) by reflexivity.
    apply time_facts.Truncate_add. }
  split; [now rewrite GenerateAccessToken_run |].
  split.
  - rewrite (ValidateAccessToken_issue s s userID role w w' Hheader Hclaims).
    rewrite String.eqb_refl.
    rewrite (Validate_issued _ (NewNumericDate (now w) + 15 * Minute));
      [reflexivity | | reflexivity | exact Hnow].
    cbn [GetExpirationTime Claims_Claims accessClaims Registered ExpiresAt].
    fold (now w). now rewrite Hexp.
  - repeat split.
    cbn [accessClaims Registered ExpiresAt]. fold (now w). now rewrite Hexp.
Qed.

(** C2. The refresh-token verifier accepts an access token: for every
    [userID] and [role], the string [GenerateAccessToken] produces is
    accepted by [ValidateRefreshToken] before its expiry, which returns
    that [userID] without error. *)
Theorem access_token_passes_as_refresh_token :
  forall (s : Service) (userID : UUID) (role : domain.UserRole)
         (w w' : World DB),
    faithful headerHS256 ->
    faithful (toJSON (accessClaims s userID role w)) ->
    now w' < NewNumericDate (now w + accessTokenTTL s) ->
    exists tokenString : string,
      fst (GenerateAccessToken s userID role w) = Ok tokenString
      /\ fst (ValidateRefreshToken s tokenString w') = Ok userID.
Proof.
  intros s userID role w w' Hheader Hclaims Hnow.
  exists (issue (accessClaims s userID role w) (secretKey s)).
  split; [now rewrite GenerateAccessToken_run |].
  rewrite (ValidateRefreshToken_access s s userID role w w' Hheader Hclaims).
  rewrite String.eqb_refl.
  rewrite (Validate_issued _ (NewNumericDate (now w + accessTokenTTL s)));
    [reflexivity | reflexivity | reflexivity | exact Hnow].
Qed.

Lemma ParseUnverified_segments {C} `{jwtlib.Claims C} (tokenString : string)
    (token : Token C) (parts : list string) :
  ParseUnverified tokenString = Ok (token, parts) ->
  exists p0 p1 p2, parts = [p0; p1; p2].
Proof.
  unfold ParseUnverified.
  destruct (splitDots tokenString) as [| p0 [| p1 [| p2 [| p3 rest]]]];
    try discriminate.
  destruct (DecodeSegment p0); [| discriminate].
  destruct (Unmarshal s); [| discriminate].
  destruct (decodeHeader v); [| discriminate].
  destruct (DecodeSegment p1); [| discriminate].
  destruct (Unmarshal s0); [| discriminate].
  destruct (fromJSON v0); [| discriminate].
  destruct (lookup "alg" l) as [[| | | alg | |] |]; try discriminate.
  destruct (GetSigningMethod alg); [| discriminate].
  intros E. injection E as _ <-. now exists p0, p1, p2.
Qed.

Lemma Validate_None {C} `{jwtlib.Claims C} (c : C) (t : Time) :
  Validate c t = None
  <-> verifyExpiresAt c t = true /\ verifyNotBefore c t = true.
Proof.
  unfold Validate.
  destruct (verifyExpiresAt c t), (verifyNotBefore c t); cbn; intuition congruence.
Qed.

Lemma Verify_None (m : SigningMethod) (text sig key : string) :
  Verify m text sig key = None <-> Sign m text key = Ok sig.
Proof.
  unfold Verify. destruct (Sign m text key) as [expected | e].
  - destruct (String.eqb_spec sig expected) as [-> | Hne].
    + tauto.
    + split; [discriminate | intros E; injection E as ->; contradiction].
  - split; discriminate.
Qed.

(** [ParseWithClaims] succeeds exactly on accepted tokens. *)
Lemma ParseWithClaims_accepted {C} `{jwtlib.Claims C} (key tokenString : string)
    (w : World DB) (claims : C) :
  (exists token, fst (ParseWithClaims tokenString (fun _ => Ok key) w) = Ok token
                 /\ Claims_ token = claims /\ Valid token = true)
  <-> accepted key tokenString (now w) claims.
Proof.
  unfold ParseWithClaims, accepted. split.
  - intros (tok & Hrun & Hclaims & _).
    destruct (ParseUnverified tokenString) as [[token parts] | e] eqn:HP;
      [| discriminate].
    destruct (ParseUnverified_segments _ _ _ HP) as (p0 & p1 & p2 & ->).
    cbn [nth] in Hrun.
    destruct (DecodeSegment p2) as [sig |] eqn:Hsig; [| discriminate].
    destruct (Verify (Method token) (p0 +:+ dot +:+ p1) sig key) eqn:HV;
      [discriminate |].
    apply Verify_None in HV.
    unfold bind, time_Now, ret in Hrun. fold (now w) in Hrun.
    destruct (Validate (Claims_ token) (now w)) eqn:Hval; [discriminate |].
    apply Validate_None in Hval. destruct Hval as [Hexp Hnbf].
    cbn [fst] in Hrun. injection Hrun as <-. cbn [Claims_] in Hclaims.
    exists token, p0, p1, p2, sig.
    repeat split; try assumption. now symmetry.
  - intros (token & p0 & p1 & p2 & sig & HP & Hsig & HS & Hexp & Hnbf & ->).
    rewrite HP. cbn [nth]. rewrite Hsig.
    apply Verify_None in HS. rewrite HS.
    unfold bind, time_Now, ret. fold (now w).
    assert (Hval : Validate (Claims_ token) (now w) = None)
      by now apply Validate_None.
    rewrite Hval. cbn [fst]. eexists. split; [reflexivity |]. split; reflexivity.
Qed.

Lemma ParseWithClaims_Valid {C} `{jwtlib.Claims C} (key tokenString : string)
    (w : World DB) (token : Token C) :
  fst (ParseWithClaims tokenString (fun _ => Ok key) w) = Ok token ->
  Valid token = true.
Proof.
  unfold ParseWithClaims.
  destruct (ParseUnverified tokenString) as [[t parts] | e]; [| discriminate].
  destruct (DecodeSegment (nth 2 parts EmptyString)); [| discriminate].
  destruct (Verify _ _ _ _); [discriminate |].
  unfold bind, time_Now, ret.
  destruct (Validate _ _); [discriminate |].
  cbn [fst]. now intros [= <-].
Qed.

Lemma ValidateAccessToken_accepted (s : Service) (tokenString : string)
    (w : World DB) (claims : Claims) :
  fst (ValidateAccessToken s tokenString w) = Ok claims
  <-> accepted (secretKey s) tokenString (now w) claims.
Proof.
  rewrite <- ParseWithClaims_accepted.
  unfold ValidateAccessToken, bind.
  destruct (ParseWithClaims tokenString (fun _ => Ok (secretKey s)) w)
    as [[token | e] w1] eqn:HP; cbn [fst].
  - pose proof (ParseWithClaims_Valid (secretKey s) tokenString w token) as HV.
    rewrite HP in HV. specialize (HV eq_refl). rewrite HV. unfold ret. cbn [fst].
    split.
    + intros [= <-]. now exists token.
    + intros (token' & [= <-] & <- & _). reflexivity.
  - unfold ret. cbn [fst]. split; [discriminate |].
    intros (token' & E & _). discriminate.
Qed.

Lemma length_append (a b : string) :
  String.length (a +:+ b) = (String.length a + String.length b)%nat.
Proof.
  induction a as [| c a IH]; [reflexivity |].
  rewrite append_cons. cbn [String.length]. now rewrite IH.
Qed.

Lemma length_zeros (n : nat) : String.length (hmac.zeros n) = n.
Proof. induction n as [| n IH]; cbn [hmac.zeros String.length]; congruence. Qed.

Lemma zeros_add (n m : nat) :
  hmac.zeros n +:+ hmac.zeros m = hmac.zeros (n + m).
Proof.
  induction n as [| n IH]; [reflexivity |].
  cbn [hmac.zeros Nat.add]. rewrite append_cons. now rewrite IH.
Qed.

(** Zero bytes appended to a key that still fits the block leave the
    key block unchanged. *)
Lemma key_block_zeros (hash : string -> string) (blocksize : nat)
    (key : string) (n : nat) :
  (String.length key + n <= blocksize)%nat ->
  hmac.key_block hash blocksize (key +:+ hmac.zeros n)
  = hmac.key_block hash blocksize key.
Proof.
  intros Hfit. unfold hmac.key_block.
  rewrite length_append, length_zeros.
  replace (blocksize <? String.length key + n)%nat with false
    by (symmetry; apply Nat.ltb_ge; lia).
  replace (blocksize <? String.length key)%nat with false
    by (symmetry; apply Nat.ltb_ge; lia).
  rewrite append_assoc, zeros_add, length_append, length_zeros.
  f_equal. f_equal. lia.
Qed.

Lemma Sum_zeros (hash : string -> string) (blocksize : nat)
    (key msg : string) (n : nat) :
  (String.length key + n <= blocksize)%nat ->
  hmac.Sum hash blocksize (key +:+ hmac.zeros n) msg
  = hmac.Sum hash blocksize key msg.
Proof. intros Hfit. unfold hmac.Sum. now rewrite key_block_zeros. Qed.

Lemma Sign_zeros (m : SigningMethod) (text key : string) (n : nat) :
  (String.length key + n <= 64)%nat ->
  Sign m text (key +:+ hmac.zeros n) = Sign m text key.
Proof.
  intros Hfit. destruct m; cbn [Sign]; try reflexivity;
    rewrite Sum_zeros; try reflexivity;
    unfold sha256.BlockSize, sha512.BlockSize; lia.
Qed.

(** C4 (as amended). [ValidateAccessToken] returns the embedded claims
    exactly when the token is well formed, its signature is the MAC of
    its first two segments under the verifier's secret, its expiry (if
    any) has not elapsed and its not-before (if any) has been reached;
    otherwise it fails with an error.  A token issued under another
    secret is accepted before its expiry exactly when HMAC-SHA256 of
    its signing input is the same under both secrets, and a verifier
    whose secret extends the issuing secret by zero bytes within the
    64-byte block accepts exactly the same tokens. *)
Theorem ValidateAccessToken_accepts_exactly :
  forall (s : Service) (tokenString : string) (w : World DB),
    (forall claims : Claims,
        fst (ValidateAccessToken s tokenString w) = Ok claims
        <-> accepted (secretKey s) tokenString (now w) claims)
    /\ ((exists e, fst (ValidateAccessToken s tokenString w) = Err e)
        <-> ~ exists claims : Claims,
              accepted (secretKey s) tokenString (now w) claims)
    /\ (forall (issuer : Service) (userID : UUID) (role : domain.UserRole)
               (w0 : World DB),
          let c := accessClaims issuer userID role w0 in
          faithful headerHS256 ->
          faithful (toJSON c) ->
          tokenString = issue c (secretKey issuer) ->
          now w < NewNumericDate (now w0 + accessTokenTTL issuer) ->
          (fst (ValidateAccessToken s tokenString w) = Ok c
           <-> mac c (secretKey issuer) = mac c (secretKey s))
          /\ (fst (ValidateAccessToken s tokenString w)
              = Err ErrTokenSignatureInvalid
              <-> mac c (secretKey issuer) <> mac c (secretKey s)))
    /\ (forall (s' : Service) (n : nat),
          (String.length (secretKey s) + n <= 64)%nat ->
          secretKey s' = secretKey s +:+ hmac.zeros n ->
          forall claims : Claims,
            fst (ValidateAccessToken s' tokenString w) = Ok claims
            <-> fst (ValidateAccessToken s tokenString w) = Ok claims).
Proof.
  intros s tokenString w.
  split; [intros claims; apply ValidateAccessToken_accepted |].
  split.
  { split.
    - intros [e He] [claims Hacc].
      apply ValidateAccessToken_accepted in Hacc. congruence.
    - intros Hnone.
      destruct (fst (ValidateAccessToken s tokenString w)) as [claims | e] eqn:E.
      + exfalso. apply Hnone. exists claims.
        now apply ValidateAccessToken_accepted.
      + now exists e. }
  split.
  { intros issuer userID role w0 c Hheader Hclaims -> Hnow.
    subst c.
    rewrite (ValidateAccessToken_issue issuer s userID role w0 w
               Hheader Hclaims).
    set (c := accessClaims issuer userID role w0).
    rewrite (Validate_issued c (NewNumericDate (now w0 + accessTokenTTL issuer)));
      [| reflexivity | reflexivity | exact Hnow].
    destruct (String.eqb_spec (mac c (secretKey issuer)) (mac c (secretKey s)))
      as [E | Hne]; cbn [fst].
    - split; split; intros; try tauto; try discriminate; congruence.
    - split; split; intros; try tauto; try discriminate; congruence. }
  intros s' n Hfit Hkey claims.
  rewrite !ValidateAccessToken_accepted. rewrite Hkey.
  unfold accepted.
  split; intros (token & p0 & p1 & p2 & sig & HP & Hsig & HS & Rest);
    exists token, p0, p1, p2, sig; repeat split; try tauto.
  - now rewrite Sign_zeros in HS.
  - now rewrite Sign_zeros.
Qed.

End ServiceFacts.

End jwt_facts.

(* ================================================================== *)
(** * Properties of package application *)

Module world_facts.
Import tokens.

Lemma bind_onDB {DB A B} (f : DB -> A * DB) (k : A -> M DB B) (w : World DB) :
  bind (onDB f) k w = k (fst (f (db w))) (withDB w (snd (f (db w)))).
Proof. unfold bind, onDB, withDB. now destruct (f (db w)). Qed.

Lemma bind_run {DB A B} (m : M DB A) (k : A -> M DB B) (w : World DB) :
  bind m k w = k (fst (m w)) (snd (m w)).
Proof. unfold bind. now destruct (m w). Qed.

End world_facts.

Module application_facts.
Import domain application spec tokens.
Import (hints) jwtlib jwt.

Lemma validItem_allow_list (itemID : string) :
  validItem itemID = true
  <-> itemID = "intel-basic" \/ itemID = "intel-premium"
      \/ itemID = "intel-enterprise".
Proof.
  unfold validItem, validItems.
  destruct (String.eqb_spec itemID "intel-basic") as [-> | H1];
    [split; [tauto | reflexivity] |].
  destruct (String.eqb_spec itemID "intel-premium") as [-> | H2];
    [split; [tauto | reflexivity] |].
  destruct (String.eqb_spec itemID "intel-enterprise") as [-> | H3];
    [split; [tauto | reflexivity] |].
  rewrite !lookup_insert_ne by congruence. rewrite lookup_empty. cbn.
  split; [discriminate | tauto].
Qed.

Section Orders.
Context {DB : Type}.

(** [NewOrder] then [Confirm] in [w]: three clock readings and one
    draw later, the confirmed order. *)
Lemma Confirm_NewOrder (userID : UUID) (itemID : string) (quantity : Z)
    (w : World DB) :
  order.Confirm (fst (order.NewOrder userID itemID quantity w))
                (snd (order.NewOrder userID itemID quantity w))
  = (order.mkOrderAggregate (confirmedOrder userID itemID quantity w),
     mkWorld (clock w) (3 + ticks w) (rand w) (S (draws w)) (db w)).
Proof. reflexivity. Qed.

(** C8. [CreateOrder]: an item outside the allow-list fails with
    "invalid item_id" before any user lookup; otherwise a user that
    cannot be loaded fails with "user not found"; otherwise a user
    without Viewer-level permission fails with "insufficient
    permissions"; otherwise an order is built Pending, confirmed and
    handed to the order repository, and once saved its non-empty id is
    returned with status Confirmed (a failing save returns its error). *)
Theorem CreateOrder_outcomes :
  forall (s : OrderService DB) (userID : UUID) (req : CreateOrderRequest)
         (w : World DB),
    (validItem (ItemID req) = true
     <-> ItemID req = "intel-basic" \/ ItemID req = "intel-premium"
         \/ ItemID req = "intel-enterprise")
    /\ if negb (validItem (ItemID req)) then
         CreateOrder s userID req w = (Err (errors_New "invalid item_id"), w)
       else
         match UserRepository.FindByID (userRepo s) userID (db w) with
         | (Err _, _) =>
             fst (CreateOrder s userID req w)
             = Err (errors_New "user not found")
         | (Ok user, d) =>
             if negb (HasPermission user RoleViewer) then
               fst (CreateOrder s userID req w)
               = Err (errors_New "insufficient permissions")
             else
               let o := confirmedOrder userID (ItemID req) (Quantity req)
                                       (withDB w d) in
               order.Status
                 (order.Order_
                    (fst (order.NewOrder userID (ItemID req) (Quantity req)
                                         (withDB w d))))
               = order.OrderStatusPending
               /\ order.Status o = order.OrderStatusConfirmed
               /\ match OrderRepository.Save (orderRepo s) o d with
                  | (None, d') =>
                      fst (CreateOrder s userID req w)
                      = Ok (mkOrderResponse (uuid.String_ (order.ID o))
                                            order.OrderStatusConfirmed)
                      /\ db (snd (CreateOrder s userID req w)) = d'
                      /\ String.length (uuid.String_ (order.ID o)) = 36%nat
                  | (Some err, _) =>
                      fst (CreateOrder s userID req w) = Err err
                  end
         end.
Proof.
  intros s userID req w.
  split; [apply validItem_allow_list |].
  unfold CreateOrder.
  destruct (negb (validItem (ItemID req))); [reflexivity |].
  rewrite world_facts.bind_onDB.
  destruct (UserRepository.FindByID (userRepo s) userID (db w))
    as [[user | e] d]; cbn [fst snd]; [| reflexivity].
  destruct (negb (HasPermission user RoleViewer)); [reflexivity |].
  cbv zeta. split; [reflexivity |]. split; [reflexivity |].
  rewrite world_facts.bind_run.
  rewrite (world_facts.bind_run (order.Confirm _)).
  rewrite world_facts.bind_onDB.
  rewrite Confirm_NewOrder.
  cbn [fst snd db order.Order_ withDB].
  destruct (OrderRepository.Save (orderRepo s)
              (confirmedOrder userID (ItemID req) (Quantity req) (withDB w d)) d)
    as [[err |] d']; [reflexivity |].
  repeat split.
Qed.

(** C10. A role outside viewer/analyst/admin has rank 0: a user with
    such a role fails [HasPermission] for every known required role,
    satisfies it for every required role that is unknown too, and is
    rejected by [CreateOrder] with "insufficient permissions". *)
Theorem unknown_role_has_rank_zero :
  forall (u : User),
    knownRole (Role u) = false ->
    index roleHierarchy (Role u) = 0
    /\ (forall required : UserRole,
          knownRole required = true -> HasPermission u required = false)
    /\ (forall required : UserRole,
          knownRole required = false -> HasPermission u required = true)
    /\ (forall (s : OrderService DB) (userID : UUID)
               (req : CreateOrderRequest) (w : World DB) (d : DB),
          validItem (ItemID req) = true ->
          UserRepository.FindByID (userRepo s) userID (db w) = (Ok u, d) ->
          fst (CreateOrder s userID req w)
          = Err (errors_New "insufficient permissions")).
Proof.
  intros u Hunknown.
  assert (Hrank : rank (Role u) = 0) by now apply domain_facts.rank_unknown.
  split; [now rewrite domain_facts.index_roleHierarchy |].
  split.
  { intros required Hknown. rewrite domain_facts.HasPermission_rank, Hrank.
    pose proof (domain_facts.rank_known required Hknown).
    rewrite Z.geb_leb. apply Z.leb_gt. lia. }
  split.
  { intros required Hreq. rewrite domain_facts.HasPermission_rank, Hrank.
    now rewrite (domain_facts.rank_unknown required Hreq). }
  intros s userID req w d Hitem Hfound.
  unfold CreateOrder. rewrite Hitem. cbn [negb].
  rewrite world_facts.bind_onDB, Hfound. cbn [fst snd].
  rewrite domain_facts.HasPermission_rank, Hrank. reflexivity.
Qed.

(** C7. [GetOrder], when the order and the requesting user both load:
    it fails with "access denied" exactly when the requester neither
    owns the order nor holds Analyst-level permission, and returns the
    order otherwise; so the owner always succeeds, a different Viewer
    always fails, and an Analyst or an Admin always succeeds. *)
Theorem GetOrder_access :
  forall (s : OrderService DB) (orderID userID : UUID) (w : World DB)
         (o : order.Order) (d1 : DB) (user : User) (d2 : DB),
    OrderRepository.FindByID (orderRepo s) orderID (db w) = (Ok o, d1) ->
    UserRepository.FindByID (userRepo s) userID d1 = (Ok user, d2) ->
    let r := fst (GetOrder s orderID userID w) in
    (r = Err (errors_New "access denied")
     <-> order.UserID o <> userID /\ HasPermission user RoleAnalyst = false)
    /\ (r = Ok o
        <-> order.UserID o = userID \/ HasPermission user RoleAnalyst = true)
    /\ (order.UserID o = userID -> r = Ok o)
    /\ (order.UserID o <> userID -> Role user = RoleViewer ->
        r = Err (errors_New "access denied"))
    /\ (Role user = RoleAnalyst \/ Role user = RoleAdmin -> r = Ok o).
Proof.
  intros s orderID userID w o d1 user d2 Horder Huser r.
  assert (Hr : r = if negb (UUID_eqb (order.UserID o) userID)
                      && negb (HasPermission user RoleAnalyst)
                   then Err (errors_New "access denied") else Ok o).
  { subst r. unfold GetOrder.
    rewrite world_facts.bind_onDB, Horder. cbn [fst snd].
    rewrite world_facts.bind_onDB. cbn [db withDB]. rewrite Huser.
    cbn [fst snd].
    now destruct (negb (UUID_eqb (order.UserID o) userID)
                  && negb (HasPermission user RoleAnalyst)). }
  clearbody r. subst r.
  pose proof (uuid_facts.UUID_eqb_eq (order.UserID o) userID) as Heq.
  assert (Hanalyst : Role user = RoleAnalyst \/ Role user = RoleAdmin ->
                     HasPermission user RoleAnalyst = true).
  { rewrite domain_facts.HasPermission_rank. now intros [-> | ->]. }
  assert (Hviewer : Role user = RoleViewer ->
                    HasPermission user RoleAnalyst = false).
  { rewrite domain_facts.HasPermission_rank. now intros ->. }
  destruct (UUID_eqb (order.UserID o) userID);
    destruct (HasPermission user RoleAnalyst); cbn [negb andb];
    repeat split; intros;
    repeat match goal with
           | H : _ /\ _ |- _ => destruct H
           | H : _ \/ _ |- _ => destruct H
           end;
    try congruence; try tauto; try discriminate;
    try (exfalso; intuition congruence); intuition congruence.
Qed.

End Orders.

Section Auth.
Context {DB : Type} `{json.Codec} `{Bcrypt}.

(** Both tokens for [user], issued in [w]. *)
Lemma issue_both (s : AuthService DB) (user : User) (w : World DB) :
  bind (jwt.GenerateAccessToken (jwtService s) (domain.ID user)
          (domain.Role user))
    (fun access =>
       match access with
       | Err err => ret (Err err)
       | Ok accessToken =>
           bind (jwt.GenerateRefreshToken (jwtService s) (domain.ID user))
             (fun refresh =>
                match refresh with
                | Err err => ret (Err err)
                | Ok refreshToken =>
                    ret (Ok (mkAuthResponse accessToken refreshToken user))
                end)
       end) w
  = (Ok (mkAuthResponse
           (issue (accessClaims (jwtService s) (domain.ID user)
                                (domain.Role user) w)
                  (jwt.secretKey (jwtService s)))
           (issue (refreshClaims (jwtService s) (domain.ID user) (tick 2 w))
                  (jwt.secretKey (jwtService s)))
           user),
     tick 4 w).
Proof. reflexivity. Qed.

(** C6. [Login]: an unknown email fails with "invalid credentials"; a
    stored but inactive user fails with "account is inactive", whatever
    the password; an active user whose password does not verify fails
    with the same "invalid credentials"; otherwise the call succeeds
    with an access token, a refresh token and the user. *)
Theorem Login_outcomes :
  forall (s : AuthService DB) (req : LoginRequest) (w : World DB),
    match UserRepository.FindByEmail (auth_userRepo s) (Email req) (db w) with
    | (Err _, _) =>
        fst (Login s req w) = Err (errors_New "invalid credentials")
    | (Ok user, d) =>
        if negb (IsActive user) then
          fst (Login s req w) = Err (errors_New "account is inactive")
        else if negb (ValidatePassword user (Password req)) then
          fst (Login s req w) = Err (errors_New "invalid credentials")
        else
          let w1 := withDB w d in
          let key := jwt.secretKey (jwtService s) in
          fst (Login s req w)
          = Ok (mkAuthResponse
                  (issue (accessClaims (jwtService s) (domain.ID user)
                                       (Role user) w1) key)
                  (issue (refreshClaims (jwtService s) (domain.ID user)
                                        (tick 2 w1)) key)
                  user)
    end.
Proof.
  intros s req w. unfold Login.
  rewrite world_facts.bind_onDB.
  destruct (UserRepository.FindByEmail (auth_userRepo s) (Email req) (db w))
    as [[user | e] d]; cbn [fst snd]; [| reflexivity].
  destruct (negb (IsActive user)); [reflexivity |].
  destruct (negb (ValidatePassword user (Password req))); [reflexivity |].
  cbv zeta. now rewrite issue_both.
Qed.

(** A refresh token that validates has cost one reading of the clock
    and nothing else. *)
Lemma ValidateRefreshToken_world (s : jwt.Service) (tokenString : string)
    (w : World DB) (userID : UUID) :
  fst (jwt.ValidateRefreshToken s tokenString w) = Ok userID ->
  snd (jwt.ValidateRefreshToken s tokenString w) = tick 1 w.
Proof.
  unfold jwt.ValidateRefreshToken. rewrite world_facts.bind_run.
  unfold jwtlib.ParseWithClaims.
  destruct (jwtlib.ParseUnverified tokenString) as [[token parts] | e];
    [| discriminate].
  destruct (jwtlib.DecodeSegment (nth 2 parts EmptyString));
    [| discriminate].
  destruct (jwtlib.Verify _ _ _ _); [discriminate |].
  rewrite world_facts.bind_run. cbn [time_Now fst snd].
  destruct (jwtlib.Validate _ _); [discriminate |].
  cbn [ret fst snd jwtlib.Valid jwtlib.Claims_].
  destruct (uuid.Parse _); [reflexivity | discriminate].
Qed.

(** C3. [RefreshToken], given a refresh token that validates and whose
    user id resolves to a stored user: the response carries a new
    access token whose role claim is the role stored for that user now
    (whatever token was presented), and a newly generated refresh
    token, both for that user. *)
Theorem RefreshToken_uses_stored_role :
  forall (s : AuthService DB) (refreshToken : string) (w : World DB)
         (userID : UUID) (user : User) (d : DB),
    fst (jwt.ValidateRefreshToken (jwtService s) refreshToken w) = Ok userID ->
    UserRepository.FindByID (auth_userRepo s) userID (db w) = (Ok user, d) ->
    let w2 := withDB (tick 1 w) d in
    let key := jwt.secretKey (jwtService s) in
    let claims := accessClaims (jwtService s) (domain.ID user) (Role user) w2 in
    let accessToken := issue claims key in
    let newRefreshToken :=
      issue (refreshClaims (jwtService s) (domain.ID user) (tick 2 w2)) key in
    fst (RefreshToken s refreshToken w)
    = Ok (mkAuthResponse accessToken newRefreshToken user)
    /\ jwt.GenerateAccessToken (jwtService s) (domain.ID user) (Role user) w2
       = (Ok accessToken, tick 2 w2)
    /\ jwt.GenerateRefreshToken (jwtService s) (domain.ID user) (tick 2 w2)
       = (Ok newRefreshToken, tick 4 w2)
    /\ jwt.Role claims = Role user
    /\ (forall w' : World DB,
          json.faithful headerHS256 ->
          json.faithful (jwtlib.toJSON claims) ->
          now w' < jwtlib.NewNumericDate
                     (now w2 + jwt.accessTokenTTL (jwtService s)) ->
          exists verified : jwt.Claims,
            fst (jwt.ValidateAccessToken (jwtService s) accessToken w')
            = Ok verified
            /\ jwt.Role verified = Role user
            /\ jwt.UserID verified = domain.ID user).
Proof.
  intros s refreshToken w userID user d Hvalid Hfound
         w2 key claims accessToken newRefreshToken.
  split.
  { unfold RefreshToken. rewrite world_facts.bind_run, Hvalid.
    rewrite (ValidateRefreshToken_world _ _ _ _ Hvalid).
    rewrite world_facts.bind_onDB. cbn [db tick]. rewrite Hfound.
    cbn [fst snd]. now rewrite issue_both. }
  split; [reflexivity |]. split; [reflexivity |]. split; [reflexivity |].
  intros w' Hheader Hclaims Hnow.
  exists claims. subst accessToken key claims.
  rewrite (jwt_facts.ValidateAccessToken_issue (jwtService s) (jwtService s)
             (domain.ID user) (Role user) w2 w' Hheader Hclaims).
  rewrite String.eqb_refl.
  rewrite (jwt_facts.Validate_issued _
             (jwtlib.NewNumericDate
                (now w2 + jwt.accessTokenTTL (jwtService s))));
    [| reflexivity | reflexivity | exact Hnow].
  repeat split.
Qed.

End Auth.
End application_facts.

(* ================================================================== *)
(** * The statements on concrete data *)

Module evaluation.
Import domain application spec tokens examples.
Import (hints) jwtlib jwt.

(** The model against published values: the SHA-256 digest of "abc",
    and the widely circulated sample token signed under
    "your-256-bit-secret", which carries no expiry. *)
Example Sum256_abc :
  base64.EncodeToString (sha256.Sum256 "abc")
  = "ungWv48Bz-pBQUDeXa4iI7ADYaOWF3qctBD_YfIAFa0".
Proof. vm_compute. reflexivity. Qed.

Example sample_token_signature_verifies :
  let sample :=
    "eyJhbGciOiJIUzI1NiIsInR5cCI6IkpXVCJ9."
    +:+ "eyJzdWIiOiIxMjM0NTY3ODkwIiwibmFtZSI6IkpvaG4gRG9lIiwiaWF0IjoxNTE2MjM5MDIyfQ."
    +:+ "SflKxwRJSMeKKF2QT4fwpMeJf36POk6yJV_adQssw5c" in
  is_Ok (fst (jwt.ValidateAccessToken (H:=jsontext.codec)
                (jwt.NewService "your-256-bit-secret") sample world)) = true
  /\ fst (jwt.ValidateAccessToken (H:=jsontext.codec)
            (jwt.NewService "your-256-bit-secrex") sample world)
     = Err jwtlib.ErrTokenSignatureInvalid.
Proof. vm_compute. split; reflexivity. Qed.

Example aliceAccessToken_text :
  aliceAccessToken
  = "eyJhbGciOiJIUzI1NiIsInR5cCI6IkpXVCJ9."
    +:+ "eyJ1c2VyX2lkIjoiNjE2MjYzNjQtNjU2Ni02NzY4LTAwZmYtNmI2YzZkNmU2ZjMxIiwicm9sZSI6InZpZXdlciIsInN1YiI6IjYxNjI2MzY0LTY1NjYtNjc2OC0wMGZmLTZiNmM2ZDZlNmYzMSIsImV4cCI6MTcwMDAwMDkwMCwiaWF0IjoxNzAwMDAwMDAwfQ."
    +:+ "yoHwhq35i5KwZ7hUWmJFgRRSBVoR50mmYgXqxt5OeU4".
Proof. vm_compute. reflexivity. Qed.

Lemma faithful_header : json.faithful (H:=jsontext.codec) headerHS256.
Proof. vm_compute. reflexivity. Qed.

Lemma faithful_alice :
  json.faithful (H:=jsontext.codec)
    (jwtlib.toJSON (accessClaims service aliceID RoleViewer world)).
Proof. vm_compute. reflexivity. Qed.

(** C9 at Alice's token, verified a minute after it was issued. *)
Lemma access_token_roundtrip_witness :
  now worldLater < jwtlib.NewNumericDate (now world) + 15 * Minute
  /\ exists (tokenString : string) (claims : jwt.Claims),
       fst (jwt.GenerateAccessToken (H:=jsontext.codec) service aliceID
              RoleViewer world) = Ok tokenString
       /\ fst (jwt.ValidateAccessToken (H:=jsontext.codec) service
                 tokenString worldLater) = Ok claims
       /\ jwt.UserID claims = aliceID
       /\ jwt.Role claims = RoleViewer
       /\ jwtlib.ExpiresAt (jwt.Registered claims)
          = Some (jwtlib.NewNumericDate (now world) + 15 * Minute).
Proof.
  split; [reflexivity |].
  apply (jwt_facts.access_token_roundtrip (H:=jsontext.codec)
           "test-secret" aliceID RoleViewer world worldLater).
  - exact faithful_header.
  - exact faithful_alice.
  - reflexivity.
Defined.

(** C2 at Alice's access token. *)
Lemma access_token_passes_as_refresh_token_witness :
  now worldLater
  < jwtlib.NewNumericDate (now world + jwt.accessTokenTTL service)
  /\ exists tokenString : string,
       fst (jwt.GenerateAccessToken (H:=jsontext.codec) service aliceID
              RoleViewer world) = Ok tokenString
       /\ fst (jwt.ValidateRefreshToken (H:=jsontext.codec) service
                 tokenString worldLater) = Ok aliceID.
Proof.
  split; [reflexivity |].
  apply (jwt_facts.access_token_passes_as_refresh_token (H:=jsontext.codec)
           service aliceID RoleViewer world worldLater).
  - exact faithful_header.
  - exact faithful_alice.
  - reflexivity.
Defined.

(** C4, refuted as stated: a verifier whose secret is the issuing
    secret followed by a zero byte has a different secret and accepts
    Alice's token. *)
Lemma other_secret_accepted :
  String.eqb (jwt.secretKey service) (jwt.secretKey servicePadded) = false
  /\ fst (jwt.GenerateAccessToken (H:=jsontext.codec) service aliceID
            RoleViewer world) = Ok aliceAccessToken
  /\ fst (jwt.ValidateAccessToken (H:=jsontext.codec) servicePadded
            aliceAccessToken worldLater)
     = Ok (accessClaims service aliceID RoleViewer world).
Proof. vm_compute. repeat split. Qed.

(** C4 (as amended) at Alice's token: the padded secret gives the same
    MAC and is accepted, an unrelated secret gives another and is
    rejected, and after the expiry the issuing secret is rejected too. *)
Lemma ValidateAccessToken_accepts_exactly_witness :
  (fst (jwt.ValidateAccessToken (H:=jsontext.codec) servicePadded
          aliceAccessToken worldLater)
   = Ok (accessClaims service aliceID RoleViewer world)
   <-> mac (H:=jsontext.codec) (accessClaims service aliceID RoleViewer world)
         (jwt.secretKey service)
       = mac (H:=jsontext.codec)
           (accessClaims service aliceID RoleViewer world)
           (jwt.secretKey servicePadded))
  /\ fst (jwt.ValidateAccessToken (H:=jsontext.codec) serviceOther
            aliceAccessToken worldLater)
     = Err jwtlib.ErrTokenSignatureInvalid
  /\ fst (jwt.ValidateAccessToken (H:=jsontext.codec) service
            aliceAccessToken worldExpired)
     = Err jwtlib.ErrTokenExpired
  /\ fst (jwt.ValidateAccessToken (H:=jsontext.codec) service
            "invalid-token" worldLater)
     = Err jwtlib.ErrTokenMalformed.
Proof.
  split.
  - apply (proj1 (proj2 (proj2
             (jwt_facts.ValidateAccessToken_accepts_exactly
                (H:=jsontext.codec) servicePadded aliceAccessToken
                worldLater)))
             service aliceID RoleViewer world
             faithful_header faithful_alice eq_refl eq_refl).
  - vm_compute. repeat split.
Defined.

(** C3 at Alice's refresh token, presented after her stored role has
    become admin: the new access token carries admin. *)
Lemma RefreshToken_uses_stored_role_witness :
  fst (jwt.ValidateRefreshToken (H:=jsontext.codec) service aliceRefreshToken
         worldPromoted)
  = Ok aliceID
  /\ UserRepository.FindByID memory.userRepo aliceID storePromoted
     = (Ok alicePromoted, storePromoted)
  /\ exists (response : AuthResponse) (verified : jwt.Claims),
       fst (RefreshToken (H:=jsontext.codec) auth aliceRefreshToken
              worldPromoted) = Ok response
       /\ User_ response = alicePromoted
       /\ fst (jwt.ValidateAccessToken (H:=jsontext.codec) service
                 (AccessToken response) (tick 5 worldPromoted)) = Ok verified
       /\ jwt.Role verified = RoleAdmin
       /\ jwt.UserID verified = aliceID.
Proof.
  assert (Hvalid :
            fst (jwt.ValidateRefreshToken (H:=jsontext.codec) service
                   aliceRefreshToken worldPromoted)
            = Ok aliceID)
    by (vm_compute; reflexivity).
  assert (Hfound :
            UserRepository.FindByID memory.userRepo aliceID storePromoted
            = (Ok alicePromoted, storePromoted))
    by (vm_compute; reflexivity).
  split; [exact Hvalid |]. split; [exact Hfound |].
  destruct (application_facts.RefreshToken_uses_stored_role
              (H:=jsontext.codec) auth aliceRefreshToken worldPromoted
              aliceID alicePromoted storePromoted Hvalid Hfound)
    as (Hresponse & _ & _ & _ & Hverify).
  destruct (Hverify (tick 5 worldPromoted))
    as (verified & Hverified & Hrole & Hid);
    [exact faithful_header | vm_compute; reflexivity | reflexivity |].
  eexists. exists verified.
  split; [exact Hresponse |].
  split; [reflexivity |].
  split; [exact Hverified |].
  split; [exact Hrole | exact Hid].
Defined.

(** C7 at Alice's order: Alice, its owner, reads it. *)
Lemma GetOrder_access_witness :
  OrderRepository.FindByID memory.orderRepo orderID store
  = (Ok aliceOrder, store)
  /\ UserRepository.FindByID memory.userRepo aliceID store = (Ok alice, store)
  /\ fst (GetOrder orders orderID aliceID world) = Ok aliceOrder.
Proof.
  assert (Horder : OrderRepository.FindByID memory.orderRepo orderID store
                   = (Ok aliceOrder, store)) by reflexivity.
  assert (Huser : UserRepository.FindByID memory.userRepo aliceID store
                  = (Ok alice, store)) by reflexivity.
  split; [exact Horder |]. split; [exact Huser |].
  destruct (application_facts.GetOrder_access orders orderID aliceID world
              aliceOrder store alice store Horder Huser)
    as (_ & _ & Howner & _).
  apply Howner. reflexivity.
Defined.

(** A Viewer who does not own the order is denied; an Analyst is not. *)
Example GetOrder_other_viewer :
  fst (GetOrder orders orderID daveID world) = Err (errors_New "access denied")
  /\ fst (GetOrder orders orderID bobID world) = Ok aliceOrder
  /\ fst (GetOrder orders orderID carolID world) = Ok aliceOrder.
Proof. repeat split. Qed.

(** C10 at Dave, whose role is "superuser". *)
Lemma unknown_role_has_rank_zero_witness :
  knownRole (Role dave) = false
  /\ index roleHierarchy (Role dave) = 0
  /\ HasPermission dave RoleViewer = false
  /\ HasPermission dave "auditor" = true
  /\ fst (CreateOrder orders daveID (mkCreateOrderRequest "intel-basic" 1)
            world)
     = Err (errors_New "insufficient permissions").
Proof.
  assert (Hunknown : knownRole (Role dave) = false) by reflexivity.
  split; [exact Hunknown |].
  destruct (application_facts.unknown_role_has_rank_zero (DB:=memory.DB)
              dave Hunknown)
    as (Hindex & Hknown & Hother & Hcreate).
  split; [exact Hindex |].
  split; [apply Hknown; reflexivity |].
  split; [apply Hother; reflexivity |].
  apply (Hcreate orders daveID (mkCreateOrderRequest "intel-basic" 1)
           world store); reflexivity.
Defined.

(** [CreateOrder] on the in-memory store: Alice, a Viewer, orders
    "intel-basic"; "bogus-item" is refused for everyone and leaves the
    world untouched; an unknown user is reported. *)
Example CreateOrder_examples :
  fst (CreateOrder orders aliceID (mkCreateOrderRequest "intel-basic" 1) world)
  = Ok (mkOrderResponse "61626364-6566-6768-00ff-6b6c6d6e6f39"
                        order.OrderStatusConfirmed)
  /\ CreateOrder orders aliceID (mkCreateOrderRequest "bogus-item" 1) world
     = (Err (errors_New "invalid item_id"), world)
  /\ fst (CreateOrder orders orderID (mkCreateOrderRequest "intel-basic" 1)
            world)
     = Err (errors_New "user not found").
Proof. repeat split. Qed.

(** [Login] on the in-memory store: unknown email, inactive account
    with the right password, wrong password, and success. *)
Example Login_examples :
  fst (Login (H:=jsontext.codec) (H0:=memory.digestBcrypt) auth
         (mkLoginRequest "nobody@example.com" "password123") world)
  = Err (errors_New "invalid credentials")
  /\ fst (Login (H:=jsontext.codec) (H0:=memory.digestBcrypt)
            (mkAuthService memory.DB memory.userRepo service)
            (mkLoginRequest "carol@example.com" "password123") world)
     = Err (errors_New "account is inactive")
  /\ fst (Login (H:=jsontext.codec) (H0:=memory.digestBcrypt) auth
            (mkLoginRequest "alice@example.com" "wrongpassword") world)
     = Err (errors_New "invalid credentials")
  /\ exists refreshToken : string,
       fst (Login (H:=jsontext.codec) (H0:=memory.digestBcrypt) auth
              (mkLoginRequest "alice@example.com" "password123") world)
       = Ok (mkAuthResponse aliceAccessToken refreshToken alice).
Proof.
  split; [vm_compute; reflexivity |].
  split; [vm_compute; reflexivity |].
  split; [vm_compute; reflexivity |].
  eexists. vm_compute. reflexivity.
Qed.

End evaluation.

(* ================================================================== *)
(** * Further properties of the token service *)

Module token_facts.
Import json jwtlib jwt tokens.
Import jwt_facts.

(** Decoded as access-token claims, the registered claims of an issued
    refresh token keep their members and leave [user_id] and [role]
    at their zero values. *)
Lemma fromJSON_registered_as_access (sub : string) (e i : Time) :
  String.eqb sub EmptyString = false ->
  fromJSON (C:=Claims) (toJSON (issuedRegistered sub e i))
  = Some (mkClaims zeroUUID EmptyString (issuedRegistered sub e i)).
Proof.
  intros Hsub.
  cbn [fromJSON toJSON Claims_Claims RegisteredClaims_Claims decodeObject].
  rewrite (registeredMembers_issued _ _ _ Hsub).
  cbn [fold_left]. unfold zeroClaims.
  rewrite !setClaims_registered by reflexivity.
  cbn [Registered UserID Role].
  rewrite setRegistered_sub.
  rewrite !setClaims_registered by reflexivity.
  cbn [Registered UserID Role].
  rewrite setRegistered_exp.
  rewrite !setClaims_registered by reflexivity.
  cbn [Registered UserID Role].
  rewrite setRegistered_iat.
  reflexivity.
Qed.

Lemma TTL_access (secret : string) (t : Time) :
  NewNumericDate (t + accessTokenTTL (NewService secret))
  = NewNumericDate t + 15 * Minute.
Proof.
  unfold NewNumericDate. cbn [accessTokenTTL NewService].
  change (15 * Minute) with (900 * Second).
  apply time_facts.Truncate_add.
Qed.

Lemma TTL_refresh (secret : string) (t : Time) :
  NewNumericDate (t + refreshTokenTTL (NewService secret))
  = NewNumericDate t + 7 * 24 * Hour.
Proof.
  unfold NewNumericDate. cbn [refreshTokenTTL NewService].
  change (7 * 24 * Hour) with (604800 * Second).
  apply time_facts.Truncate_add.
Qed.

Section Tokens.
Context `{Codec} {DB : Type}.

(** X1. A refresh token issued by [GenerateRefreshToken] is accepted by
    [ValidateRefreshToken] under the same secret, with the user id it
    was issued for, exactly while the clock reads less than seven days
    after the issuing instant truncated to the second; from then on it
    is rejected as expired. *)
Theorem refresh_token_window :
  forall (secret : string) (userID : UUID) (w w' : World DB),
    let s := NewService secret in
    let tokenString := issue (refreshClaims s userID w) (secretKey s) in
    faithful headerHS256 ->
    faithful (toJSON (refreshClaims s userID w)) ->
    fst (GenerateRefreshToken s userID w) = Ok tokenString
    /\ (now w' < NewNumericDate (now w) + 7 * 24 * Hour ->
        fst (ValidateRefreshToken s tokenString w') = Ok userID)
    /\ (NewNumericDate (now w) + 7 * 24 * Hour <= now w' ->
        fst (ValidateRefreshToken s tokenString w') = Err ErrTokenExpired).
Proof.
  intros secret userID w w' s tokenString Hheader Hclaims.
  split; [reflexivity |].
  subst tokenString.
  rewrite (ValidateRefreshToken_issue s s userID w w' Hheader Hclaims).
  rewrite String.eqb_refl.
  rewrite refreshClaims_issued.
  set (c := issuedRegistered _ _ _).
  assert (He : GetExpirationTime c
               = Some (NewNumericDate (now w) + 7 * 24 * Hour)).
  { subst c. unfold issuedRegistered.
    cbn [GetExpirationTime RegisteredClaims_Claims ExpiresAt].
    f_equal. exact (TTL_refresh secret _). }
  split; intros Hnow.
  - rewrite (Validate_issued c _ (now w') He eq_refl Hnow). reflexivity.
  - rewrite (Validate_expired c _ (now w') He Hnow). reflexivity.
Qed.

(** X2. An access token issued by [GenerateAccessToken] is accepted by
    [ValidateAccessToken] under the same secret exactly while the clock
    reads less than fifteen minutes after the issuing instant truncated
    to the second; from then on the error is that of an expired token,
    and in both cases one reading of the clock is all the call costs. *)
Theorem access_token_window :
  forall (secret : string) (userID : UUID) (role : domain.UserRole)
         (w w' : World DB),
    let s := NewService secret in
    let c := accessClaims s userID role w in
    let r := ValidateAccessToken s (issue c (secretKey s)) w' in
    faithful headerHS256 ->
    faithful (toJSON c) ->
    (fst r = Ok c <-> now w' < NewNumericDate (now w) + 15 * Minute)
    /\ (fst r = Err ErrTokenExpired
        <-> NewNumericDate (now w) + 15 * Minute <= now w')
    /\ snd r = tick 1 w'.
Proof.
  intros secret userID role w w' s c r Hheader Hclaims.
  subst r c.
  rewrite (ValidateAccessToken_issue s s userID role w w' Hheader Hclaims).
  set (c := accessClaims s userID role w). rewrite String.eqb_refl.
  assert (He : GetExpirationTime c
               = Some (NewNumericDate (now w) + 15 * Minute)).
  { subst c. unfold accessClaims.
    cbn [GetExpirationTime Claims_Claims Registered ExpiresAt].
    f_equal. exact (TTL_access secret _). }
  destruct (Z.lt_ge_cases (now w') (NewNumericDate (now w) + 15 * Minute))
    as [Hlt | Hge].
  - rewrite (Validate_issued c _ (now w') He eq_refl Hlt). cbn [fst snd].
    repeat split; intros; try reflexivity; try assumption;
      try discriminate; lia.
  - rewrite (Validate_expired c _ (now w') He Hge). cbn [fst snd].
    repeat split; intros; try reflexivity; try assumption;
      try discriminate; lia.
Qed.

(** X3. A refresh token is accepted by [ValidateAccessToken] as long as
    it has not expired: the claims returned carry the all-zero user id
    and the empty role. *)
Theorem refresh_token_passes_as_access_token :
  forall (s : Service) (userID : UUID) (w w' : World DB),
    let c := refreshClaims s userID w in
    faithful headerHS256 ->
    faithful (toJSON c) ->
    now w' < NewNumericDate (now w + refreshTokenTTL s) ->
    exists tokenString : string,
      fst (GenerateRefreshToken s userID w) = Ok tokenString
      /\ fst (ValidateAccessToken s tokenString w')
         = Ok (mkClaims zeroUUID EmptyString c).
Proof.
  intros s userID w w' c Hheader Hclaims Hnow.
  exists (issue c (secretKey s)). split; [reflexivity |].
  unfold ValidateAccessToken. rewrite world_facts.bind_run.
  assert (Hdecode : fromJSON (C:=Claims) (toJSON c)
                    = Some (mkClaims zeroUUID EmptyString c)).
  { subst c. rewrite refreshClaims_issued.
    apply fromJSON_registered_as_access, uuid_facts.String_not_empty. }
  rewrite (ParseWithClaims_issue c _ (secretKey s) (secretKey s) w'
             Hheader Hclaims Hdecode).
  rewrite String.eqb_refl.
  rewrite (Validate_issued (mkClaims zeroUUID EmptyString c)
             (NewNumericDate (now w + refreshTokenTTL s)) (now w'));
    [reflexivity | reflexivity | reflexivity | exact Hnow].
Qed.

End Tokens.
End token_facts.

Module wire_facts.
Import json jwtlib jwt tokens wire.
Import jwt_facts.

Lemma splitDots_not_nil (s : string) : splitDots s <> [].
Proof.
  induction s as [| c r IH]; [discriminate |].
  cbn [splitDots].
  destruct (Ascii.eqb c "."%char); [discriminate |].
  destruct (splitDots r); discriminate.
Qed.

Lemma length_splitDots (s : string) : length (splitDots s) = S (dots s).
Proof.
  induction s as [| c r IH]; [reflexivity |].
  cbn [splitDots dots].
  destruct (Ascii.eqb c "."%char).
  - cbn [length]. now rewrite IH.
  - pose proof (splitDots_not_nil r) as Hne.
    destruct (splitDots r) as [| seg segs]; [congruence |].
    exact IH.
Qed.

Lemma ParseUnverified_dots `{Codec} {C} `{jwtlib.Claims C}
    (tokenString : string) :
  dots tokenString <> 2%nat ->
  ParseUnverified (C:=C) tokenString = Err ErrTokenMalformed.
Proof.
  intros Hdots. unfold ParseUnverified.
  pose proof (length_splitDots tokenString) as Hlen.
  destruct (splitDots tokenString) as [| p0 [| p1 [| p2 [| p3 rest]]]];
    try reflexivity.
  cbn [length] in Hlen. congruence.
Qed.

Lemma GetSigningMethod_Alg (m : SigningMethod) :
  isHMAC m = true -> GetSigningMethod (Alg m) = Some m.
Proof. destruct m; [reflexivity .. | discriminate]. Qed.

Lemma Sign_HMAC (m : SigningMethod) (text key : string) :
  isHMAC m = true -> exists sig, Sign m text key = Ok sig.
Proof. destruct m; [eexists; reflexivity .. | discriminate]. Qed.

Lemma toJSON_access_inj (c c' : Claims) :
  toJSON c = toJSON c' -> UserID c = UserID c' /\ Role c = Role c'.
Proof.
  intros E. apply (f_equal identity) in E.
  change (identity (toJSON c)) with (uuid.String_ (UserID c), Role c) in E.
  change (identity (toJSON c')) with (uuid.String_ (UserID c'), Role c') in E.
  split; [| exact (f_equal snd E)].
  apply (f_equal (fun p => uuid.Parse (fst p))) in E. cbn beta in E.
  cbn [fst] in E.
  rewrite !uuid_facts.Parse_String in E. congruence.
Qed.

Section Wire.
Context `{Codec} {DB : Type}.

(** X4. A string that does not hold exactly two dots is rejected as
    malformed by both validators, before the secret or the clock is
    consulted: the world is left as it was. *)
Theorem wrong_segment_count_is_malformed :
  forall (s : Service) (tokenString : string) (w : World DB),
    dots tokenString <> 2%nat ->
    ValidateAccessToken s tokenString w = (Err ErrTokenMalformed, w)
    /\ ValidateRefreshToken s tokenString w = (Err ErrTokenMalformed, w).
Proof.
  intros s tokenString w Hdots.
  unfold ValidateAccessToken, ValidateRefreshToken, ParseWithClaims.
  rewrite !world_facts.bind_run.
  rewrite !(ParseUnverified_dots tokenString Hdots).
  split; reflexivity.
Qed.

(** X5. An access token determines whom it was issued for: if two
    calls of [GenerateAccessToken], under any secrets and at any
    instants, return the same string, the user ids and the roles are
    the same. *)
Theorem access_token_determines_user :
  forall (s s' : Service) (userID userID' : UUID)
         (role role' : domain.UserRole) (w w' : World DB),
    faithful (toJSON (accessClaims s userID role w)) ->
    faithful (toJSON (accessClaims s' userID' role' w')) ->
    fst (GenerateAccessToken s userID role w)
    = fst (GenerateAccessToken s' userID' role' w') ->
    userID = userID' /\ role = role'.
Proof.
  intros s s' userID userID' role role' w w' Hc Hc' E.
  rewrite !GenerateAccessToken_run in E. cbn [fst] in E.
  injection E as E.
  apply (f_equal splitDots) in E.
  unfold issue, signingInput, SigningString in E.
  rewrite !splitDots_token in E.
  apply (f_equal (fun l => nth 1 l EmptyString)) in E.
  cbn [nth Claims_ NewWithClaims] in E.
  apply (f_equal DecodeSegment) in E.
  unfold DecodeSegment, EncodeSegment in E.
  rewrite !base64_facts.DecodeString_EncodeToString in E.
  injection E as E.
  apply (f_equal Unmarshal) in E.
  rewrite Hc, Hc' in E. apply (inj Some) in E.
  exact (toJSON_access_inj _ _ E).
Qed.

(** X6. A token whose header names a signing method outside the HMAC
    family ([none], or one of the asymmetric methods) is never
    accepted, whatever its claims and its signature segment. *)
Theorem non_HMAC_token_is_rejected :
  forall (s : Service) (tokenString : string) (w : World DB)
         (token : Token Claims) (parts : list string),
    ParseUnverified tokenString = Ok (token, parts) ->
    isHMAC (Method token) = false ->
    is_Ok (fst (ValidateAccessToken s tokenString w)) = false.
Proof.
  intros s tokenString w token parts HP Hm.
  unfold ValidateAccessToken, ParseWithClaims.
  rewrite world_facts.bind_run. rewrite HP.
  destruct (DecodeSegment (nth 2 parts EmptyString)) as [sig |];
    [| reflexivity].
  unfold Verify. destruct (Method token); try discriminate.
  reflexivity.
Qed.

(** X7. The signing method is not pinned to HS256: claims signed with
    HS384 or HS512 under the service's secret are accepted by
    [ValidateAccessToken] whenever their time claims admit the
    instant. *)
Theorem other_HMAC_methods_accepted :
  forall (s : Service) (m : SigningMethod) (c : Claims) (w : World DB),
    isHMAC m = true ->
    faithful (header m) ->
    faithful (toJSON c) ->
    fromJSON (toJSON c) = Some c ->
    Validate c (now w) = None ->
    exists tokenString : string,
      SignedString (NewWithClaims m c) (secretKey s) = Ok tokenString
      /\ fst (ValidateAccessToken s tokenString w) = Ok c.
Proof.
  intros s m c w Hm Hheader Hclaims Hdecode Hvalid.
  destruct (Sign_HMAC m (SigningString (NewWithClaims m c)) (secretKey s) Hm)
    as [sig Hsig].
  exists (SigningString (NewWithClaims m c) +:+ dot +:+ EncodeSegment sig).
  split.
  { unfold SignedString. cbn [Method NewWithClaims] in *. now rewrite Hsig. }
  unfold ValidateAccessToken, ParseWithClaims, ParseUnverified.
  rewrite world_facts.bind_run.
  unfold SigningString in *. cbn [Header Claims_ NewWithClaims] in *.
  rewrite splitDots_token.
  unfold DecodeSegment, EncodeSegment in *.
  rewrite !base64_facts.DecodeString_EncodeToString.
  fold (header m). rewrite Hheader, Hclaims.
  cbn [decodeHeader header]. rewrite Hdecode.
  change (lookup "alg" [("alg", JString (Alg m)); ("typ", JString "JWT")])
    with (Some (JString (Alg m))).
  cbv beta iota. rewrite (GetSigningMethod_Alg m Hm).
  cbv beta iota. cbn [nth Method].
  rewrite base64_facts.DecodeString_EncodeToString.
  unfold Verify. fold (header m) in Hsig. rewrite Hsig, String.eqb_refl.
  unfold bind, time_Now, ret. cbn [Claims_ fst].
  fold (now w). rewrite Hvalid. reflexivity.
Qed.

End Wire.
End wire_facts.

(* ================================================================== *)
(** * Further properties of the order aggregate *)

Module aggregate_facts.
Import order spec tokens aggregate.

Section Aggregate.
Context {DB : Type}.

Lemma keeps_invoke (c : call) (oa : OrderAggregate) (w : World DB)
    (o : Order) :
  keeps (Order_ (fst (invoke c oa w))) o -> keeps (Order_ oa) o.
Proof.
  intros (H1 & H2 & H3 & H4 & H5 & H6). unfold keeps.
  rewrite H1, H2, H3, H4, H5, H6. destruct c; repeat split.
Qed.

(** X8. Whatever sequence of [Confirm], [Complete] and [Cancel] is
    applied to an order, every state observed keeps its id, its user,
    its item, its quantity, its creation time and its owner record;
    each call reads the clock once and touches nothing else. *)
Theorem transitions_keep_identity :
  forall (cs : list call) (oa : OrderAggregate) (w : World DB),
    Forall (keeps (Order_ oa)) (fst (observe cs oa w))
    /\ snd (observe cs oa w) = tick (length cs) w.
Proof.
  induction cs as [| c cs IH]; intros oa w.
  - split; [constructor | now destruct w].
  - destruct (IH (fst (invoke c oa w)) (snd (invoke c oa w))) as [IHo IHw].
    split.
    + rewrite order_facts.observe_cons. constructor.
      * apply (keeps_invoke c oa w). repeat split.
      * eapply Forall_impl; [exact IHo | apply keeps_invoke].
    + cbn [observe]. rewrite world_facts.bind_run. cbv beta.
      rewrite world_facts.bind_run. cbn [ret snd].
      rewrite IHw, order_facts.invoke_world. unfold tick.
      cbn [clock ticks rand draws db length]. f_equal. lia.
Qed.

End Aggregate.
End aggregate_facts.

(* ================================================================== *)
(** * Properties of registration and of sessions *)

Module session_facts.
Import domain application registration session tokens.
Import (hints) jwtlib jwt.

Lemma withDB_db {DB} (w : World DB) : withDB w (db w) = w.
Proof. now destruct w. Qed.

Section Validation.
Context {DB : Type} `{json.Codec}.

Lemma ParseWithClaims_withDB {C} `{jwtlib.Claims C} (tokenString key : string)
    (w : World DB) (d : DB) :
  jwtlib.ParseWithClaims tokenString (fun _ => Ok key) (withDB w d)
  = (fst (jwtlib.ParseWithClaims tokenString (fun _ => Ok key) w),
     withDB (snd (jwtlib.ParseWithClaims tokenString (fun _ => Ok key) w)) d).
Proof.
  unfold jwtlib.ParseWithClaims.
  destruct (jwtlib.ParseUnverified tokenString) as [[token parts] | e];
    [| reflexivity].
  destruct (jwtlib.DecodeSegment (nth 2 parts EmptyString)); [| reflexivity].
  destruct (jwtlib.Verify _ _ _ _); [reflexivity |].
  rewrite !world_facts.bind_run. cbn [time_Now fst snd withDB clock ticks].
  destruct (jwtlib.Validate _ _); reflexivity.
Qed.

Lemma ParseWithClaims_clock {C} `{jwtlib.Claims C} (tokenString key : string)
    (w : World DB) :
  let w' := snd (jwtlib.ParseWithClaims tokenString (fun _ => Ok key) w) in
  w' = w \/ w' = tick 1 w.
Proof.
  unfold jwtlib.ParseWithClaims.
  destruct (jwtlib.ParseUnverified tokenString) as [[token parts] | e];
    [| now left].
  destruct (jwtlib.DecodeSegment (nth 2 parts EmptyString)); [| now left].
  destruct (jwtlib.Verify _ _ _ _); [now left |].
  rewrite !world_facts.bind_run. cbn [time_Now fst snd].
  destruct (jwtlib.Validate _ _); now right.
Qed.

(** X9. Validating a token never consults the store: over any other
    database the two validators return the same result, and all they
    do to the world is read the clock, at most once. *)
Theorem validation_ignores_store :
  forall (s : jwt.Service) (tokenString : string) (w : World DB) (d : DB),
    let access := jwt.ValidateAccessToken s tokenString in
    let refresh := jwt.ValidateRefreshToken s tokenString in
    access (withDB w d) = (fst (access w), withDB (snd (access w)) d)
    /\ refresh (withDB w d) = (fst (refresh w), withDB (snd (refresh w)) d)
    /\ (snd (access w) = w \/ snd (access w) = tick 1 w)
    /\ (snd (refresh w) = w \/ snd (refresh w) = tick 1 w).
Proof.
  intros s tokenString w d access refresh. subst access refresh.
  unfold jwt.ValidateAccessToken, jwt.ValidateRefreshToken.
  rewrite !world_facts.bind_run, !ParseWithClaims_withDB. cbn [fst snd].
  pose proof (ParseWithClaims_clock (C:=jwt.Claims) tokenString
                (jwt.secretKey s) w) as Ha.
  pose proof (ParseWithClaims_clock (C:=jwtlib.RegisteredClaims) tokenString
                (jwt.secretKey s) w) as Hr.
  cbv zeta in Ha, Hr.
  repeat split.
  - destruct (fst (jwtlib.ParseWithClaims (C:=jwt.Claims) tokenString _ w))
      as [token | e]; [| reflexivity].
    destruct (jwtlib.Valid token); reflexivity.
  - destruct (fst (jwtlib.ParseWithClaims (C:=jwtlib.RegisteredClaims)
                     tokenString _ w)) as [token | e]; [| reflexivity].
    destruct (jwtlib.Valid token); [| reflexivity].
    destruct (uuid.Parse _); reflexivity.
  - destruct (fst (jwtlib.ParseWithClaims (C:=jwt.Claims) tokenString _ w))
      as [token | e]; [| exact Ha].
    destruct (jwtlib.Valid token); exact Ha.
  - destruct (fst (jwtlib.ParseWithClaims (C:=jwtlib.RegisteredClaims)
                     tokenString _ w)) as [token | e]; [| exact Hr].
    destruct (jwtlib.Valid token); [| exact Hr].
    destruct (uuid.Parse _); exact Hr.
Qed.

End Validation.

Section Registration.
Context {DB : Type} `{json.Codec} `{Bcrypt} `{user.BcryptHash}.

Lemma NewUser_run (email password : string) (role : UserRole) (w : World DB) :
  user.NewUser email password role w
  = match user.bcrypt_generate password (rand w) (draws w) with
    | (Ok h, n) => (Ok (newUser email h role n w), afterNewUser n w)
    | (Err e, n) => (Err e, afterHash n w)
    end.
Proof.
  unfold user.NewUser. rewrite world_facts.bind_run.
  unfold user.GenerateFromPassword.
  destruct (user.bcrypt_generate password (rand w) (draws w)) as [[h | e] n];
    reflexivity.
Qed.

Lemma tokensFor_run (s : AuthService DB) (user : User) (w : World DB) :
  bind (jwt.GenerateAccessToken (jwtService s) (domain.ID user)
          (domain.Role user))
    (fun access =>
       match access with
       | Err err => ret (Err err)
       | Ok accessToken =>
           bind (jwt.GenerateRefreshToken (jwtService s) (domain.ID user))
             (fun refresh =>
                match refresh with
                | Err err => ret (Err err)
                | Ok refreshToken =>
                    ret (Ok (mkAuthResponse accessToken refreshToken user))
                end)
       end) w
  = (Ok (tokensFor (jwtService s) user w), tick 4 w).
Proof. reflexivity. Qed.

(** [Register], run in [w]. *)
Lemma Register_run (s : AuthService DB) (req : RegisterRequest)
    (w : World DB) :
  Register s req w
  = match UserRepository.FindByEmail (auth_userRepo s)
            (registration.Email req) (db w) with
    | (Ok _, d) => (Err (errors_New "email already exists"), withDB w d)
    | (Err _, d) =>
        match user.bcrypt_generate (registration.Password req)
                (rand w) (draws w) with
        | (Err e, n) => (Err e, afterHash n (withDB w d))
        | (Ok h, n) =>
            let u := newUser (registration.Email req) h
                             (registration.Role req) n w in
            match UserRepository.Save (auth_userRepo s) u d with
            | (Some e, d') => (Err e, withDB (afterNewUser n w) d')
            | (None, d') =>
                (Ok (tokensFor (jwtService s) u
                       (withDB (afterNewUser n w) d')),
                 tick 4 (withDB (afterNewUser n w) d'))
            end
        end
    end.
Proof.
  unfold Register.
  rewrite world_facts.bind_onDB.
  destruct (UserRepository.FindByEmail (auth_userRepo s)
              (registration.Email req) (db w))
    as [[existing | e] d]; cbn [fst snd]; [reflexivity |].
  rewrite world_facts.bind_run, NewUser_run.
  cbn [rand draws withDB].
  destruct (user.bcrypt_generate (registration.Password req)
              (rand w) (draws w))
    as [[h | e'] n]; cbn [fst snd]; [| reflexivity].
  cbv zeta. rewrite world_facts.bind_onDB.
  change (newUser (registration.Email req) h (registration.Role req) n
                  (withDB w d))
    with (newUser (registration.Email req) h (registration.Role req) n w).
  change (db (afterNewUser n (withDB w d))) with d.
  destruct (UserRepository.Save (auth_userRepo s)
              (newUser (registration.Email req) h (registration.Role req) n w)
              d) as [[e' |] d'];
    cbn [fst snd]; [reflexivity |].
  now rewrite tokensFor_run.
Qed.

(** X10. [Register]: an email that is already stored fails with "email
    already exists" before any hash is computed or id drawn; otherwise
    a failing hash returns its error and nothing is saved; otherwise
    the new user (a fresh id, the requested role, active) is handed to
    the repository, and once saved both tokens are issued for it (a
    failing save returns its error). *)
Theorem Register_outcomes :
  forall (s : AuthService DB) (req : RegisterRequest) (w : World DB),
    let r := Register s req w in
    match UserRepository.FindByEmail (auth_userRepo s)
            (registration.Email req) (db w) with
    | (Ok _, d) =>
        fst r = Err (errors_New "email already exists")
        /\ snd r = withDB w d
    | (Err _, d) =>
        match user.bcrypt_generate (registration.Password req)
                (rand w) (draws w) with
        | (Err e, n) => fst r = Err e /\ db (snd r) = d
        | (Ok h, n) =>
            let u := newUser (registration.Email req) h
                             (registration.Role req) n w in
            domain.Role u = registration.Role req
            /\ domain.IsActive u = true
            /\ match UserRepository.Save (auth_userRepo s) u d with
               | (Some e, d') => fst r = Err e
               | (None, d') =>
                   fst r = Ok (tokensFor (jwtService s) u
                                 (withDB (afterNewUser n w) d'))
                   /\ db (snd r) = d'
               end
        end
    end.
Proof.
  intros s req w r. subst r. rewrite Register_run.
  destruct (UserRepository.FindByEmail (auth_userRepo s)
              (registration.Email req) (db w)) as [[existing | e] d];
    [split; reflexivity |].
  destruct (user.bcrypt_generate (registration.Password req)
              (rand w) (draws w)) as [[h | e'] n];
    [| split; reflexivity].
  cbv zeta. split; [reflexivity |]. split; [reflexivity |].
  destruct (UserRepository.Save (auth_userRepo s) _ d) as [[e' |] d'];
    [reflexivity | split; reflexivity].
Qed.

Lemma Register_Ok (s : AuthService DB) (req : RegisterRequest) (w : World DB)
    (response : AuthResponse) :
  fst (Register s req w) = Ok response ->
  exists (h : string) (n : nat) (d d' : DB) (e : error),
    UserRepository.FindByEmail (auth_userRepo s) (registration.Email req) (db w)
    = (Err e, d)
    /\ user.bcrypt_generate (registration.Password req) (rand w) (draws w)
       = (Ok h, n)
    /\ UserRepository.Save (auth_userRepo s)
         (newUser (registration.Email req) h (registration.Role req) n w) d
       = (None, d')
    /\ Register s req w
       = (Ok (tokensFor (jwtService s)
                (newUser (registration.Email req) h (registration.Role req) n w)
                (withDB (afterNewUser n w) d')),
          tick 4 (withDB (afterNewUser n w) d'))
    /\ response
       = tokensFor (jwtService s)
           (newUser (registration.Email req) h (registration.Role req) n w)
           (withDB (afterNewUser n w) d').
Proof.
  intros Hok. pose proof (Register_run s req w) as Hrun.
  destruct (UserRepository.FindByEmail (auth_userRepo s)
              (registration.Email req) (db w)) as [[existing | e] d].
  { rewrite Hrun in Hok. discriminate. }
  destruct (user.bcrypt_generate (registration.Password req) (rand w) (draws w))
    as [[h | e'] n].
  2: { rewrite Hrun in Hok. discriminate. }
  cbv zeta in Hrun.
  destruct (UserRepository.Save (auth_userRepo s)
              (newUser (registration.Email req) h (registration.Role req) n w)
              d) as [[e' |] d'] eqn:Hsave.
  { rewrite Hrun in Hok. discriminate. }
  exists h, n, d, d', e. rewrite Hrun in Hok. cbn [fst] in Hok.
  repeat split; try assumption. congruence.
Qed.

(** X11. [Register] grants whatever role the request names: the stored
    user is active and carries that role, and the access token of the
    response validates, until it expires, to claims with that role and
    the new user's id. *)
Theorem Register_grants_requested_role :
  forall (s : AuthService DB) (req : RegisterRequest) (w w' : World DB)
         (response : AuthResponse),
    let claims :=
      accessClaims (jwtService s) (domain.ID (User_ response))
                   (registration.Role req) (tick 2 w) in
    fst (Register s req w) = Ok response ->
    json.faithful headerHS256 ->
    json.faithful (jwtlib.toJSON claims) ->
    now w' < jwtlib.NewNumericDate
               (now (tick 2 w) + jwt.accessTokenTTL (jwtService s)) ->
    domain.Role (User_ response) = registration.Role req
    /\ domain.IsActive (User_ response) = true
    /\ domain.Email (User_ response) = registration.Email req
    /\ fst (jwt.ValidateAccessToken (jwtService s) (AccessToken response) w')
       = Ok claims
    /\ jwt.Role claims = registration.Role req
    /\ jwt.UserID claims = domain.ID (User_ response).
Proof.
  intros s req w w' response claims Hok Hheader Hclaims Hnow.
  destruct (Register_Ok s req w response Hok)
    as (h & n & d & d' & e & _ & _ & _ & _ & ->).
  subst claims. cbn [User_ tokensFor AccessToken] in *.
  repeat split.
  set (u := newUser _ _ _ _ _) in *.
  change (accessClaims (jwtService s) (domain.ID u) (domain.Role u)
            (withDB (afterNewUser n w) d'))
    with (accessClaims (jwtService s) (domain.ID u) (registration.Role req)
            (tick 2 w)).
  rewrite (jwt_facts.ValidateAccessToken_issue (jwtService s) (jwtService s)
             (domain.ID u) (registration.Role req) (tick 2 w) w'
             Hheader Hclaims).
  rewrite String.eqb_refl.
  rewrite (jwt_facts.Validate_issued _
             (jwtlib.NewNumericDate
                (now (tick 2 w) + jwt.accessTokenTTL (jwtService s))));
    [reflexivity | reflexivity | reflexivity | exact Hnow].
Qed.

(** X12. Registration followed by login: when the password hash
    verifies against the password it was generated from, and the
    repository finds by email the user it has just saved, a login with
    the registered email and password, run right after a successful
    [Register], succeeds for the same user. *)
Theorem Register_then_Login :
  forall (s : AuthService DB) (req : RegisterRequest) (w : World DB)
         (response : AuthResponse),
    (forall (h : string) (n : nat),
        user.bcrypt_generate (registration.Password req) (rand w) (draws w)
        = (Ok h, n) ->
        bcrypt_matches h (registration.Password req) = true) ->
    (forall (u : User) (d d' : DB),
        UserRepository.Save (auth_userRepo s) u d = (None, d') ->
        fst (UserRepository.FindByEmail (auth_userRepo s) (domain.Email u) d')
        = Ok u) ->
    fst (Register s req w) = Ok response ->
    exists response' : AuthResponse,
      fst (Login s (mkLoginRequest (registration.Email req)
                                   (registration.Password req))
                 (snd (Register s req w)))
      = Ok response'
      /\ User_ response' = User_ response.
Proof.
  intros s req w response Hhash Hrepo Hok.
  destruct (Register_Ok s req w response Hok)
    as (h & n & d & d' & e & _ & Hgen & Hsave & Hrun & ->).
  rewrite Hrun. cbn [snd User_ tokensFor].
  set (u := newUser _ _ _ _ _) in *.
  unfold Login. rewrite world_facts.bind_onDB.
  cbn [application.Email application.Password db tick withDB].
  pose proof (Hrepo u d d' Hsave) as Hfind.
  change (domain.Email u) with (registration.Email req) in Hfind.
  rewrite Hfind.
  change (domain.IsActive u) with true. cbn [negb].
  unfold ValidatePassword. change (PasswordHash u) with h.
  rewrite (Hhash h n Hgen). cbn [negb].
  rewrite tokensFor_run. eexists. split; reflexivity.
Qed.

(** X13. [RefreshToken] does not look at the active flag: for an
    account that is stored as inactive, [Login] fails with "account is
    inactive" whatever the password, while a refresh token of that
    account that still validates is exchanged for a new pair of
    tokens. *)
Theorem inactive_account_still_refreshes :
  forall (s : AuthService DB) (u : User) (req : LoginRequest)
         (refreshToken : string) (w : World DB) (d1 d2 : DB),
    IsActive u = false ->
    UserRepository.FindByEmail (auth_userRepo s) (application.Email req) (db w)
    = (Ok u, d1) ->
    fst (jwt.ValidateRefreshToken (jwtService s) refreshToken w)
    = Ok (domain.ID u) ->
    UserRepository.FindByID (auth_userRepo s) (domain.ID u) (db w)
    = (Ok u, d2) ->
    fst (Login s req w) = Err (errors_New "account is inactive")
    /\ fst (RefreshToken s refreshToken w)
       = Ok (tokensFor (jwtService s) u (withDB (tick 1 w) d2)).
Proof.
  intros s u req refreshToken w d1 d2 Hinactive Hemail Hvalid Hid.
  split.
  - unfold Login. rewrite world_facts.bind_onDB, Hemail. cbn [fst snd].
    now rewrite Hinactive.
  - unfold RefreshToken. rewrite world_facts.bind_run, Hvalid.
    rewrite (application_facts.ValidateRefreshToken_world _ _ _ _ Hvalid).
    rewrite world_facts.bind_onDB. cbn [db tick]. rewrite Hid.
    cbn [fst snd]. now rewrite tokensFor_run.
Qed.

(** X14. [RefreshToken] reports every failure of the validation
    (malformed, wrongly signed, expired, a subject that is no UUID)
    with the same "invalid refresh token", without consulting the
    repository; a token that validates for a user the repository does
    not find fails with "user not found", and no token is issued. *)
Theorem RefreshToken_failures :
  forall (s : AuthService DB) (refreshToken : string) (w : World DB),
    (forall e : error,
        fst (jwt.ValidateRefreshToken (jwtService s) refreshToken w) = Err e ->
        RefreshToken s refreshToken w
        = (Err (errors_New "invalid refresh token"),
           snd (jwt.ValidateRefreshToken (jwtService s) refreshToken w)))
    /\ (forall (userID : UUID) (e : error) (d : DB),
          fst (jwt.ValidateRefreshToken (jwtService s) refreshToken w)
          = Ok userID ->
          UserRepository.FindByID (auth_userRepo s) userID (db w) = (Err e, d) ->
          RefreshToken s refreshToken w
          = (Err (errors_New "user not found"), withDB (tick 1 w) d)).
Proof.
  intros s refreshToken w. split.
  - intros e Hinvalid. unfold RefreshToken.
    rewrite world_facts.bind_run, Hinvalid. reflexivity.
  - intros userID e d Hvalid Hid. unfold RefreshToken.
    rewrite world_facts.bind_run, Hvalid.
    rewrite (application_facts.ValidateRefreshToken_world _ _ _ _ Hvalid).
    rewrite world_facts.bind_onDB. cbn [db tick]. rewrite Hid. reflexivity.
Qed.

End Registration.
Section Orders.
Context {DB : Type}.

Lemma CreateOrder_Ok (s : OrderService DB) (userID : UUID)
    (req : CreateOrderRequest) (w : World DB) (response : OrderResponse) :
  fst (CreateOrder s userID req w) = Ok response ->
  exists (u : User) (d d' : DB),
    let o := spec.confirmedOrder userID (ItemID req) (Quantity req)
                                 (withDB w d) in
    UserRepository.FindByID (userRepo s) userID (db w) = (Ok u, d)
    /\ OrderRepository.Save (orderRepo s) o d = (None, d')
    /\ response = mkOrderResponse (uuid.String_ (order.ID o))
                                  order.OrderStatusConfirmed
    /\ db (snd (CreateOrder s userID req w)) = d'.
Proof.
  unfold CreateOrder.
  destruct (negb (validItem (ItemID req))); [discriminate |].
  rewrite world_facts.bind_onDB.
  destruct (UserRepository.FindByID (userRepo s) userID (db w))
    as [[u | e] d]; cbn [fst snd]; [| discriminate].
  destruct (negb (HasPermission u RoleViewer)); [discriminate |].
  rewrite world_facts.bind_run.
  rewrite (world_facts.bind_run (order.Confirm _)).
  rewrite world_facts.bind_onDB.
  rewrite application_facts.Confirm_NewOrder.
  cbn [fst snd db order.Order_ withDB].
  destruct (OrderRepository.Save (orderRepo s)
              (spec.confirmedOrder userID (ItemID req) (Quantity req)
                                   (withDB w d)) d)
    as [[err |] d'] eqn:Hsave; [discriminate |].
  cbn [fst snd ret]. intros Hok. exists u, d, d'. cbv zeta.
  injection Hok as <-. repeat split. exact Hsave.
Qed.

(** X15. An order that [CreateOrder] has created can be read back by
    its creator: when the order repository finds by id the order it
    has just saved and the user still loads, the id in the response
    parses, and [GetOrder] with it returns the confirmed order with
    the requested item and quantity. *)
Theorem created_order_can_be_read :
  forall (s : OrderService DB) (userID : UUID) (req : CreateOrderRequest)
         (w : World DB) (response : OrderResponse),
    let w1 := snd (CreateOrder s userID req w) in
    let orderID := rand w (draws w) in
    (forall (o : order.Order) (d d' : DB),
        OrderRepository.Save (orderRepo s) o d = (None, d') ->
        fst (OrderRepository.FindByID (orderRepo s) (order.ID o) d') = Ok o) ->
    is_Ok (fst (UserRepository.FindByID (userRepo s) userID
                  (snd (OrderRepository.FindByID (orderRepo s) orderID
                          (db w1)))))
    = true ->
    fst (CreateOrder s userID req w) = Ok response ->
    uuid.Parse (OrderID response) = Ok orderID
    /\ exists o : order.Order,
         fst (GetOrder s orderID userID w1) = Ok o
         /\ order.ID o = orderID
         /\ order.UserID o = userID
         /\ order.ItemID o = ItemID req
         /\ order.Quantity o = Quantity req
         /\ order.Status o = order.OrderStatusConfirmed.
Proof.
  intros s userID req w response w1 orderID Hrepo Huser Hok.
  destruct (CreateOrder_Ok s userID req w response Hok)
    as (u & d & d' & Hfound & Hsave & -> & Hdb).
  cbv zeta in *. subst w1. rewrite Hdb in Huser.
  set (o := spec.confirmedOrder userID (ItemID req) (Quantity req)
                                (withDB w d)) in *.
  change (order.ID o) with orderID in *.
  cbn [OrderID]. split; [apply uuid_facts.Parse_String |].
  exists o. split; [| repeat split].
  unfold GetOrder. rewrite world_facts.bind_onDB, Hdb.
  pose proof (Hrepo o d d' Hsave) as Hfind.
  change (order.ID o) with orderID in Hfind. rewrite Hfind.
  rewrite world_facts.bind_onDB. cbn [db withDB].
  destruct (UserRepository.FindByID (userRepo s) userID
              (snd (OrderRepository.FindByID (orderRepo s) orderID d')))
    as [[u' | e] d2]; [| discriminate].
  cbn [fst snd]. change (order.UserID o) with userID.
  rewrite uuid_facts.UUID_eqb_refl. reflexivity.
Qed.

End Orders.
End session_facts.

(* ================================================================== *)
(** * Properties of the HTTP layer *)

Module http_facts.
Import domain gin http tokens route.
Import (hints) jwtlib jwt.

Lemma cutPrefix_append (p r : string) : cutPrefix p (p +:+ r) = Some r.
Proof.
  induction p as [| a p IH]; [now destruct r |].
  rewrite jwt_facts.append_cons. cbn [cutPrefix].
  now rewrite Ascii.eqb_refl.
Qed.

Lemma cutPrefix_Some (p s r : string) :
  cutPrefix p s = Some r -> s = p +:+ r.
Proof.
  revert s. induction p as [| a p IH]; intros s.
  - cbn [cutPrefix]. intros E. injection E as <-. reflexivity.
  - destruct s as [| b s]; cbn [cutPrefix]; [discriminate |].
    destruct (Ascii.eqb_spec a b) as [-> |]; [| discriminate].
    intros E. rewrite jwt_facts.append_cons. f_equal. now apply IH.
Qed.

Lemma eqb_suffix (p r : string) :
  p <> EmptyString -> String.eqb r (p +:+ r) = false.
Proof.
  intros Hp. apply String.eqb_neq. intros E.
  apply (f_equal String.length) in E.
  rewrite jwt_facts.length_append in E.
  destruct p; [congruence | cbn [String.length] in E; lia].
Qed.

(** The header carries a bearer token exactly when it starts with
    "Bearer ". *)
Lemma TrimPrefix_Bearer (authHeader : string) :
  (exists tokenString,
      authHeader = bearer tokenString
      /\ TrimPrefix authHeader "Bearer " = tokenString
      /\ String.eqb tokenString authHeader = false)
  \/ (cutPrefix "Bearer " authHeader = None
      /\ TrimPrefix authHeader "Bearer " = authHeader).
Proof.
  unfold TrimPrefix.
  destruct (cutPrefix "Bearer " authHeader) as [rest |] eqn:E.
  - left. exists rest. apply cutPrefix_Some in E. subst authHeader.
    repeat split. now apply eqb_suffix.
  - right. split; reflexivity.
Qed.

Lemma Get_user_id (c : Context) (id role : any) :
  Get (Set_ (Set_ c "user_id" id) "user_role" role) "user_id" = Some id.
Proof.
  unfold Get, Set_. cbn [Keys].
  rewrite lookup_insert_ne by discriminate. apply lookup_insert_eq.
Qed.

Lemma Get_user_role (c : Context) (id role : any) :
  Get (Set_ (Set_ c "user_id" id) "user_role" role) "user_role" = Some role.
Proof. unfold Get, Set_. cbn [Keys]. apply lookup_insert_eq. Qed.

Lemma length_list_ascii (s : string) :
  length (list_ascii_of_string s) = String.length s.
Proof. induction s as [| a s IH]; [reflexivity |]. cbn. now rewrite IH. Qed.

(** Only strings of 36 bytes parse in the dashed form. *)
Lemma Parse_length (s : string) (u : UUID) :
  uuid.Parse s = Ok u -> String.length s = 36%nat.
Proof.
  unfold uuid.Parse. rewrite <- length_list_ascii.
  generalize (list_ascii_of_string s) as l. intros l.
  do 36 (destruct l as [| ? l]; [discriminate |]).
  destruct l; [reflexivity | discriminate].
Qed.

Section Middleware.
Context {DB : Type}.

Lemma Auth_cases (m : Middleware DB) (next : HandlerFunc DB) (c : Context)
    (w : World DB) :
  (exists (msg : string) (w' : World DB),
      Auth m next c w = (Returned (refused c StatusUnauthorized msg), w'))
  \/ (exists (tokenString : string) (claims : jwt.Claims),
        GetHeader c "Authorization" = bearer tokenString
        /\ fst (JWTServiceInterface.ValidateAccessToken (jwtService m)
                  tokenString w) = Ok claims
        /\ Auth m next c w
           = next (authenticated c claims)
                  (snd (JWTServiceInterface.ValidateAccessToken (jwtService m)
                          tokenString w))).
Proof.
  unfold Auth.
  destruct (String.eqb (GetHeader c "Authorization") EmptyString);
    [left; now eexists _, _ |].
  destruct (TrimPrefix_Bearer (GetHeader c "Authorization"))
    as [(tokenString & Hheader & -> & ->) | [_ ->]].
  - rewrite world_facts.bind_run.
    destruct (fst (JWTServiceInterface.ValidateAccessToken (jwtService m)
                     tokenString w)) as [claims | e] eqn:E.
    + right. exists tokenString, claims. repeat split; assumption.
    + left. now eexists _, _.
  - rewrite String.eqb_refl. left. now eexists _, _.
Qed.

Lemma RequireRole_rank (m : Middleware DB) (required role : UserRole)
    (next : HandlerFunc DB) (c : Context) (w : World DB) :
  Get c "user_role" = Some (AnyUserRole role) ->
  RequireRole m required next c w
  = if spec.rank role <? spec.rank required then
      (Returned (refused c StatusForbidden "Insufficient permissions"), w)
    else next c w.
Proof.
  intros Hrole. unfold RequireRole. rewrite Hrole. cbv zeta.
  fold roleHierarchy. rewrite !domain_facts.index_roleHierarchy.
  destruct (spec.rank role <? spec.rank required); reflexivity.
Qed.

(** X16. [RequireRole] decides as [HasPermission] does: for a context
    whose [user_role] key holds the role of a user, the pending
    handlers run exactly when that user has the permission of the
    required role, and the request is answered 403 otherwise; without
    the key it is answered 401. *)
Theorem RequireRole_agrees_with_HasPermission :
  forall (m : Middleware DB) (required : UserRole) (next : HandlerFunc DB)
         (c : Context) (w : World DB),
    (forall u : User,
        Get c "user_role" = Some (AnyUserRole (Role u)) ->
        RequireRole m required next c w
        = if HasPermission u required then next c w
          else (Returned (refused c StatusForbidden
                                  "Insufficient permissions"), w))
    /\ (Get c "user_role" = None ->
        RequireRole m required next c w
        = (Returned (refused c StatusUnauthorized "User role not found"), w)).
Proof.
  intros m required next c w. split.
  - intros u Hrole. rewrite (RequireRole_rank m required (Role u) next c w Hrole).
    rewrite domain_facts.HasPermission_rank.
    rewrite Z.geb_leb, Z.leb_antisym.
    destruct (spec.rank (Role u) <? spec.rank required); reflexivity.
  - intros Hnone. unfold RequireRole. now rewrite Hnone.
Qed.

(** X17. Behind [Auth] no type assertion on the context keys fails:
    for any token service, any order service and any request,
    [RequireRole] and the three order handlers find [user_id] and
    [user_role] with the types they assert, so the chain does not
    panic unless a later handler does. *)
Theorem no_panic_behind_Auth :
  forall `{Binding} (m : Middleware DB) (h : Handler DB) (required : UserRole)
         (next : HandlerFunc DB) (c : Context) (w : World DB),
    (forall (c' : Context) (w' : World DB), fst (next c' w') <> Panicked) ->
    fst (Auth m (RequireRole m required next) c w) <> Panicked
    /\ fst (Auth m (CreateOrder h) c w) <> Panicked
    /\ fst (Auth m (GetOrder h) c w) <> Panicked
    /\ fst (Auth m (GetUserOrders h) c w) <> Panicked.
Proof.
  intros B m h required next c w Hnext.
  repeat split.
  - destruct (Auth_cases m (RequireRole m required next) c w)
      as [(msg & w' & ->) | (t & claims & _ & _ & ->)]; [discriminate |].
    rewrite (RequireRole_rank m required (jwt.Role claims));
      [| apply Get_user_role].
    destruct (_ <? _); [discriminate | apply Hnext].
  - destruct (Auth_cases m (CreateOrder h) c w)
      as [(msg & w' & ->) | (t & claims & _ & _ & ->)]; [discriminate |].
    unfold CreateOrder, authenticated. rewrite Get_user_id.
    destruct (bindCreateOrder _); [| discriminate].
    rewrite world_facts.bind_run.
    destruct (fst (OrderServiceInterface.CreateOrder _ _ _ _)); discriminate.
  - destruct (Auth_cases m (GetOrder h) c w)
      as [(msg & w' & ->) | (t & claims & _ & _ & ->)]; [discriminate |].
    unfold GetOrder, authenticated. cbv zeta.
    destruct (uuid.Parse _); [| discriminate].
    rewrite Get_user_id. rewrite world_facts.bind_run.
    destruct (fst (OrderServiceInterface.GetOrder _ _ _ _)); discriminate.
  - destruct (Auth_cases m (GetUserOrders h) c w)
      as [(msg & w' & ->) | (t & claims & _ & _ & ->)]; [discriminate |].
    unfold GetUserOrders, authenticated. rewrite Get_user_id.
    rewrite world_facts.bind_run.
    destruct (fst (OrderServiceInterface.GetUserOrders _ _ _)); discriminate.
Qed.


End Middleware.

Section Gate.
Context {DB : Type} `{json.Codec}.

Lemma ValidateAccessToken_world (s : jwt.Service) (tokenString : string)
    (w : World DB) (claims : jwt.Claims) :
  fst (jwt.ValidateAccessToken s tokenString w) = Ok claims ->
  snd (jwt.ValidateAccessToken s tokenString w) = tick 1 w.
Proof.
  unfold jwt.ValidateAccessToken. rewrite world_facts.bind_run.
  unfold jwtlib.ParseWithClaims.
  destruct (jwtlib.ParseUnverified tokenString) as [[token parts] | e];
    [| discriminate].
  destruct (jwtlib.DecodeSegment (nth 2 parts EmptyString));
    [| discriminate].
  destruct (jwtlib.Verify _ _ _ _); [discriminate |].
  rewrite world_facts.bind_run. cbn [time_Now fst snd].
  destruct (jwtlib.Validate _ _); [discriminate |].
  reflexivity.
Qed.

Lemma bearer_inj (a b : string) : bearer a = bearer b -> a = b.
Proof.
  intros E. apply (f_equal (cutPrefix "Bearer ")) in E.
  unfold bearer in E. rewrite !cutPrefix_append in E. congruence.
Qed.

Lemma Auth_bearer (s : jwt.Service) (next : HandlerFunc DB) (c : Context)
    (w : World DB) (tokenString : string) :
  GetHeader c "Authorization" = bearer tokenString ->
  Auth (mkMiddleware DB (jwtInterface s)) next c w
  = match fst (jwt.ValidateAccessToken s tokenString w) with
    | Ok claims =>
        next (authenticated c claims)
             (snd (jwt.ValidateAccessToken s tokenString w))
    | Err _ =>
        (Returned (refused c StatusUnauthorized "Invalid token"),
         snd (jwt.ValidateAccessToken s tokenString w))
    end.
Proof.
  intros Hheader. unfold Auth. rewrite Hheader.
  change (String.eqb (bearer tokenString) EmptyString) with false.
  cbv iota zeta.
  unfold TrimPrefix, bearer. rewrite cutPrefix_append.
  rewrite eqb_suffix by discriminate.
  rewrite world_facts.bind_run. cbn [jwtService jwtInterface
    JWTServiceInterface.ValidateAccessToken].
  destruct (fst (jwt.ValidateAccessToken s tokenString w)); reflexivity.
Qed.

(** X19. [Auth] with the token service lets a request through exactly
    when its [Authorization] header is "Bearer " followed by a token
    the service accepts at that instant: then the pending handlers run
    with the user id and the role of the token's claims under
    [user_id] and [user_role]; in every other case the answer is 401,
    the chain is aborted, and the header carries no accepted token. *)
Theorem Auth_admits_accepted_tokens_only :
  forall (s : jwt.Service) (next : HandlerFunc DB) (c : Context)
         (w : World DB),
    let m := mkMiddleware DB (jwtInterface s) in
    (exists (tokenString : string) (claims : jwt.Claims),
        GetHeader c "Authorization" = bearer tokenString
        /\ accepted (jwt.secretKey s) tokenString (now w) claims
        /\ Auth m next c w = next (authenticated c claims) (tick 1 w))
    \/ ((exists msg : string,
            fst (Auth m next c w)
            = Returned (refused c StatusUnauthorized msg))
        /\ forall (tokenString : string) (claims : jwt.Claims),
             GetHeader c "Authorization" = bearer tokenString ->
             ~ accepted (jwt.secretKey s) tokenString (now w) claims).
Proof.
  intros s next c w m. subst m.
  destruct (TrimPrefix_Bearer (GetHeader c "Authorization"))
    as [(tokenString & Hheader & _ & _) | [Hnone Htrim]].
  - rewrite (Auth_bearer s next c w tokenString Hheader).
    destruct (fst (jwt.ValidateAccessToken s tokenString w))
      as [claims | e] eqn:E.
    + left. exists tokenString, claims.
      split; [exact Hheader |]. split.
      * now apply jwt_facts.ValidateAccessToken_accepted.
      * now rewrite (ValidateAccessToken_world s tokenString w claims E).
    + right. split; [now eexists |].
      intros t claims Ht Hacc. rewrite Hheader in Ht.
      apply bearer_inj in Ht. subst t.
      apply jwt_facts.ValidateAccessToken_accepted in Hacc. congruence.
  - right. split.
    + unfold Auth. rewrite Htrim, String.eqb_refl.
      destruct (String.eqb (GetHeader c "Authorization") EmptyString);
        now eexists.
    + intros t claims Ht _. rewrite Ht in Hnone. unfold bearer in Hnone.
      rewrite cutPrefix_append in Hnone. discriminate.
Qed.

Lemma Auth_issued (s : jwt.Service) (userID : UUID) (role : UserRole)
    (w0 : World DB) (next : HandlerFunc DB) (c : Context) (w : World DB) :
  let claims := accessClaims s userID role w0 in
  json.faithful headerHS256 ->
  json.faithful (jwtlib.toJSON claims) ->
  GetHeader c "Authorization" = bearer (issue claims (jwt.secretKey s)) ->
  Auth (mkMiddleware DB (jwtInterface s)) next c w
  = if now w <? jwtlib.NewNumericDate (now w0 + jwt.accessTokenTTL s) then
      next (authenticated c claims) (tick 1 w)
    else (Returned (refused c StatusUnauthorized "Invalid token"), tick 1 w).
Proof.
  intros claims Hheader Hclaims Hbearer. subst claims.
  rewrite (Auth_bearer s next c w _ Hbearer).
  rewrite (jwt_facts.ValidateAccessToken_issue s s userID role w0 w
             Hheader Hclaims).
  rewrite String.eqb_refl.
  destruct (Z.ltb_spec (now w)
              (jwtlib.NewNumericDate (now w0 + jwt.accessTokenTTL s)))
    as [Hlt | Hge].
  - rewrite (jwt_facts.Validate_issued _
               (jwtlib.NewNumericDate (now w0 + jwt.accessTokenTTL s)));
      [reflexivity | reflexivity | reflexivity | exact Hlt].
  - rewrite (jwt_facts.Validate_expired _
               (jwtlib.NewNumericDate (now w0 + jwt.accessTokenTTL s)));
      [reflexivity | reflexivity | exact Hge].
Qed.

(** X20. A request that carries an access token the service has issued
    passes [Auth] until the token expires, and the pending handlers
    find the user id and the role the token was issued for under
    [user_id] and [user_role]; once the token has expired the answer
    is 401 "Invalid token". *)
Theorem issued_token_passes_Auth :
  forall (s : jwt.Service) (userID : UUID) (role : UserRole)
         (w0 : World DB) (next : HandlerFunc DB) (c : Context)
         (w : World DB),
    let m := mkMiddleware DB (jwtInterface s) in
    let claims := accessClaims s userID role w0 in
    let expiry := jwtlib.NewNumericDate (now w0 + jwt.accessTokenTTL s) in
    json.faithful headerHS256 ->
    json.faithful (jwtlib.toJSON claims) ->
    GetHeader c "Authorization" = bearer (issue claims (jwt.secretKey s)) ->
    (now w < expiry ->
     Auth m next c w = next (authenticated c claims) (tick 1 w))
    /\ (expiry <= now w ->
        Auth m next c w
        = (Returned (refused c StatusUnauthorized "Invalid token"), tick 1 w))
    /\ Get (authenticated c claims) "user_id" = Some (AnyUUID userID)
    /\ Get (authenticated c claims) "user_role" = Some (AnyUserRole role).
Proof.
  intros s userID role w0 next c w m claims expiry Hheader Hclaims Hbearer.
  subst m expiry.
  rewrite (Auth_issued s userID role w0 next c w Hheader Hclaims Hbearer).
  repeat split.
  - intros Hlt. apply Z.ltb_lt in Hlt. now rewrite Hlt.
  - intros Hge. apply Z.ltb_ge in Hge. now rewrite Hge.
  - apply Get_user_id.
  - apply Get_user_role.
Qed.

(** X21. The role-gated routes of the router: a request with an
    unexpired access token issued for [role] reaches the handlers of
    the admin group exactly when the role is "admin", and those of the
    analyst group exactly when it is "admin" or "analyst"; any other
    role, known or not, is answered 403. *)
Theorem role_groups_admit_by_role :
  forall (s : jwt.Service) (userID : UUID) (role : UserRole)
         (w0 : World DB) (next : HandlerFunc DB) (c : Context)
         (w : World DB),
    let m := mkMiddleware DB (jwtInterface s) in
    let claims := accessClaims s userID role w0 in
    let forbidden :=
      (Returned (refused (authenticated c claims) StatusForbidden
                         "Insufficient permissions"), tick 1 w) in
    json.faithful headerHS256 ->
    json.faithful (jwtlib.toJSON claims) ->
    GetHeader c "Authorization" = bearer (issue claims (jwt.secretKey s)) ->
    now w < jwtlib.NewNumericDate (now w0 + jwt.accessTokenTTL s) ->
    Auth m (RequireRole m RoleAdmin next) c w
    = (if String.eqb role RoleAdmin
       then next (authenticated c claims) (tick 1 w) else forbidden)
    /\ Auth m (RequireRole m RoleAnalyst next) c w
       = (if String.eqb role RoleAdmin || String.eqb role RoleAnalyst
          then next (authenticated c claims) (tick 1 w) else forbidden).
Proof.
  intros s userID role w0 next c w m claims forbidden
         Hheader Hclaims Hbearer Hlt.
  subst m forbidden.
  rewrite !(Auth_issued s userID role w0 _ c w Hheader Hclaims Hbearer).
  apply Z.ltb_lt in Hlt. rewrite Hlt.
  rewrite !(RequireRole_rank _ _ role) by apply Get_user_role.
  unfold spec.rank.
  change (String.eqb RoleAdmin RoleAdmin) with true.
  change (String.eqb RoleAnalyst RoleAdmin) with false.
  change (String.eqb RoleAnalyst RoleAnalyst) with true.
  cbv iota.
  destruct (String.eqb role RoleAdmin); [split; reflexivity |].
  destruct (String.eqb role RoleAnalyst); [split; reflexivity |].
  destruct (String.eqb role RoleViewer); split; reflexivity.
Qed.

End Gate.
Section Handlers.
Context {DB : Type} `{Binding}.


(** X23. The [GetOrder] handler checks the path parameter first: an id
    whose length is that of no UUID spelling is answered 400 even on a
    context without [user_id], and no service is called.  With the
    order service behind it, a requester who neither owns the order
    nor holds Analyst-level permission is answered 404 with the
    message "access denied", and an order the repository does not
    find is answered 404 with the repository's own message. *)
Theorem GetOrder_handler_statuses :
  forall `{json.Codec} `{Bcrypt} `{user.BcryptHash}
         (auth : AuthServiceInterface.t DB)
         (svc : application.OrderService DB) (c : Context) (w : World DB),
    let h := mkHandler DB auth (orderInterface svc) in
    (~ In (String.length (Param c "id")) uuidLengths ->
     GetOrder h c w
     = (Returned (failed c StatusBadRequest "Invalid order ID"), w))
    /\ (forall (orderID userID : UUID),
          Param c "id" = uuid.String_ orderID ->
          Get c "user_id" = Some (AnyUUID userID) ->
          (forall (o : order.Order) (d1 : DB) (u : User) (d2 : DB),
              OrderRepository.FindByID (application.orderRepo svc) orderID (db w)
              = (Ok o, d1) ->
              UserRepository.FindByID (application.userRepo svc) userID d1
              = (Ok u, d2) ->
              order.UserID o <> userID ->
              HasPermission u RoleAnalyst = false ->
              fst (GetOrder h c w)
              = Returned (failed c StatusNotFound "access denied"))
          /\ (forall (e : error) (d1 : DB),
                OrderRepository.FindByID (application.orderRepo svc) orderID
                                         (db w) = (Err e, d1) ->
                fst (GetOrder h c w)
                = Returned (failed c StatusNotFound (Error_ e)))).
Proof.
  intros C B G auth svc c w h. subst h. split.
  - intros Hlength. unfold GetOrder. cbv zeta.
    destruct (uuid.Parse (Param c "id")) as [orderID | e] eqn:E;
      [| reflexivity].
    apply Parse_length in E. exfalso. apply Hlength. rewrite E.
    unfold uuidLengths. cbn [In]. tauto.
  - intros orderID userID Hparam Hkey.
    assert (Hrun : fst (GetOrder (mkHandler DB auth (orderInterface svc)) c w)
                   = match fst (application.GetOrder svc orderID userID w) with
                     | Ok o => Returned (JSON c StatusOK (OrderPayload o))
                     | Err e => Returned (failed c StatusNotFound (Error_ e))
                     end).
    { unfold GetOrder. cbv zeta.
      rewrite Hparam, uuid_facts.Parse_String, Hkey.
      rewrite world_facts.bind_run.
      cbn [orderService orderInterface OrderServiceInterface.GetOrder].
      destruct (fst (application.GetOrder svc orderID userID w));
        reflexivity. }
    rewrite Hrun. split.
    + intros o d1 u d2 Horder Huser Hother Hperm.
      unfold application.GetOrder.
      rewrite world_facts.bind_onDB, Horder. cbn [fst snd].
      rewrite world_facts.bind_onDB. cbn [db withDB]. rewrite Huser.
      cbn [fst snd]. rewrite Hperm.
      destruct (UUID_eqb (order.UserID o) userID) eqn:E;
        [apply uuid_facts.UUID_eqb_eq in E; contradiction | reflexivity].
    + intros e d1 Horder. unfold application.GetOrder.
      rewrite world_facts.bind_onDB, Horder. reflexivity.
Qed.

(** X24. The [Login] handler answers an unknown email and a wrong
    password alike: in both cases the status is 401, the body and the
    log entry carry "invalid credentials", and nothing else is written,
    so the response does not tell whether the account exists. *)
Theorem Login_handler_hides_unknown_accounts :
  forall `{json.Codec} `{Bcrypt} `{user.BcryptHash}
         (svc : application.AuthService DB)
         (orders : OrderServiceInterface.t DB) (c : Context) (w : World DB)
         (req : application.LoginRequest),
    let h := mkHandler DB (authInterface svc) orders in
    let answer :=
      Returned
        (failed (log c (mkLogEntry "error" "Login failed"
                          [("error", "invalid credentials")]))
                StatusUnauthorized "invalid credentials") in
    bindLogin (RequestBody c) = Ok req ->
    (forall (e : error) (d : DB),
        UserRepository.FindByEmail (application.auth_userRepo svc)
          (application.Email req) (db w) = (Err e, d) ->
        fst (Login h c w) = answer)
    /\ (forall (u : User) (d : DB),
          UserRepository.FindByEmail (application.auth_userRepo svc)
            (application.Email req) (db w) = (Ok u, d) ->
          IsActive u = true ->
          ValidatePassword u (application.Password req) = false ->
          fst (Login h c w) = answer).
Proof.
  intros C B G svc orders c w req h answer Hbind. subst h answer.
  unfold Login. rewrite Hbind. rewrite world_facts.bind_run.
  cbn [authService authInterface AuthServiceInterface.Login].
  split.
  - intros e d Hfind. unfold application.Login.
    rewrite world_facts.bind_onDB, Hfind. reflexivity.
  - intros u d Hfind Hactive Hwrong. unfold application.Login.
    rewrite world_facts.bind_onDB, Hfind. cbn [fst snd].
    rewrite Hactive, Hwrong. reflexivity.
Qed.

End Handlers.
End http_facts.

(* ================================================================== *)
(** * The further statements on concrete data *)

Module evaluation_more.
Import domain application spec tokens examples.
Import (hints) jwtlib jwt.

#[local] Existing Instance jsontext.codec.
#[local] Existing Instance memory.digestBcrypt.
#[local] Existing Instance fixtures.digestHash.
#[local] Existing Instance fixtures.binding.

Lemma faithful_refresh :
  json.faithful (jwtlib.toJSON (refreshClaims service aliceID world)).
Proof. vm_compute. reflexivity. Qed.

Lemma faithful_bob :
  json.faithful (jwtlib.toJSON (accessClaims service bobID RoleAnalyst world)).
Proof. vm_compute. reflexivity. Qed.

(** X1 at Alice's refresh token: accepted a minute after it was
    issued, expired a week after. *)
Lemma refresh_token_window_witness :
  fst (jwt.GenerateRefreshToken service aliceID world) = Ok aliceRefreshToken
  /\ fst (jwt.ValidateRefreshToken service aliceRefreshToken worldLater)
     = Ok aliceID
  /\ fst (jwt.ValidateRefreshToken service aliceRefreshToken
            fixtures.worldWeekLater)
     = Err jwtlib.ErrTokenExpired.
Proof.
  destruct (token_facts.refresh_token_window "test-secret" aliceID world
              worldLater evaluation.faithful_header faithful_refresh)
    as (Hissued & Hvalid & _).
  destruct (token_facts.refresh_token_window "test-secret" aliceID world
              fixtures.worldWeekLater evaluation.faithful_header faithful_refresh)
    as (_ & _ & Hexpired).
  split; [exact Hissued |].
  split; [apply Hvalid; reflexivity |].
  apply Hexpired. apply Z.leb_le. reflexivity.
Defined.

(** X2 at Alice's access token: accepted a minute after it was issued. *)
Lemma access_token_window_witness :
  fst (jwt.ValidateAccessToken service aliceAccessToken worldLater)
  = Ok (accessClaims service aliceID RoleViewer world)
  /\ snd (jwt.ValidateAccessToken service aliceAccessToken worldLater)
     = tick 1 worldLater.
Proof.
  destruct (token_facts.access_token_window "test-secret" aliceID RoleViewer
              world worldLater evaluation.faithful_header evaluation.faithful_alice)
    as (Hvalid & _ & Hworld).
  split; [apply Hvalid; reflexivity | exact Hworld].
Defined.

(** X3 at Alice's refresh token. *)
Lemma refresh_token_passes_as_access_token_witness :
  now worldLater
  < jwtlib.NewNumericDate (now world + jwt.refreshTokenTTL service)
  /\ exists tokenString : string,
       fst (jwt.GenerateRefreshToken service aliceID world) = Ok tokenString
       /\ fst (jwt.ValidateAccessToken service tokenString worldLater)
          = Ok (jwt.mkClaims jwt.zeroUUID EmptyString
                  (refreshClaims service aliceID world)).
Proof.
  split; [reflexivity |].
  apply (token_facts.refresh_token_passes_as_access_token service aliceID
           world worldLater evaluation.faithful_header faithful_refresh).
  reflexivity.
Defined.

(** X4 at a string without dots. *)
Lemma wrong_segment_count_is_malformed_witness :
  wire.dots "invalid-token" <> 2%nat
  /\ jwt.ValidateAccessToken service "invalid-token" world
     = (Err jwtlib.ErrTokenMalformed, world)
  /\ jwt.ValidateRefreshToken service "invalid-token" world
     = (Err jwtlib.ErrTokenMalformed, world).
Proof.
  assert (Hdots : wire.dots "invalid-token" <> 2%nat) by discriminate.
  split; [exact Hdots |].
  exact (wire_facts.wrong_segment_count_is_malformed service "invalid-token"
           world Hdots).
Defined.

(** X5 at Alice's token, issued by two services at the same instant. *)
Lemma access_token_determines_user_witness :
  fst (jwt.GenerateAccessToken service aliceID RoleViewer world)
  = fst (jwt.GenerateAccessToken service aliceID RoleViewer world)
  /\ aliceID = aliceID /\ RoleViewer = RoleViewer.
Proof.
  split; [reflexivity |].
  exact (wire_facts.access_token_determines_user service service
           aliceID aliceID RoleViewer RoleViewer world world
           evaluation.faithful_alice evaluation.faithful_alice eq_refl).
Defined.

(** X6 at a token that claims the admin role under the method [none]. *)
Lemma non_HMAC_token_is_rejected_witness :
  jwtlib.ParseUnverified fixtures.unsignedToken
  = Ok (fixtures.unsigned, fixtures.unsignedSegments)
  /\ wire.isHMAC (jwtlib.Method fixtures.unsigned) = false
  /\ is_Ok (fst (jwt.ValidateAccessToken service fixtures.unsignedToken
                   worldLater)) = false.
Proof.
  assert (Hparsed : jwtlib.ParseUnverified fixtures.unsignedToken
                    = Ok (fixtures.unsigned, fixtures.unsignedSegments))
    by (vm_compute; reflexivity).
  split; [exact Hparsed |]. split; [reflexivity |].
  exact (wire_facts.non_HMAC_token_is_rejected service fixtures.unsignedToken
           worldLater fixtures.unsigned fixtures.unsignedSegments
           Hparsed eq_refl).
Defined.

(** X7 at Alice's claims, signed with HS512. *)
Lemma other_HMAC_methods_accepted_witness :
  exists tokenString : string,
    jwtlib.SignedString
      (jwtlib.NewWithClaims jwtlib.SigningMethodHS512
         (accessClaims service aliceID RoleViewer world))
      (jwt.secretKey service)
    = Ok tokenString
    /\ fst (jwt.ValidateAccessToken service tokenString worldLater)
       = Ok (accessClaims service aliceID RoleViewer world).
Proof.
  apply (wire_facts.other_HMAC_methods_accepted service
           jwtlib.SigningMethodHS512
           (accessClaims service aliceID RoleViewer world) worldLater).
  - reflexivity.
  - vm_compute. reflexivity.
  - exact evaluation.faithful_alice.
  - vm_compute. reflexivity.
  - vm_compute. reflexivity.
Defined.

Lemma digest_verifies (password : string) (stream : nat -> UUID) (n : nat)
    (h : string) (n' : nat) :
  user.bcrypt_generate password stream n = (Ok h, n') ->
  bcrypt_matches h password = true.
Proof.
  cbn [user.bcrypt_generate fixtures.digestHash
       bcrypt_matches memory.digestBcrypt].
  destruct (72 <? String.length password)%nat; [discriminate |].
  intros E. assert (Hh : sha256.Sum256 password = h) by congruence.
  subst h. apply String.eqb_refl.
Qed.

Lemma memory_finds_saved_user (u : User) (d d' : memory.DB) :
  UserRepository.Save memory.userRepo u d = (None, d') ->
  fst (UserRepository.FindByEmail memory.userRepo (domain.Email u) d') = Ok u.
Proof.
  cbn [UserRepository.Save UserRepository.FindByEmail memory.userRepo].
  intros E. assert (Hd : snd (None (A:=error), d') = d') by reflexivity.
  rewrite <- E in Hd. cbn [snd] in Hd. subst d'.
  cbn [fst memory.users find]. now rewrite String.eqb_refl.
Qed.

Lemma find_saved_order (o : order.Order) (l : list order.Order) :
  find (fun x => UUID_eqb (order.ID x) (order.ID o))
       (filter (fun x => negb (UUID_eqb (order.ID x) (order.ID o))) l ++ [o])
  = Some o.
Proof.
  induction l as [| x l IH].
  - rewrite filter_nil. cbn [app find].
    now rewrite uuid_facts.UUID_eqb_refl.
  - rewrite filter_cons.
    destruct (decide (negb (UUID_eqb (order.ID x) (order.ID o))))
      as [Hother | Hsame]; [| exact IH].
    cbn [app find].
    destruct (UUID_eqb (order.ID x) (order.ID o)); [contradiction | exact IH].
Qed.

Lemma memory_finds_saved_order (o : order.Order) (d d' : memory.DB) :
  OrderRepository.Save memory.orderRepo o d = (None, d') ->
  fst (OrderRepository.FindByID memory.orderRepo (order.ID o) d') = Ok o.
Proof.
  cbn [OrderRepository.Save OrderRepository.FindByID memory.orderRepo].
  intros E. assert (Hd : snd (None (A:=error), d') = d') by reflexivity.
  rewrite <- E in Hd. cbn [snd] in Hd. subst d'.
  cbn [fst memory.orders]. now rewrite find_saved_order.
Qed.

(** X11 at Erin, who registers as an administrator: her access token
    carries the admin role. *)
Lemma Register_grants_requested_role_witness :
  fst (registration.Register auth fixtures.erin fixtures.world)
  = Ok fixtures.erinResponse
  /\ domain.Role (User_ fixtures.erinResponse) = RoleAdmin
  /\ fst (jwt.ValidateAccessToken service
            (AccessToken fixtures.erinResponse) (tick 4 fixtures.world))
     = Ok (accessClaims service (domain.ID fixtures.erinUser) RoleAdmin
             (tick 2 fixtures.world)).
Proof.
  assert (Hok : fst (registration.Register auth fixtures.erin fixtures.world)
                = Ok fixtures.erinResponse)
    by (vm_compute; reflexivity).
  split; [exact Hok |].
  destruct (session_facts.Register_grants_requested_role auth fixtures.erin
              fixtures.world (tick 4 fixtures.world) fixtures.erinResponse
              Hok evaluation.faithful_header)
    as (Hrole & _ & _ & Hvalid & _);
    [vm_compute; reflexivity | reflexivity |].
  split; [exact Hrole | exact Hvalid].
Defined.

(** X12 at Erin: she logs in right after registering. *)
Lemma Register_then_Login_witness :
  fst (registration.Register auth fixtures.erin fixtures.world)
  = Ok fixtures.erinResponse
  /\ exists response' : AuthResponse,
       fst (Login auth (mkLoginRequest "erin@example.com" "password123")
              (snd (registration.Register auth fixtures.erin fixtures.world)))
       = Ok response'
       /\ User_ response' = fixtures.erinUser.
Proof.
  assert (Hok : fst (registration.Register auth fixtures.erin fixtures.world)
                = Ok fixtures.erinResponse)
    by (vm_compute; reflexivity).
  split; [exact Hok |].
  apply (session_facts.Register_then_Login auth fixtures.erin fixtures.world
           fixtures.erinResponse).
  - intros h n. apply digest_verifies.
  - exact memory_finds_saved_user.
  - exact Hok.
Defined.

(** X13 at Carol, whose account is inactive. *)
Lemma inactive_account_still_refreshes_witness :
  IsActive carol = false
  /\ fst (Login auth (mkLoginRequest "carol@example.com" "password123")
            worldLater)
     = Err (errors_New "account is inactive")
  /\ fst (RefreshToken auth fixtures.carolRefreshToken worldLater)
     = Ok (session.tokensFor service carol (withDB (tick 1 worldLater) store)).
Proof.
  split; [reflexivity |].
  apply (session_facts.inactive_account_still_refreshes auth carol
           (mkLoginRequest "carol@example.com" "password123")
           fixtures.carolRefreshToken worldLater store store).
  - reflexivity.
  - reflexivity.
  - vm_compute. reflexivity.
  - reflexivity.
Defined.

(** X15 at Alice's order of two units of "intel-premium". *)
Lemma created_order_can_be_read_witness :
  fst (CreateOrder orders aliceID fixtures.aliceRequest fixtures.world)
  = Ok (mkOrderResponse "61626364-6566-6768-00ff-6b6c6d6e6f41"
                        order.OrderStatusConfirmed)
  /\ uuid.Parse "61626364-6566-6768-00ff-6b6c6d6e6f41" = Ok (fixtures.fresh 0)
  /\ exists o : order.Order,
       fst (GetOrder orders (fixtures.fresh 0) aliceID
              (snd (CreateOrder orders aliceID fixtures.aliceRequest
                      fixtures.world)))
       = Ok o
       /\ order.ID o = fixtures.fresh 0
       /\ order.UserID o = aliceID
       /\ order.ItemID o = "intel-premium"
       /\ order.Quantity o = 2
       /\ order.Status o = order.OrderStatusConfirmed.
Proof.
  assert (Hok : fst (CreateOrder orders aliceID fixtures.aliceRequest
                       fixtures.world)
                = Ok (mkOrderResponse "61626364-6566-6768-00ff-6b6c6d6e6f41"
                                      order.OrderStatusConfirmed))
    by (vm_compute; reflexivity).
  split; [exact Hok |].
  assert (Huser :
            is_Ok (fst (UserRepository.FindByID (userRepo orders) aliceID
                          (snd (OrderRepository.FindByID (orderRepo orders)
                                  (fixtures.fresh 0)
                                  (db (snd (CreateOrder orders aliceID
                                              fixtures.aliceRequest
                                              fixtures.world)))))))
            = true)
    by (vm_compute; reflexivity).
  exact (session_facts.created_order_can_be_read orders aliceID
           fixtures.aliceRequest fixtures.world
           (mkOrderResponse "61626364-6566-6768-00ff-6b6c6d6e6f41"
                            order.OrderStatusConfirmed)
           memory_finds_saved_order Huser Hok).
Defined.

(** X17 at Alice's request, with the health handler pending. *)
Lemma no_panic_behind_Auth_witness :
  let m := fixtures.middleware in
  let h := fixtures.handler in
  let c := fixtures.aliceContext in
  (forall (c' : gin.Context) (w' : World memory.DB),
      fst (http.Health h c' w') <> gin.Panicked)
  /\ fst (http.Auth m (http.RequireRole m RoleAdmin (http.Health h)) c
            worldLater) <> gin.Panicked
  /\ fst (http.Auth m (http.CreateOrder h) c worldLater) <> gin.Panicked
  /\ fst (http.Auth m (http.GetOrder h) c worldLater) <> gin.Panicked
  /\ fst (http.Auth m (http.GetUserOrders h) c worldLater) <> gin.Panicked.
Proof.
  intros m h c.
  assert (Hnext : forall (c' : gin.Context) (w' : World memory.DB),
             fst (http.Health h c' w') <> gin.Panicked)
    by (intros c' w' E; discriminate E).
  split; [exact Hnext |].
  exact (http_facts.no_panic_behind_Auth m h RoleAdmin (http.Health h) c
           worldLater Hnext).
Defined.

(** X20 at Alice's request, a minute after her token was issued. *)
Lemma issued_token_passes_Auth_witness :
  let m := fixtures.middleware in
  let c := fixtures.aliceContext in
  let claims := accessClaims service aliceID RoleViewer world in
  http.Auth m (http.Health fixtures.handler) c worldLater
  = http.Health fixtures.handler (route.authenticated c claims)
                (tick 1 worldLater)
  /\ gin.Get (route.authenticated c claims) "user_id"
     = Some (gin.AnyUUID aliceID)
  /\ gin.Get (route.authenticated c claims) "user_role"
     = Some (gin.AnyUserRole RoleViewer).
Proof.
  intros m c claims.
  destruct (http_facts.issued_token_passes_Auth service aliceID RoleViewer
              world (http.Health fixtures.handler) c worldLater
              evaluation.faithful_header evaluation.faithful_alice eq_refl)
    as (Hpass & _ & Hid & Hrole).
  split; [apply Hpass; reflexivity |].
  split; [exact Hid | exact Hrole].
Defined.

(** X21 at Bob, an analyst: refused by the admin group, admitted by
    the analyst group. *)
Lemma role_groups_admit_by_role_witness :
  let m := fixtures.middleware in
  let c := fixtures.bobContext in
  let claims := accessClaims service bobID RoleAnalyst world in
  let next := http.Health fixtures.handler in
  http.Auth m (http.RequireRole m RoleAdmin next) c worldLater
  = (gin.Returned (route.refused (route.authenticated c claims)
                     http.StatusForbidden "Insufficient permissions"),
     tick 1 worldLater)
  /\ http.Auth m (http.RequireRole m RoleAnalyst next) c worldLater
     = next (route.authenticated c claims) (tick 1 worldLater).
Proof.
  intros m c claims next.
  exact (http_facts.role_groups_admit_by_role service bobID RoleAnalyst
           world next c worldLater evaluation.faithful_header faithful_bob
           eq_refl eq_refl).
Defined.


(** X24 at an email that is not stored and at Alice's email with a
    wrong password. *)
Lemma Login_handler_hides_unknown_accounts_witness :
  let h := fixtures.handler in
  let unknown := fixtures.loginContext "nobody@example.com" "password123" in
  let wrong := fixtures.loginContext "alice@example.com" "wrongpassword" in
  let answer (c : gin.Context) :=
    gin.Returned
      (route.failed
         (gin.log c (gin.mkLogEntry "error" "Login failed"
                       [("error", "invalid credentials")]))
         http.StatusUnauthorized "invalid credentials") in
  http.bindLogin (gin.RequestBody unknown)
  = Ok (mkLoginRequest "nobody@example.com" "password123")
  /\ http.bindLogin (gin.RequestBody wrong)
     = Ok (mkLoginRequest "alice@example.com" "wrongpassword")
  /\ fst (http.Login h unknown world) = answer unknown
  /\ fst (http.Login h wrong world) = answer wrong.
Proof.
  intros h unknown wrong answer.
  assert (Hunknown : http.bindLogin (gin.RequestBody unknown)
                     = Ok (mkLoginRequest "nobody@example.com" "password123"))
    by (vm_compute; reflexivity).
  assert (Hwrong : http.bindLogin (gin.RequestBody wrong)
                   = Ok (mkLoginRequest "alice@example.com" "wrongpassword"))
    by (vm_compute; reflexivity).
  split; [exact Hunknown |]. split; [exact Hwrong |].
  split.
  - apply (proj1 (http_facts.Login_handler_hides_unknown_accounts auth
                    (http.orderInterface orders) unknown world _ Hunknown)
             memory.ErrRecordNotFound store).
    reflexivity.
  - apply (proj2 (http_facts.Login_handler_hides_unknown_accounts auth
                    (http.orderInterface orders) wrong world _ Hwrong)
             alice store).
    + reflexivity.
    + reflexivity.
    + vm_compute. reflexivity.
Defined.

End evaluation_more.
